(** * Healthcare facility pipeline: expiry filter and Athena aggregation job

    A shallow embedding of [stage2/scripts/transform_data.py] and
    [stage3/scripts/stage3_lambda.py].  Python values are an inductive
    type, Python strings are lists of Unicode code points, raising is a
    [result], and the wall clock, the loggers, standard output, S3 and
    Athena are threaded through an explicit state-and-exception monad. *)

From Stdlib Require Import ZArith NArith String Ascii DecimalString Lia.
From stdpp Require Import base list option numbers.

(** ** Python strings *)

(** A Python [str] is a sequence of code points. *)
Definition str := list N.

Definition u (s : string) : str :=
    map N_of_ascii (list_ascii_of_string s).
  Arguments u s%_string : simpl never.

Definition N_in (c : N) (cs : list N) : bool := existsb (N.eqb c) cs.

(** [str.splitlines] boundaries: LF, VT, FF, CR, FS, GS, RS, NEL, LS, PS. *)
Definition is_linebreak (c : N) : bool :=
  N_in c [10; 11; 12; 13; 28; 29; 30; 133; 8232; 8233]%N.

(** [str.isspace] for one code point, the set [str.strip()] removes. *)
Definition is_space (c : N) : bool :=
  N_in c [9; 10; 11; 12; 13; 28; 29; 30; 31; 32; 133; 160; 5760;
          8232; 8233; 8239; 8287; 12288]%N
  || ((8192 <=? c) && (c <=? 8202))%N.

(** [s.splitlines()]: [cur] is the current line, reversed.  CR LF is one
    boundary, and a final boundary opens no further line. *)
Fixpoint splitlines_from (cur : str) (s : str) : list str :=
  match s with
  | [] => match cur with [] => [] | _ => [rev cur] end
  | c :: rest =>
      if is_linebreak c then
        rev cur ::
        splitlines_from []
          (match rest with
           | c2 :: r => if ((c =? 13) && (c2 =? 10))%N then r else rest
           | [] => rest
           end)
      else splitlines_from (c :: cur) rest
  end.

Definition splitlines (s : str) : list str := splitlines_from [] s.

Fixpoint lstrip_set (drop : N -> bool) (s : str) : str :=
  match s with
  | c :: rest => if drop c then lstrip_set drop rest else s
  | [] => []
  end.

Definition strip (s : str) : str :=
  rev (lstrip_set is_space (rev (lstrip_set is_space s))).

(** [s.lstrip("/")] *)
Definition lstrip_slash (s : str) : str := lstrip_set (N.eqb 47) s.

Definition str_eqb (a b : str) : bool := bool_decide (a = b).

Fixpoint join (sep : str) (parts : list str) : str :=
  match parts with
  | [] => []
  | [p] => p
  | p :: rest => p ++ sep ++ join sep rest
  end.

(** Decimal rendering of an [int], as [str(n)] and ["%d"] give it. *)
Definition str_of_Z (z : Z) : str :=
  u (NilZero.string_of_int (Z.to_int z)).

(** ** Python values, as [json.loads] produces them *)

(** A [float] is carried as the text [json.dumps] renders for it; no
    modelled function computes with floats.  A [dict] keeps its items in
    insertion order. *)
#[warnings="-register-all"]
Inductive pyval : Type :=
| PNone
| PBool (b : bool)
| PInt (z : Z)
| PFloat (text : str)
| PStr (s : str)
| PList (items : list pyval)
| PDict (items : list (str * pyval)).

(** ** Exceptions and results *)

(** Exception classes; all of them derive from [Exception].  Only the
    messages the scripts build themselves are carried. *)
Inductive exn : Type :=
| TypeError
| AttributeError
| ValueError
| KeyError
| JSONDecodeError
| ClientError (msg : str)
| OtherException (cls msg : str)
| TimeoutError (msg : str)
| RuntimeError (msg : str).

Inductive result (A : Type) : Type :=
| Ok (a : A)
| Raise (e : exn).
Arguments Ok {A} a.
Arguments Raise {A} e.

(** The name of the class of an exception. *)
Definition exn_class (e : exn) : str :=
  match e with
  | TypeError => u "TypeError"
  | AttributeError => u "AttributeError"
  | ValueError => u "ValueError"
  | KeyError => u "KeyError"
  | JSONDecodeError => u "JSONDecodeError"
  | ClientError _ => u "ClientError"
  | OtherException cls _ => cls
  | TimeoutError _ => u "TimeoutError"
  | RuntimeError _ => u "RuntimeError"
  end.

Definition is_ClientError (e : exn) : bool :=
  match e with ClientError _ => true | _ => false end.

(** ** State-and-exception monad

    [W] is the state of the outside world the script acts on.  An
    exception leaves the effects performed before it in place. *)
Module Eff.
Section Monad.
Context {W : Type}.

Definition M (A : Type) : Type := W -> result A * W.

Definition ret {A} (a : A) : M A := fun w => (Ok a, w).

Definition bind {A B} (m : M A) (k : A -> M B) : M B :=
  fun w =>
    match m w with
    | (Ok a, w') => k a w'
    | (Raise e, w') => (Raise e, w')
    end.

Definition raise {A} (e : exn) : M A := fun w => (Raise e, w).

Definition lift {A} (r : result A) : M A := fun w => (r, w).

(** [try: body  except Exception as e: handler e] *)
Definition try_except {A} (body : M A) (handler : exn -> M A) : M A :=
    fun w =>
      match body w with
      | (Ok a, w') => (Ok a, w')
      | (Raise e, w') => handler e w'
      end.
  End Monad.
  Arguments M : clear implicits.
  End Eff.
  Import Eff.

Declare Scope py_scope.
Delimit Scope py_scope with py.
Notation "'let*' x := m 'in' k" := (bind m (fun x => k))
  (at level 10, x name, m at level 100, k at level 200) : py_scope.
Notation "m ;; k" := (bind m (fun _ => k))
  (at level 100, k at level 200, right associativity) : py_scope.

(** ** dict and iteration *)

Fixpoint dict_lookup (key : str) (items : list (str * pyval)) : option pyval :=
  match items with
  | [] => None
  | (k, v) :: rest => if str_eqb k key then Some v else dict_lookup key rest
  end.

(** [obj.get(key, default)]: only a [dict] has the method. *)
Definition py_get (obj : pyval) (key : str) (default : pyval) : result pyval :=
  match obj with
  | PDict items => Ok (from_option id default (dict_lookup key items))
  | _ => Raise AttributeError
  end.

(** The items a [for] loop visits: the elements of a list, the
    characters of a string, the keys of a dict; other values are not
    iterable. *)
Definition py_iter (obj : pyval) : result (list pyval) :=
  match obj with
  | PList items => Ok items
  | PStr s => Ok (map (fun c => PStr [c]) s)
  | PDict items => Ok (map (fun kv => PStr (fst kv)) items)
  | _ => Raise TypeError
  end.

(** ** json.dumps with its default options *)

Definition hex_digit (n : N) : N :=
  (if n <? 10 then 48 + n else 87 + n)%N.

Definition hex4 (n : N) : str :=
  [hex_digit (n / 4096 mod 16); hex_digit (n / 256 mod 16);
   hex_digit (n / 16 mod 16); hex_digit (n mod 16)]%N.

(** One code point under [ensure_ascii=True]: the short escapes, the
    printable ASCII range unchanged, [\uXXXX] otherwise, with a
    surrogate pair above the basic plane. *)
Definition escape_char (c : N) : str :=
  (if c =? 34 then [92; 34]
   else if c =? 92 then [92; 92]
   else if c =? 8 then [92; 98]
   else if c =? 12 then [92; 102]
   else if c =? 10 then [92; 110]
   else if c =? 13 then [92; 114]
   else if c =? 9 then [92; 116]
   else if (32 <=? c) && (c <=? 126) then [c]
   else if c <? 65536 then [92; 117] ++ hex4 c
   else
     let n := c - 65536 in
     [92; 117] ++ hex4 (N.lor 55296 (N.land (N.shiftr n 10) 1023)) ++
     [92; 117] ++ hex4 (N.lor 56320 (N.land n 1023)))%N.

Definition encode_basestring_ascii (s : str) : str :=
  [34%N] ++ concat (map escape_char s) ++ [34%N].

Fixpoint json_dumps (v : pyval) : str :=
  match v with
  | PNone => u "null"
  | PBool true => u "true"
  | PBool false => u "false"
  | PInt z => str_of_Z z
  | PFloat text => text
  | PStr s => encode_basestring_ascii s
  | PList items => u "[" ++ join (u ", ") (map json_dumps items) ++ u "]"
  | PDict items =>
      u "{" ++
      join (u ", ")
        (map (fun kv => match kv with
                        | (k, x) => encode_basestring_ascii k ++ u ": " ++ json_dumps x
                        end) items) ++
      u "}"
  end.

(** ** Dates *)

Record date : Type := Date { year : Z; month : Z; day : Z }.

Record datetime : Type := DateTime {
  dt_date : date;
  hour : Z;
  minute : Z;
  second : Z;
  microsecond : Z
}.

Section Dates.
Local Open Scope Z_scope.

(** [calendar.isleap] *)
Definition isleap (y : Z) : bool :=
  (y mod 4 =? 0) && (negb (y mod 100 =? 0) || (y mod 400 =? 0)).

(** [calendar.monthrange(y, m)[1]] *)
Definition days_in_month (y m : Z) : Z :=
  if m =? 2 then (if isleap y then 29 else 28)
  else if (m =? 4) || (m =? 6) || (m =? 9) || (m =? 11) then 30
  else 31.

(** [a <= b] on [date] objects. *)
Definition date_le (a b : date) : bool :=
  (year a <? year b)
  || ((year a =? year b)
      && ((month a <? month b)
          || ((month a =? month b) && (day a <=? day b)))).

(** [other + relativedelta(months=months)] for [1 <= months <= 12]:
    the month is advanced with carry into the year, the day is clipped
    to the length of the target month, and [date.replace] rejects a
    year outside [MINYEAR..MAXYEAR]. *)
Definition add_months (months : Z) (other : date) : result date :=
  let m := month other + months in
  let y := if m >? 12 then year other + 1 else year other in
  let m := if m >? 12 then m - 12 else m in
  let d := Z.min (days_in_month y m) (day other) in
  if (1 <=? y) && (y <=? 9999) then Ok (Date y m d) else Raise ValueError.

Definition digit (n : Z) : N := Z.to_N (48 + n mod 10).

Definition pad2 (n : Z) : str := [digit (n / 10); digit n].

Definition pad4 (n : Z) : str :=
  [digit (n / 1000); digit (n / 100); digit (n / 10); digit n].

(** [dt.strftime("%Y%m%dT%H%M%SZ")] *)
Definition strftime_compact (dt : datetime) : str :=
    pad4 (year (dt_date dt)) ++ pad2 (month (dt_date dt)) ++
    pad2 (day (dt_date dt)) ++ u "T" ++
    pad2 (hour dt) ++ pad2 (minute dt) ++ pad2 (second dt) ++ u "Z".

(** A calendar date as [datetime.date] admits it. *)
Definition valid_date (d : date) : bool :=
  (1 <=? year d) && (year d <=? 9999) && (1 <=? month d) && (month d <=? 12)
  && (1 <=? day d) && (day d <=? days_in_month (year d) (month d)).

End Dates.

(** * Stage 2: [transform_data.py] *)

Module TransformData.

Definition RAW_BUCKET : str := u "healthcare-facility".
Definition TRANSFORMED_BUCKET : str := u "healthcare-facility".
Definition RAW_KEY : str := u "raw/sample_facility_data.json".
Definition TRANSFORMED_KEY : str := u "transformed/expiring_facilities.json".

Inductive level : Type := INFO | ERROR.

(** The log lines of the script, one constructor per call site, with the
    values its format string interpolates. *)
Inductive message : Type :=
| Starting
| ReadingInput
| FoundFacilities (n : nat)
| ReadFailed (e : exn)
| GetAllError (e : exn)
| Writing (n : nat)
| WriteFailed (e : exn)
| WriteError (e : exn)
| CheckError (e : exn) (valid_until : pyval)
| Filtering (cutoff : date)
| AccreditationExpiring (facility_name accreditation_body valid_until : pyval)
| FoundExpiring (n : nat) (cutoff : date)
| Completed.

(** The two calls made on the boto3 S3 client.  [get_object] stands for
    [get_object(Bucket, Key)["Body"].read().decode("utf-8")]. *)
Record s3_client : Type := S3Client {
  get_object : str -> str -> result str;
  put_object : str -> str -> str -> result unit
}.

(** What a run can observe or change: how often the clock was read, the
    log, standard output, and the objects written to S3. *)
Record world : Type := World {
  clock_reads : nat;
  log : list (level * message);
  stdout : list str;
  written : list (str * str * str)
}.

Definition logged (l : level) (m : message) (w : world) : world :=
  World (clock_reads w) (log w ++ [(l, m)]) (stdout w) (written w).

Definition ticked (w : world) : world :=
  World (S (clock_reads w)) (log w) (stdout w) (written w).

Section Script.
(** [now n] is what the [n]-th call of [datetime.now()] returns. *)
Variable now : nat -> datetime.
(** [datetime.fromisoformat] on a [str]; [None] when it raises
    [ValueError]. *)
Variable fromisoformat : str -> option datetime.
(** [json.loads] on a [str]: the value, or the exception it raises.  For
    text that is not JSON that is [JSONDecodeError]; it also raises
    [ValueError] for an integer literal beyond the digit limit of [int]
    and [RecursionError] for nesting deeper than the interpreter allows. *)
Variable json_loads : str -> result pyval.

Local Open Scope py_scope.

Definition logger_info (m : message) : M world unit :=
  fun w => (Ok tt, logged INFO m w).

Definition logger_error (m : message) : M world unit :=
  fun w => (Ok tt, logged ERROR m w).

Definition print (line : str) : M world unit :=
  fun w => (Ok tt, World (clock_reads w) (log w) (stdout w ++ [line]) (written w)).

Definition datetime_now : M world datetime :=
  fun w => (Ok (now (clock_reads w)), ticked w).

(** [datetime.fromisoformat(x)]: [TypeError] unless [x] is a [str]. *)
Definition datetime_fromisoformat (x : pyval) : result datetime :=
  match x with
  | PStr s =>
      match fromisoformat s with
      | Some dt => Ok dt
      | None => Raise ValueError
      end
  | _ => Raise TypeError
  end.

(** [datetime.now().date() + relativedelta(months=6)] *)
Definition six_month_cutoff : M world date :=
  let* today := datetime_now in
  lift (add_months 6 (dt_date today)).

Fixpoint parse_lines (lines : list str) (facilities : list pyval)
  : M world (list pyval) :=
  match lines with
  | [] => ret facilities
  | line :: rest =>
      let line := strip line in
      match line with
      | [] => parse_lines rest facilities
      | _ =>
          let* facilities :=
            try_except
              (let* record :=
                 lift (json_loads line) in
               ret (facilities ++ [record]))
              (fun e =>
                 match e with
                 | JSONDecodeError =>
                     print (u "Error parsing JSON line: " ++ line) ;;
                     ret facilities
                 | _ => raise e
                 end) in
          parse_lines rest facilities
      end
  end.

Definition parse_json_lines (body : str) : M world (list pyval) :=
  parse_lines (splitlines body) [].

Definition check_if_expiring (valid_until : pyval) : M world bool :=
  try_except
    (let* parsed := lift (datetime_fromisoformat valid_until) in
     let* cutoff := six_month_cutoff in
     ret (date_le (dt_date parsed) cutoff))
    (fun e =>
       logger_error (CheckError e valid_until) ;;
       ret false).

Definition write_to_s3 (s3 : s3_client) (data : list pyval) : M world unit :=
  try_except
    (logger_info (Writing (length data)) ;;
     let body := json_dumps (PList data) in
     lift (put_object s3 TRANSFORMED_BUCKET TRANSFORMED_KEY body) ;;
     fun w =>
       (Ok tt,
        World (clock_reads w) (log w) (stdout w)
          (written w ++ [(TRANSFORMED_BUCKET, TRANSFORMED_KEY, body)])))
    (fun e =>
       if is_ClientError e then logger_error (WriteFailed e)
       else logger_error (WriteError e)) ;;
  ret tt.

Definition get_all_facilities (s3 : s3_client) : M world (list pyval) :=
  try_except
    (logger_info ReadingInput ;;
     let* text := lift (get_object s3 RAW_BUCKET RAW_KEY) in
     let body := strip text in
     let* facilities := parse_json_lines body in
     logger_info (FoundFacilities (length facilities)) ;;
     ret facilities)
    (fun e =>
       if is_ClientError e then logger_error (ReadFailed e) ;; ret []
       else logger_error (GetAllError e) ;; ret []).

(** The inner [for acc in accreditations] loop; [true] when it ended
    by [break], that is when the facility was appended. *)
Fixpoint scan_accreditations (facility : pyval) (accreditations : list pyval)
  : M world bool :=
  match accreditations with
  | [] => ret false
  | acc :: rest =>
      let* valid_until := lift (py_get acc (u "valid_until") PNone) in
      let* expiring := check_if_expiring valid_until in
      if expiring then
        let* name := lift (py_get facility (u "facility_name") PNone) in
        let* body := lift (py_get acc (u "accreditation_body") PNone) in
        let* shown := lift (py_get acc (u "valid_until") PNone) in
        logger_info (AccreditationExpiring name body shown) ;;
        ret true
      else scan_accreditations facility rest
  end.

(** The outer [for facility in facilities] loop. *)
Fixpoint filter_facilities (facilities expiring_facilities : list pyval)
  : M world (list pyval) :=
  match facilities with
  | [] => ret expiring_facilities
  | facility :: rest =>
      let* value := lift (py_get facility (u "accreditations") (PList [])) in
      let* accreditations := lift (py_iter value) in
      let* matched := scan_accreditations facility accreditations in
      filter_facilities rest
        (if matched then expiring_facilities ++ [facility]
         else expiring_facilities)
  end.

Definition filter_expiring_facilities (facilities : list pyval)
  : M world (list pyval) :=
  let* cutoff := six_month_cutoff in
  logger_info (Filtering cutoff) ;;
  let* expiring_facilities := filter_facilities facilities [] in
  let* cutoff := six_month_cutoff in
  logger_info (FoundExpiring (length expiring_facilities) cutoff) ;;
  ret expiring_facilities.

(** The [__main__] block, given the client [get_s3_client()] built. *)
Definition main (s3 : s3_client) : M world unit :=
  logger_info Starting ;;
  let* facilities := get_all_facilities s3 in
  let* expiring_facilities := filter_expiring_facilities facilities in
  write_to_s3 s3 expiring_facilities ;;
  logger_info Completed.

(** ** Reference functions for the statements *)

(** The lines [parse_json_lines] tries to parse: stripped, non-empty. *)
Definition candidate_lines (body : str) : list str :=
  List.filter (fun l => negb (bool_decide (l = []))) (map strip (splitlines body)).

Definition parses (line : str) : bool :=
  match json_loads line with Ok _ => true | Raise _ => false end.

(** The record [json.loads] gives for a line, when it gives one. *)
Definition loaded (line : str) : option pyval :=
  match json_loads line with Ok v => Some v | Raise _ => None end.

(** The lines the [except json.JSONDecodeError] clause skips. *)
Definition rejected (line : str) : bool :=
  match json_loads line with Raise JSONDecodeError => true | _ => false end.

(** The exception of [json.loads] on a line that the clause does not
    catch, when there is one. *)
Definition uncaught (line : str) : option exn :=
  match json_loads line with
  | Raise JSONDecodeError => None
  | Raise e => Some e
  | Ok _ => None
  end.

(** A line [json.loads] either loads or refuses as not being JSON. *)
Definition decided (line : str) : bool :=
  match uncaught line with None => true | Some _ => false end.

(** The lines gone through before the first one with an uncaught
    exception, and that exception. *)
Fixpoint read_lines (lines : list str) : list str * option exn :=
  match lines with
  | [] => ([], None)
  | line :: rest =>
      match uncaught line with
      | Some e => ([], Some e)
      | None => let '(gone, stop) := read_lines rest in (line :: gone, stop)
      end
  end.

Definition parse_error_line (line : str) : str :=
  u "Error parsing JSON line: " ++ line.

(** The expiry predicate against a given cutoff computation. *)
Definition expiring_by (cutoff : result date) (valid_until : pyval) : bool :=
  match datetime_fromisoformat valid_until, cutoff with
  | Ok parsed, Ok c => date_le (dt_date parsed) c
  | _, _ => false
  end.

(** The effect of one call of [check_if_expiring]: a value that does
    not parse is logged and the clock is not read; otherwise the clock
    is read once, and a cutoff that cannot be built is logged. *)
Definition check_effect (valid_until : pyval) (w : world) : world :=
  match datetime_fromisoformat valid_until with
  | Raise e => logged ERROR (CheckError e valid_until) w
  | Ok _ =>
      match add_months 6 (dt_date (now (clock_reads w))) with
      | Ok _ => ticked w
      | Raise e => logged ERROR (CheckError e valid_until) (ticked w)
      end
  end.

Definition is_dict (v : pyval) : bool :=
  match v with PDict _ => true | _ => false end.

(** [obj.get(key)] read off a dict; [None] for anything else. *)
Definition field (obj : pyval) (key : str) : pyval :=
  match py_get obj key PNone with Ok v => v | Raise _ => PNone end.

Definition accreditations_of (facility : pyval) : list pyval :=
  match py_get facility (u "accreditations") (PList []) with
  | Ok (PList items) => items
  | _ => []
  end.

(** A Facility Record of the data model: a mapping whose accreditations,
    when present, are a list of mappings. *)
Definition well_formed_facility (facility : pyval) : bool :=
  match py_get facility (u "accreditations") (PList []) with
  | Ok (PList items) => forallb is_dict items
  | _ => false
  end.

(** A facility without the key, or with an empty list under it. *)
Definition lacks_accreditations (facility : pyval) : bool :=
  match py_get facility (u "accreditations") (PList []) with
  | Ok (PList []) => true
  | _ => false
  end.

Definition acc_expiring (cutoff : result date) (acc : pyval) : bool :=
  expiring_by cutoff (field acc (u "valid_until")).

Definition has_expiring (cutoff : result date) (facility : pyval) : bool :=
  existsb (acc_expiring cutoff) (accreditations_of facility).

(** The accreditations the inner loop looks at: up to and including the
    first one satisfying [p]. *)
Fixpoint visited (p : pyval -> bool) (accreditations : list pyval) : list pyval :=
  match accreditations with
  | [] => []
  | acc :: rest => if p acc then [acc] else acc :: visited p rest
  end.

Definition seen (cutoff : result date) (facility : pyval) : list pyval :=
  visited (acc_expiring cutoff) (accreditations_of facility).

Definition date_parses (acc : pyval) : bool :=
  match datetime_fromisoformat (field acc (u "valid_until")) with
  | Ok _ => true
  | Raise _ => false
  end.

(** What looking at one accreditation logs, against cutoff [c]. *)
Definition visit_log (c : date) (facility acc : pyval) : list (level * message) :=
  let v := field acc (u "valid_until") in
  match datetime_fromisoformat v with
  | Raise e => [(ERROR, CheckError e v)]
  | Ok parsed =>
      if date_le (dt_date parsed) c
      then [(INFO, AccreditationExpiring (field facility (u "facility_name"))
                     (field acc (u "accreditation_body")) v)]
      else []
  end.

(** The filter as section 4.2 of the specification words it: the
    horizon is computed once per pass and every record of the batch is
    evaluated against that one cutoff. *)
Definition filter_with_single_cutoff (facilities : list pyval)
  : M world (list pyval) :=
  let* cutoff := six_month_cutoff in
  ret (List.filter (has_expiring (Ok cutoff)) facilities).

(** The line logged when reading the input fails with [e], and the one
    logged when writing the output does. *)
Definition read_failure (e : exn) : level * message :=
  (ERROR, if is_ClientError e then ReadFailed e else GetAllError e).

Definition write_failure (e : exn) : level * message :=
  (ERROR, if is_ClientError e then WriteFailed e else WriteError e).

(** The calendar date of the clock stays [today] from reading [from] on. *)
Definition date_stable (from : nat) (today : date) : Prop :=
  forall n, from <= n -> dt_date (now n) = today.

(** A facility the pass gets through against [cutoff]: a mapping whose
    accreditations, when present, are a list in which every entry the
    inner loop looks at is a mapping. *)
Definition scannable (cutoff : result date) (facility : pyval) : bool :=
  match py_get facility (u "accreditations") (PList []) with
  | Ok (PList items) => forallb is_dict (visited (acc_expiring cutoff) items)
  | _ => false
  end.

(** The log lines of a pass over [facilities] against cutoff [c],
    between its first and its last line. *)
Definition pass_log (c : date) (facilities : list pyval) : list (level * message) :=
  flat_map (fun f => flat_map (visit_log c f) (seen (Ok c) f)) facilities.

End Script.

End TransformData.

(** * Stage 3: [stage3_lambda.py] *)

Module Stage3Lambda.

Definition ATHENA_DB : str := u "healthcare_facility_db".
Definition ATHENA_OUTPUT_LOCATION : str := u "s3://healthcare-facility/athena_results/".
Definition FINAL_RESULTS_BUCKET : str := u "healthcare-facility".
Definition FINAL_RESULTS_PREFIX : str := u "transformed/".

Definition STATE_COUNTS_QUERY : str :=
  [10%N] ++
  concat (map (fun line => u line ++ [10%N])
    ["SELECT ";
     "    location.state,";
     "    COUNT(DISTINCT facility_id) AS accredited_facility_count";
     "FROM healthcare_facility_db.raw";
     "WHERE cardinality(accreditations) > 0";
     "GROUP BY location.state;"]%string).

Inductive level : Type := INFO | ERROR.

(** The log lines of the handler, one constructor per call site. *)
Inductive message : Type :=
| ReceivedEvent (event_json : str)
| UsingOutputLocation (location : str)
| StartedQuery (query_execution_id : str)
| QueryState (state : str) (attempt : Z)
| Copying (src_bucket src_key dst_bucket dst_key : str)
| QueryDidNotSucceed (state : str)
| StateCountsWritten (path : str).

(** The part of a [get_query_execution] response the handler reads:
    [QueryExecution.Status.State] and
    [QueryExecution.ResultConfiguration.OutputLocation]. *)
Record query_execution : Type := QueryExecution {
  State : str;
  OutputLocation : option str
}.

(** [urlparse(url)]: the two components the handler uses. *)
Record parse_result : Type := ParseResult { netloc : str; path : str }.

Record copy_request : Type := CopyRequest {
  Bucket : str;
  Key : str;
  CopySource : str * str
}.

(** What an invocation can observe or change: queries started, state
    fetches made, delays slept, clock reads, copies made, log lines. *)
Record world : Type := World {
  started : list (str * str * str);
  fetches : nat;
  slept : list Z;
  utc_reads : nat;
  copies : list copy_request;
  log : list (level * message)
}.

Definition logged (l : level) (m : message) (w : world) : world :=
  World (started w) (fetches w) (slept w) (utc_reads w) (copies w) (log w ++ [(l, m)]).

Section Handler.
(** [athena.start_query_execution(...)["QueryExecutionId"]] *)
Variable start_query_execution : str -> str -> str -> result str.
(** The response to the [n]-th call of [athena.get_query_execution]. *)
Variable get_query_execution : nat -> str -> result query_execution.
(** [s3.copy_object(Bucket, Key, CopySource)] *)
Variable copy_object : copy_request -> result unit.
(** [utcnow n] is what the [n]-th call of [datetime.utcnow()] returns. *)
Variable utcnow : nat -> datetime.
Variable urlparse : str -> result parse_result.

Local Open Scope py_scope.

Definition logger_info (m : message) : M world unit :=
  fun w => (Ok tt, logged INFO m w).

Definition logger_error (m : message) : M world unit :=
  fun w => (Ok tt, logged ERROR m w).

Definition athena_start_query_execution (query database output : str) : M world str :=
  fun w =>
    match start_query_execution query database output with
    | Ok id =>
        (Ok id,
         World (started w ++ [(query, database, output)]) (fetches w) (slept w)
           (utc_reads w) (copies w) (log w))
    | Raise e => (Raise e, w)
    end.

Definition athena_get_query_execution (query_execution_id : str)
  : M world query_execution :=
  fun w =>
    (get_query_execution (fetches w) query_execution_id,
     World (started w) (S (fetches w)) (slept w) (utc_reads w) (copies w) (log w)).

(** [time.sleep(delay)]; a negative delay is a [ValueError]. *)
Definition time_sleep (delay : Z) : M world unit :=
  fun w =>
    if (delay <? 0)%Z then (Raise ValueError, w)
    else (Ok tt,
          World (started w) (fetches w) (slept w ++ [delay]) (utc_reads w)
            (copies w) (log w)).

Definition datetime_utcnow : M world datetime :=
  fun w =>
    (Ok (utcnow (utc_reads w)),
     World (started w) (fetches w) (slept w) (S (utc_reads w)) (copies w) (log w)).

Definition s3_copy_object (request : copy_request) : M world unit :=
  fun w =>
    match copy_object request with
    | Ok _ =>
        (Ok tt,
         World (started w) (fetches w) (slept w) (utc_reads w)
           (copies w ++ [request]) (log w))
    | Raise e => (Raise e, w)
    end.

Definition start_athena_query : M world str :=
  logger_info (UsingOutputLocation ATHENA_OUTPUT_LOCATION) ;;
  let* query_execution_id :=
    athena_start_query_execution STATE_COUNTS_QUERY ATHENA_DB ATHENA_OUTPUT_LOCATION in
  logger_info (StartedQuery query_execution_id) ;;
  ret query_execution_id.

(** [state in ("SUCCEEDED", "FAILED", "CANCELLED")] *)
Definition is_terminal (state : str) : bool :=
  str_eqb state (u "SUCCEEDED") || str_eqb state (u "FAILED")
  || str_eqb state (u "CANCELLED").

Definition running (state : str) : bool := str_eqb state (u "RUNNING").
Definition pending (state : str) : bool := negb (is_terminal state).

(** The [for attempt in range(max_tries)] loop, with [remaining]
    iterations to go and [attempt] the loop variable. *)
Fixpoint poll (query_execution_id : str) (delay : Z) (remaining : nat) (attempt : Z)
  : M world str :=
  match remaining with
  | O => raise (TimeoutError (u "Athena query timed out"))
  | S remaining =>
      let* response := athena_get_query_execution query_execution_id in
      let state := State response in
      logger_info (QueryState state (attempt + 1)) ;;
      if is_terminal state then ret state
      else
        time_sleep delay ;;
        poll query_execution_id delay remaining (attempt + 1)
  end.

Definition wait_for_query (query_execution_id : str) (max_tries delay : Z)
  : M world str :=
  poll query_execution_id delay (Z.to_nat max_tries) 0.

Definition copy_results_to_final_location (query_execution_id : str) : M world str :=
  let* execution := athena_get_query_execution query_execution_id in
  let* output_location :=
    lift (match OutputLocation execution with
          | Some location => Ok location
          | None => Raise KeyError
          end) in
  let* parsed := lift (urlparse output_location) in
  let src_bucket := netloc parsed in
  let src_key := lstrip_slash (path parsed) in
  let* now := datetime_utcnow in
  let timestamp := strftime_compact now in
  let dest_key := FINAL_RESULTS_PREFIX ++ u "state_counts_" ++ timestamp ++ u ".csv" in
  logger_info (Copying src_bucket src_key FINAL_RESULTS_BUCKET dest_key) ;;
  s3_copy_object (CopyRequest FINAL_RESULTS_BUCKET dest_key (src_bucket, src_key)) ;;
  ret (u "s3://" ++ FINAL_RESULTS_BUCKET ++ u "/" ++ dest_key).

(** The dict the handler returns for the path of the archived result. *)
Definition success_payload (final_s3_path : str) : pyval :=
  PDict
    [(u "statusCode", PInt 200);
     (u "body",
      PStr (json_dumps
              (PDict [(u "message", PStr (u "Athena state counts query completed"));
                      (u "result_path", PStr final_s3_path)])))].

Definition lambda_handler (event context : pyval) : M world pyval :=
  logger_info (ReceivedEvent (json_dumps event)) ;;
  let* query_execution_id := start_athena_query in
  let* state := wait_for_query query_execution_id 20 3 in
  if negb (str_eqb state (u "SUCCEEDED")) then
    logger_error (QueryDidNotSucceed state) ;;
    raise (RuntimeError (u "Athena query failed with state: " ++ state))
  else
    let* final_s3_path := copy_results_to_final_location query_execution_id in
    logger_info (StateCountsWritten final_s3_path) ;;
    ret (success_payload final_s3_path).

(** The world once the handler has logged the event and started the
    query [id]. *)
Definition after_start (event : pyval) (id : str) (w : world) : world :=
  World (started w ++ [(STATE_COUNTS_QUERY, ATHENA_DB, ATHENA_OUTPUT_LOCATION)])
    (fetches w) (slept w) (utc_reads w) (copies w)
    (log w ++ [(INFO, ReceivedEvent (json_dumps event));
               (INFO, UsingOutputLocation ATHENA_OUTPUT_LOCATION);
               (INFO, StartedQuery id)]).

(** The [i]-th state fetch counted from world [w] answers with a state
    satisfying [p]. *)
Definition fetch_answers (id : str) (w : world) (i : nat) (p : str -> bool) : Prop :=
  exists response,
    get_query_execution (fetches w + i) id = Ok response /\ p (State response) = true.

Definition archive_key (stamp : datetime) : str :=
  FINAL_RESULTS_PREFIX ++ u "state_counts_" ++ strftime_compact stamp ++ u ".csv".

(** The fields [strftime] prints are in the ranges of a [datetime]. *)
Definition stamp_in_range (dt : datetime) : Prop :=
  (1 <= year (dt_date dt) <= 9999 /\ 1 <= month (dt_date dt) <= 12
   /\ 1 <= day (dt_date dt) <= 31 /\ 0 <= hour dt <= 23
   /\ 0 <= minute dt <= 59 /\ 0 <= second dt <= 59)%Z.

(** The world apart from the log. *)
Definition observable (w : world)
  : list (str * str * str) * nat * list Z * nat * list copy_request :=
  (started w, fetches w, slept w, utc_reads w, copies w).

(** Two computations that, from worlds differing in the log at most,
    give the same result and worlds differing in the log at most. *)
Definition log_blind {A} (m1 m2 : M world A) : Prop :=
  forall w1 w2,
    observable w1 = observable w2 ->
    fst (m1 w1) = fst (m2 w2) /\ observable (snd (m1 w1)) = observable (snd (m2 w2)).

(** The request the archiver sends for the parsed source location and
    the clock reading [stamp]. *)
Definition archive_request (parsed : parse_result) (stamp : datetime) : copy_request :=
  CopyRequest FINAL_RESULTS_BUCKET (archive_key stamp)
    (netloc parsed, lstrip_slash (path parsed)).

Definition archive_path (stamp : datetime) : str :=
  u "s3://" ++ FINAL_RESULTS_BUCKET ++ u "/" ++ archive_key stamp.

End Handler.

End Stage3Lambda.

(** * Concrete environments and inputs *)

Module Samples.

(** The date-only form [YYYY-MM-DD], which every version of
    [datetime.fromisoformat] accepts; used to run the examples. *)
Definition digit_value (c : N) : option Z :=
  if ((48 <=? c) && (c <=? 57))%N then Some (Z.of_N c - 48)%Z else None.

Definition number (cs : list N) : option Z :=
  fold_left
    (fun acc c =>
       match acc, digit_value c with
       | Some a, Some d => Some (10 * a + d)%Z
       | _, _ => None
       end)
    cs (Some 0%Z).

Definition fromisoformat_date_only (s : str) : option datetime :=
  match s with
  | [y1; y2; y3; y4; h1; m1; m2; h2; d1; d2] =>
      match number [y1; y2; y3; y4], number [m1; m2], number [d1; d2] with
      | Some y, Some m, Some d =>
          if ((h1 =? 45)%N && (h2 =? 45)%N && (1 <=? y)%Z && (1 <=? m)%Z
              && (m <=? 12)%Z && (1 <=? d)%Z && (d <=? days_in_month y m)%Z)
          then Some (DateTime (Date y m d) 0 0 0 0)
          else None
      | _, _, _ => None
      end
  | _ => None
  end.

(** [json.loads] restricted to the texts listed in [table]. *)
Definition json_loads_of (table : list (str * pyval)) (line : str) : result pyval :=
  match dict_lookup line table with
  | Some v => Ok v
  | None => Raise JSONDecodeError
  end.

(** [json.loads] on a line of decimal digits: an [int], unless the line
    has more than the 4300 digits [int] converts by default, which is a
    [ValueError], or a leading zero, which is not JSON.  Other lines go
    to [otherwise]. *)
Definition json_loads_digits (otherwise : str -> result pyval) (line : str)
  : result pyval :=
  match line with
  | first :: rest =>
      match number line with
      | Some n =>
          if (first =? 48)%N && negb (bool_decide (rest = [])) then Raise JSONDecodeError
          else if 4300 <? length line then Raise ValueError
          else Ok (PInt n)
      | None => otherwise line
      end
  | [] => otherwise line
  end.

(** A clock that shows noon of [today] at every reading. *)
Definition frozen_clock (today : date) : nat -> datetime :=
  fun _ => DateTime today 12 0 0 0.

(** A clock that passes midnight between its second and third reading. *)
Definition midnight_clock : nat -> datetime :=
  fun n =>
    if n <=? 1 then DateTime (Date 2023 7 31) 23 59 59 999999
    else DateTime (Date 2023 8 1) 0 0 0 0.

Definition on_2023_08_01 : nat -> datetime := frozen_clock (Date 2023 8 1).
Definition on_2023_01_01 : nat -> datetime := frozen_clock (Date 2023 1 1).

Definition facility (name valid_until : string) : pyval :=
  PDict [(u "facility_name", PStr (u name));
         (u "accreditations", PList [PDict [(u "valid_until", PStr (u valid_until))]])].

Definition facility_A : pyval := facility "A" "2024-01-01".
Definition facility_P : pyval := facility "P" "2024-02-01".
Definition facility_Q : pyval := facility "Q" "2024-02-01".

(** A record without the ["accreditations"] key. *)
Definition facility_bare : pyval := PDict [(u "facility_name", PStr (u "C"))].

(** A record whose second accreditation is not a mapping. *)
Definition facility_ragged : pyval :=
  PDict [(u "facility_name", PStr (u "R"));
         (u "accreditations",
          PList [PDict [(u "valid_until", PStr (u "2024-01-01"))]; PInt 42])].

Definition stage2_start : TransformData.world := TransformData.World 0 [] [] [].

(** An S3 client every call of which is rejected by the service. *)
Definition failing_s3 : TransformData.s3_client :=
  TransformData.S3Client
    (fun _ _ => Raise (ClientError (u "AccessDenied")))
    (fun _ _ _ => Raise (ClientError (u "AccessDenied"))).

Definition RUNNING : str := u "RUNNING".
Definition SUCCEEDED : str := u "SUCCEEDED".
Definition FAILED : str := u "FAILED".

(** An Athena service answering the successive state fetches with the
    states of [script], and with [rest] once the script is used up. *)
Definition athena_script (script : list str) (rest : str)
  : nat -> str -> result Stage3Lambda.query_execution :=
  fun n _ =>
    Ok (Stage3Lambda.QueryExecution (nth n script rest)
          (Some (u "s3://healthcare-facility/athena_results/q-1.csv"))).

Definition accept_query : str -> str -> str -> result str :=
  fun _ _ _ => Ok (u "q-1").

Definition accept_copy : Stage3Lambda.copy_request -> result unit :=
  fun _ => Ok tt.

(** [urlparse] on URLs of the form [s3://bucket/key]. *)
Fixpoint split_at_slash (s : str) : str * str :=
  match s with
  | [] => ([], [])
  | c :: rest =>
      if (c =? 47)%N then ([], s)
      else let '(host, tail) := split_at_slash rest in (c :: host, tail)
  end.

Definition urlparse_s3 (url : str) : result Stage3Lambda.parse_result :=
  match url with
  | 115%N :: 51%N :: 58%N :: 47%N :: 47%N :: rest =>
      let '(host, tail) := split_at_slash rest in
      Ok (Stage3Lambda.ParseResult host tail)
  | _ => Raise ValueError
  end.

Definition utc_sample : nat -> datetime :=
  fun _ => DateTime (Date 2024 1 2) 3 4 5 678000.

Definition stage3_start : Stage3Lambda.world := Stage3Lambda.World [] 0 [] 0 [] [].

(** A facility whose ["accreditations"] is [null]. *)
Definition facility_null : pyval :=
  PDict [(u "facility_name", PStr (u "N")); (u "accreditations", PNone)].

(** A facility whose first accreditation does not match and whose
    second is not a mapping. *)
Definition facility_broken : pyval :=
  PDict [(u "facility_name", PStr (u "K"));
         (u "accreditations",
          PList [PDict [(u "valid_until", PStr (u "2030-01-01"))]; PInt 42])].

Definition quoted (s : string) : str := [34%N] ++ u s ++ [34%N].

(** The JSON text of [facility name valid_until] on one line. *)
Definition facility_line (name valid_until : string) : str :=
  u "{" ++ quoted "facility_name" ++ u ":" ++ quoted name ++ u ","
  ++ quoted "accreditations" ++ u ":[{" ++ quoted "valid_until" ++ u ":"
  ++ quoted valid_until ++ u "}]}".

(** [json.loads] on the lines used below. *)
Definition json_loads_lines : str -> result pyval :=
  json_loads_of
    [(facility_line "A" "2024-01-01", facility "A" "2024-01-01");
     (facility_line "B" "2025-01-01", facility "B" "2025-01-01");
     (u "[1]", PList [PInt 1])].

(** Facility A, a line that is not JSON, facility B. *)
Definition body_two_facilities : str :=
  facility_line "A" "2024-01-01" ++ [10%N] ++ u "{oops" ++ [10%N]
  ++ facility_line "B" "2025-01-01" ++ [10%N].

(** Facility A, then a JSON array. *)
Definition body_with_array : str :=
  facility_line "A" "2024-01-01" ++ [10%N] ++ u "[1]" ++ [10%N].

(** The line [7], a line of 4301 digits, the line [8]. *)
Definition body_long_integer : str :=
  u "7" ++ [10%N] ++ repeat 49%N 4301 ++ [10%N] ++ u "8".

(** [json.loads] on lines of digits; nothing else is JSON to it. *)
Definition json_loads_integers : str -> result pyval :=
  json_loads_digits (json_loads_of []).

(** An S3 client that serves [text] and accepts every write. *)
Definition serving_s3 (text : str) : TransformData.s3_client :=
  TransformData.S3Client (fun _ _ => Ok text) (fun _ _ _ => Ok tt).

(** An S3 client that cannot read and accepts every write. *)
Definition unreadable_s3 : TransformData.s3_client :=
  TransformData.S3Client
    (fun _ _ => Raise (ClientError (u "NoSuchKey")))
    (fun _ _ _ => Ok tt).

(** A clock in the last months of the last year of [datetime]. *)
Definition last_year_clock : nat -> datetime :=
  frozen_clock (Date 9999 8 15).

Definition refuse_query : str -> str -> str -> result str :=
  fun _ _ _ => Raise (ClientError (u "InvalidRequestException")).

Definition reject_copy : Stage3Lambda.copy_request -> result unit :=
  fun _ => Raise (ClientError (u "AccessDenied")).

(** An Athena service that answers RUNNING twice and then fails. *)
Definition athena_throttled : nat -> str -> result Stage3Lambda.query_execution :=
  fun n id =>
    if n <? 2 then athena_script [] RUNNING n id
    else Raise (ClientError (u "ThrottlingException")).

(** An Athena service that reports SUCCEEDED without an output location. *)
Definition athena_without_location : nat -> str -> result Stage3Lambda.query_execution :=
  fun _ _ => Ok (Stage3Lambda.QueryExecution SUCCEEDED None).

End Samples.

(** * Properties of the Python primitives *)

Example splitlines_doc :
  splitlines (u "ab c" ++ [10; 10]%N ++ u "de fg" ++ [13]%N ++ u "kl" ++ [13; 10]%N)
  = [u "ab c"; []; u "de fg"; u "kl"].
Proof. reflexivity. Qed.

Example json_dumps_sample :
  json_dumps (PDict [(u "a", PList [PInt (-12); PNone; PBool true]); (u "b", PStr (u "x/y"))])
  = u "{" ++ [34%N] ++ u "a" ++ [34%N] ++ u ": [-12, null, true], " ++
    [34%N] ++ u "b" ++ [34%N] ++ u ": " ++ [34%N] ++ u "x/y" ++ [34%N] ++ u "}".
Proof. reflexivity. Qed.

Example add_months_clip :
  add_months 6 (Date 2023 8 31) = Ok (Date 2024 2 29).
Proof. reflexivity. Qed.

(** * Properties of the expiry filter *)

Module TransformDataFacts.
Import TransformData.

Section Proofs.
Variable now : nat -> datetime.
Variable fromisoformat : str -> option datetime.
Variable json_loads : str -> result pyval.

Abbreviation parse_lines := (parse_lines json_loads).
Abbreviation parse_json_lines := (parse_json_lines json_loads).
Abbreviation check_if_expiring := (check_if_expiring now fromisoformat).
Abbreviation expiring_by := (expiring_by fromisoformat).
Abbreviation check_effect := (check_effect now fromisoformat).

Abbreviation parses := (parses json_loads).
Abbreviation loaded := (loaded json_loads).
Abbreviation rejected := (rejected json_loads).
Abbreviation uncaught := (uncaught json_loads).
Abbreviation decided := (decided json_loads).
Abbreviation read_lines := (read_lines json_loads).

Lemma parse_lines_run lines facilities w :
  let tried := List.filter (fun l => negb (bool_decide (l = []))) (map strip lines) in
  parse_lines lines facilities w =
  (match snd (read_lines tried) with
   | None => Ok (facilities ++ omap loaded (fst (read_lines tried)))
   | Some e => Raise e
   end,
   World (clock_reads w) (log w)
     (stdout w ++ map parse_error_line (List.filter rejected (fst (read_lines tried))))
     (written w)).
Proof.
  revert facilities w. induction lines as [|line rest IH]; intros facilities w; simpl.
  - unfold ret. rewrite !app_nil_r. by destruct w.
  - destruct (strip line) as [|c cs] eqn:Hs; simpl.
    + apply IH.
    + unfold bind, try_except, lift, TransformData.uncaught.
      destruct (json_loads (c :: cs)) as [v|e] eqn:Hj.
      * unfold ret. rewrite IH. cbv zeta.
        destruct (TransformData.read_lines json_loads _) as [gone stop].
        cbn [fst snd List.filter omap list_omap].
        unfold loaded at 2, TransformData.loaded, rejected at 2, TransformData.rejected.
        rewrite Hj. destruct stop; [done|]. by rewrite <- app_assoc.
      * destruct e;
          try (unfold raise; cbn [fst snd List.filter map]; rewrite app_nil_r;
               by destruct w).
        unfold print, ret. rewrite IH. cbv zeta.
        destruct (TransformData.read_lines json_loads _) as [gone stop].
        cbn [fst snd List.filter omap list_omap map clock_reads log stdout written].
        unfold loaded at 2, TransformData.loaded, rejected at 2, TransformData.rejected.
        rewrite Hj. cbn [map]. by rewrite <- app_assoc.
Qed.

Lemma read_lines_decided (lines : list str) :
  forallb decided lines = true -> read_lines lines = (lines, None).
Proof.
  induction lines as [|line rest IH]; [done|]. cbn [forallb TransformData.read_lines].
  intros [Hline Hrest]%andb_prop. unfold decided, TransformData.decided in Hline.
  destruct (uncaught line); [discriminate|]. by rewrite IH.
Qed.

Lemma read_lines_stop (before after : list str) (line : str) (e : exn) :
  forallb decided before = true ->
  uncaught line = Some e ->
  read_lines (before ++ line :: after) = (before, Some e).
Proof.
  intros Hbefore Hline. induction before as [|l before IH];
    cbn [app TransformData.read_lines].
  - by rewrite Hline.
  - cbn [forallb] in Hbefore. apply andb_prop in Hbefore as [Hl Hbefore].
    unfold decided, TransformData.decided in Hl.
    destruct (uncaught l); [discriminate|]. by rewrite IH.
Qed.

Lemma length_omap_loaded (lines : list str) :
  length (omap loaded lines) = length (List.filter parses lines).
Proof.
  induction lines as [|l rest IH]; [done|].
  change (omap loaded (l :: rest))
    with (match loaded l with Some y => y :: omap loaded rest | None => omap loaded rest end).
  cbn [List.filter].
  assert (H : (exists v, loaded l = Some v /\ parses l = true)
              \/ (loaded l = None /\ parses l = false)).
  { unfold TransformData.loaded, TransformData.parses. destruct (json_loads l); eauto. }
  destruct H as [(v & -> & ->)|[-> ->]]; cbn [length]; by rewrite IH.
Qed.

Lemma length_decided_split (lines : list str) :
  forallb decided lines = true ->
  length lines = length (List.filter parses lines) + length (List.filter rejected lines).
Proof.
  induction lines as [|l rest IH]; [done|]. cbn [forallb List.filter length].
  intros [Hl Hrest]%andb_prop. specialize (IH Hrest).
  unfold decided, TransformData.decided, TransformData.uncaught in Hl.
  unfold parses, TransformData.parses, rejected, TransformData.rejected in *.
  destruct (json_loads l) as [v|[]]; try discriminate; cbn [length]; lia.
Qed.

(** C4, as the code has it.  [parse_json_lines] skips a line exactly
    when [json.loads] raises [JSONDecodeError] on it.  When every
    non-empty stripped line of the body either loads (K of them) or is
    refused in that way (M of them), it returns the K records in line
    order and prints one error line for each of the M others, going on
    with the rest of the batch.  Any other exception of [json.loads] is
    not caught: at the first line that raises one, [parse_json_lines]
    raises it, having printed the error lines of the lines before, and
    returns no record. *)
Theorem parse_json_lines_skips_decode_errors (body : str) (w : world) :
  let lines := candidate_lines body in
  (forallb decided lines = true ->
   let K := length (List.filter parses lines) in
   let M := length (List.filter rejected lines) in
   exists records printed,
     parse_json_lines body w =
       (Ok records, World (clock_reads w) (log w) (stdout w ++ printed) (written w))
     /\ records = omap loaded lines
     /\ length records = K
     /\ printed = map parse_error_line (List.filter rejected lines)
     /\ length printed = M
     /\ length lines = K + M)
  /\ (forall before line after e,
        lines = before ++ line :: after ->
        forallb decided before = true ->
        uncaught line = Some e ->
        parse_json_lines body w =
          (Raise e,
           World (clock_reads w) (log w)
             (stdout w ++ map parse_error_line (List.filter rejected before))
             (written w))).
Proof.
  intros lines. split.
  - intros Hdecided K M.
    exists (omap loaded lines), (map parse_error_line (List.filter rejected lines)).
    split; [|split; [done|split; [|split; [done|split]]]].
    + unfold parse_json_lines, TransformData.parse_json_lines.
      rewrite parse_lines_run. cbv zeta.
      change (List.filter _ (map strip (splitlines body))) with lines.
      by rewrite read_lines_decided.
    + apply length_omap_loaded.
    + by rewrite length_map.
    + by apply length_decided_split.
  - intros before line after e Hlines Hbefore Hline.
    unfold parse_json_lines, TransformData.parse_json_lines.
    rewrite parse_lines_run. cbv zeta.
    change (List.filter _ (map strip (splitlines body))) with lines.
    by rewrite Hlines, (read_lines_stop before after line e).
Qed.

Lemma check_if_expiring_run (valid_until : pyval) (w : world) :
  check_if_expiring valid_until w =
  (Ok (expiring_by (add_months 6 (dt_date (now (clock_reads w)))) valid_until),
   check_effect valid_until w).
Proof.
  unfold check_if_expiring, TransformData.check_if_expiring, expiring_by,
    TransformData.expiring_by, check_effect, TransformData.check_effect,
    try_except, bind, lift, six_month_cutoff, datetime_now, logger_error, ret.
  destruct (datetime_fromisoformat fromisoformat valid_until) as [parsed|e]; simpl; [|done].
  by destruct (add_months 6 (dt_date (now (clock_reads w)))) as [c|e].
Qed.

(** C1. [check_if_expiring] always returns a bool and never raises.
    It returns [True] exactly when its argument is a string that
    [datetime.fromisoformat] parses and the parsed date is on or before
    the date six months after the clock reading of the call; for a
    missing value ([None]) and for every value that does not parse it
    returns [False]. *)
Theorem check_if_expiring_correct (valid_until : pyval) (w : world) :
  exists b w',
    check_if_expiring valid_until w = (Ok b, w')
    /\ (b = true <->
        exists s parsed cutoff,
          valid_until = PStr s
          /\ fromisoformat s = Some parsed
          /\ add_months 6 (dt_date (now (clock_reads w))) = Ok cutoff
          /\ date_le (dt_date parsed) cutoff = true)
    /\ (valid_until = PNone -> b = false)
    /\ (datetime_fromisoformat fromisoformat valid_until = Raise TypeError
        \/ datetime_fromisoformat fromisoformat valid_until = Raise ValueError ->
        b = false).
Proof.
  eexists _, _. split; [apply check_if_expiring_run|].
  unfold expiring_by, TransformData.expiring_by, datetime_fromisoformat.
  split; [|split].
  - split.
    + destruct valid_until as [| | | |s| |]; try discriminate.
      destruct (fromisoformat s) as [parsed|] eqn:Hp; [|discriminate].
      destruct (add_months _ _) as [c|] eqn:Hc; [|discriminate].
      intros Hle. by exists s, parsed, c.
    + intros (s & parsed & c & -> & -> & -> & Hle). exact Hle.
  - by intros ->.
  - destruct valid_until as [| | | |s| |]; try done.
    destruct (fromisoformat s); [|done]. intros [?|?]; discriminate.
Qed.

Abbreviation scan_accreditations := (scan_accreditations now fromisoformat).
Abbreviation filter_facilities := (filter_facilities now fromisoformat).
Abbreviation filter_expiring_facilities := (filter_expiring_facilities now fromisoformat).
Abbreviation acc_expiring := (acc_expiring fromisoformat).
Abbreviation has_expiring := (has_expiring fromisoformat).
Abbreviation seen := (seen fromisoformat).
Abbreviation date_parses := (date_parses fromisoformat).
Abbreviation visit_log := (visit_log fromisoformat).

Abbreviation date_stable := (date_stable now).

Lemma date_stable_mono from from' today :
  from <= from' -> date_stable from today -> date_stable from' today.
Proof. intros Hle Hs n Hn. apply Hs. lia. Qed.

Lemma check_effect_reads v w :
  clock_reads w <= clock_reads (check_effect v w).
Proof.
  unfold check_effect, TransformData.check_effect.
  destruct (datetime_fromisoformat fromisoformat v); simpl; [|lia].
  destruct (add_months _ _); simpl; lia.
Qed.

Lemma py_get_dict obj key default :
  is_dict obj = true ->
  py_get obj key default = Ok (from_option id default
    (match obj with PDict items => dict_lookup key items | _ => None end)).
Proof. by destruct obj. Qed.

Lemma py_get_field obj key :
  is_dict obj = true -> py_get obj key PNone = Ok (field obj key).
Proof. by destruct obj. Qed.

Lemma scan_accreditations_run facility accreditations w today c :
  is_dict facility = true ->
  forallb is_dict accreditations = true ->
  date_stable (clock_reads w) today ->
  add_months 6 today = Ok c ->
  let p := acc_expiring (Ok c) in
  scan_accreditations facility accreditations w =
  (Ok (existsb p accreditations),
   World (clock_reads w + length (List.filter date_parses (visited p accreditations)))
     (log w ++ flat_map (visit_log c facility) (visited p accreditations))
     (stdout w) (written w)).
Proof.
  intros Hf Haccs Hstable Hc p. revert w Hstable Haccs.
  induction accreditations as [|acc rest IH]; intros w Hstable Haccs.
  - simpl. unfold ret. rewrite Nat.add_0_r, app_nil_r. by destruct w.
  - simpl in Haccs. apply andb_prop in Haccs as [Hacc Hrest].
    cbn [TransformData.scan_accreditations visited existsb].
    unfold bind at 1, lift at 1. rewrite (py_get_field acc) by done.
    unfold bind at 1. rewrite check_if_expiring_run.
    rewrite (Hstable (clock_reads w)) by lia. rewrite Hc.
    fold (acc_expiring (Ok c) acc). fold p.
    assert (Heff : check_effect (field acc (u "valid_until")) w =
      if date_parses acc then ticked w
      else World (clock_reads w)
             (log w ++ visit_log c facility acc) (stdout w) (written w)).
    { unfold check_effect, TransformData.check_effect, date_parses,
        TransformData.date_parses, visit_log, TransformData.visit_log.
      destruct (datetime_fromisoformat fromisoformat (field acc (u "valid_until"))); [|done].
      by rewrite (Hstable (clock_reads w)), Hc by lia. }
    destruct (p acc) eqn:Hp.
    + unfold bind, lift. rewrite !py_get_field by done.
      unfold logger_info, ret, logged. simpl.
      unfold p, acc_expiring, TransformData.acc_expiring, TransformData.expiring_by in Hp.
      rewrite Heff. unfold date_parses, TransformData.date_parses,
        visit_log, TransformData.visit_log.
      destruct (datetime_fromisoformat fromisoformat (field acc (u "valid_until")))
        as [parsed|e]; [|done].
      rewrite Hp. simpl. do 2 f_equal. lia.
    + rewrite IH; [|eapply date_stable_mono; [apply check_effect_reads|done]|done].
      f_equal. rewrite Heff. simpl.
      unfold date_parses, TransformData.date_parses,
        visit_log, TransformData.visit_log.
      unfold p, acc_expiring, TransformData.acc_expiring, TransformData.expiring_by in Hp.
      destruct (datetime_fromisoformat fromisoformat (field acc (u "valid_until")))
        as [parsed|e]; simpl.
      * rewrite Hp. simpl. f_equal. lia.
      * f_equal. by rewrite <- app_assoc.
Qed.

Lemma well_formed_facility_inv facility :
  well_formed_facility facility = true ->
  is_dict facility = true
  /\ py_get facility (u "accreditations") (PList []) = Ok (PList (accreditations_of facility))
  /\ forallb is_dict (accreditations_of facility) = true.
Proof.
  unfold well_formed_facility, accreditations_of.
  destruct facility as [| | | | | |items]; try discriminate. simpl.
  by destruct (from_option id (PList []) (dict_lookup (u "accreditations") items)).
Qed.

Lemma filter_facilities_run facilities kept w today c :
  forallb well_formed_facility facilities = true ->
  date_stable (clock_reads w) today ->
  add_months 6 today = Ok c ->
  filter_facilities facilities kept w =
  (Ok (kept ++ List.filter (has_expiring (Ok c)) facilities),
   World
     (clock_reads w + length (List.filter date_parses (flat_map (seen (Ok c)) facilities)))
     (log w ++ flat_map (fun f => flat_map (visit_log c f) (seen (Ok c) f)) facilities)
     (stdout w) (written w)).
Proof.
  intros Hwf Hstable Hc. revert kept w Hstable Hwf.
  induction facilities as [|facility rest IH]; intros kept w Hstable Hwf.
  - simpl. unfold ret. rewrite Nat.add_0_r, !app_nil_r. by destruct w.
  - simpl in Hwf. apply andb_prop in Hwf as [Hfac Hrest].
    apply well_formed_facility_inv in Hfac as (Hdict & Hget & Haccs).
    cbn [TransformData.filter_facilities].
    unfold bind at 1, lift at 1. rewrite Hget.
    unfold bind at 1, lift at 1. cbn [py_iter].
    unfold bind at 1.
    rewrite (scan_accreditations_run facility _ w today c) by done.
    rewrite IH; [|intros n Hn; apply Hstable; simpl in Hn; lia|done].
    cbn [List.filter flat_map clock_reads log stdout written].
    fold (has_expiring (Ok c) facility). fold (seen (Ok c) facility).
    rewrite filter_app, length_app, !app_assoc, Nat.add_assoc.
    f_equal. f_equal.
    destruct (has_expiring (Ok c) facility); simpl; by rewrite <- ?app_assoc.
Qed.

Lemma sublist_List_filter {A} (p : A -> bool) (l : list A) :
  List.filter p l `sublist_of` l.
Proof.
  induction l as [|x l IH]; simpl; [constructor|].
  destruct (p x); by constructor.
Qed.

Lemma visited_stops_at_first {p : pyval -> bool} (pre post : list pyval) (hit : pyval) :
  forallb (fun a => negb (p a)) pre = true ->
  p hit = true ->
  visited p (pre ++ hit :: post) = pre ++ [hit].
Proof.
  induction pre as [|a pre IH]; simpl; intros Hpre Hhit.
  - by rewrite Hhit.
  - apply andb_prop in Hpre as [Ha Hpre]. apply negb_true_iff in Ha.
    rewrite Ha. by rewrite IH.
Qed.

Lemma filter_expiring_facilities_run facilities w today c :
  forallb well_formed_facility facilities = true ->
  date_stable (clock_reads w) today ->
  add_months 6 today = Ok c ->
  let kept := List.filter (has_expiring (Ok c)) facilities in
  filter_expiring_facilities facilities w =
  (Ok kept,
   World
     (clock_reads w + 2 + length (List.filter date_parses (flat_map (seen (Ok c)) facilities)))
     (log w ++ [(INFO, Filtering c)]
        ++ flat_map (fun f => flat_map (visit_log c f) (seen (Ok c) f)) facilities
        ++ [(INFO, FoundExpiring (length kept) c)])
     (stdout w) (written w)).
Proof.
  intros Hwf Hstable Hc kept.
  unfold filter_expiring_facilities, TransformData.filter_expiring_facilities.
  unfold bind at 1. unfold six_month_cutoff at 1, bind at 1, datetime_now at 1, lift at 1.
  rewrite (Hstable (clock_reads w)), Hc by lia.
  unfold bind at 1, logger_info at 1. unfold bind at 1.
  rewrite (filter_facilities_run facilities [] _ today c);
    [|done|intros n Hn; apply Hstable; simpl in Hn; lia|done].
  cbn [app clock_reads log stdout written logged ticked].
  unfold bind at 1. unfold six_month_cutoff at 1, bind at 1, datetime_now at 1, lift at 1.
  cbn [clock_reads]. rewrite (Hstable _), Hc by lia.
  unfold bind, logger_info, ret, logged, ticked. cbn [clock_reads log stdout written].
  fold kept. f_equal. f_equal; [lia|]. by rewrite <- !app_assoc.
Qed.

(** C2. For a list of well-formed facility records, on a pass during
    which the calendar date of the clock does not change,
    [filter_expiring_facilities] returns, without raising, the
    facilities having at least one accreditation that satisfies the
    expiry predicate: a subsequence of the input in the input order.  Per
    facility the inner loop looks at the accreditations up to and
    including the first match and at none after it: the clock reads and
    the log lines of the pass are exactly those of these accreditations. *)
Theorem filter_expiring_facilities_correct facilities w today c :
  forallb well_formed_facility facilities = true ->
  date_stable (clock_reads w) today ->
  add_months 6 today = Ok c ->
  exists kept w',
    filter_expiring_facilities facilities w = (Ok kept, w')
    /\ kept = List.filter (has_expiring (Ok c)) facilities
    /\ kept `sublist_of` facilities
    /\ (forall f, In f kept <->
          In f facilities /\
          exists acc, In acc (accreditations_of f) /\ acc_expiring (Ok c) acc = true)
    /\ clock_reads w' =
        clock_reads w + 2 +
        length (List.filter date_parses (flat_map (seen (Ok c)) facilities))
    /\ log w' =
        log w ++ [(INFO, Filtering c)]
          ++ flat_map (fun f => flat_map (visit_log c f) (seen (Ok c) f)) facilities
          ++ [(INFO, FoundExpiring (length kept) c)]
    /\ (forall f pre hit post,
          accreditations_of f = pre ++ hit :: post ->
          forallb (fun a => negb (acc_expiring (Ok c) a)) pre = true ->
          acc_expiring (Ok c) hit = true ->
          seen (Ok c) f = pre ++ [hit]).
Proof.
  intros Hwf Hstable Hc.
  eexists _, _. split; [by apply (filter_expiring_facilities_run _ _ today c)|].
  split; [done|]. split; [apply sublist_List_filter|].
  split; [|split; [done|split; [done|]]].
  - intros f. rewrite filter_In. unfold has_expiring, TransformData.has_expiring.
    rewrite existsb_exists. reflexivity.
  - intros f pre hit post Heq Hpre Hhit. unfold seen, TransformData.seen.
    rewrite Heq. by apply visited_stops_at_first.
Qed.

Lemma filter_facilities_app before after kept w :
  filter_facilities (before ++ after) kept w =
  bind (filter_facilities before kept) (filter_facilities after) w.
Proof.
  revert kept w. induction before as [|facility rest IH]; intros kept w.
  - done.
  - cbn [app TransformData.filter_facilities]. unfold bind in *.
    destruct (lift _ w) as [[value|e] w1]; [|done].
    destruct (lift _ w1) as [[accs|e] w2]; [|done].
    destruct (scan_accreditations facility accs w2) as [[matched|e] w3]; [|done].
    apply IH.
Qed.

Lemma filter_facilities_skip facility rest kept w :
  lacks_accreditations facility = true ->
  filter_facilities (facility :: rest) kept w = filter_facilities rest kept w.
Proof.
  unfold lacks_accreditations. intros Hlacks.
  cbn [TransformData.filter_facilities]. unfold bind at 1, lift at 1.
  destruct (py_get facility (u "accreditations") (PList [])) as [[| | | | |[|a l]|]|];
    try discriminate.
  done.
Qed.

Lemma filter_facilities_kept facilities kept0 w kept w' :
  filter_facilities facilities kept0 w = (Ok kept, w') ->
  forall x, In x kept ->
    In x kept0 \/ (In x facilities /\ lacks_accreditations x = false).
Proof.
  revert kept0 w. induction facilities as [|facility rest IH]; intros kept0 w Hrun x Hx.
  - simpl in Hrun. unfold ret in Hrun. left. congruence.
  - destruct (lacks_accreditations facility) eqn:Hlacks.
    + rewrite filter_facilities_skip in Hrun by done.
      destruct (IH _ _ Hrun x Hx) as [?|[? ?]]; [by left|right; split; [by right|done]].
    + cbn [TransformData.filter_facilities] in Hrun. unfold bind in Hrun.
      destruct (lift _ w) as [[value|e] w1]; [|done].
      destruct (lift _ w1) as [[accs|e] w2]; [|done].
      destruct (scan_accreditations facility accs w2) as [[matched|e] w3]; [|done].
      destruct (IH _ _ Hrun x Hx) as [Hin|[? ?]]; [|right; split; [by right|done]].
      destruct matched; [|by left].
      apply in_app_or in Hin as [?|[<-|[]]]; [by left|].
      right. split; [by left|done].
Qed.

(** Whatever the clock and the records do, a pass that returns returns a
    subsequence of its input. *)
Lemma filter_facilities_sublist facilities kept0 w kept w' :
  filter_facilities facilities kept0 w = (Ok kept, w') ->
  exists added, kept = kept0 ++ added /\ added `sublist_of` facilities.
Proof.
  revert kept0 w. induction facilities as [|facility rest IH]; intros kept0 w Hrun.
  - injection Hrun as <- _. exists []. by rewrite app_nil_r.
  - cbn [TransformData.filter_facilities] in Hrun. unfold bind in Hrun.
    destruct (lift _ w) as [[value|e] w1]; [|done].
    destruct (lift _ w1) as [[accs|e] w2]; [|done].
    destruct (scan_accreditations facility accs w2) as [[matched|e] w3]; [|done].
    apply IH in Hrun as (added & -> & Hsub).
    destruct matched.
    + exists (facility :: added). rewrite <- app_assoc. split; [done|by constructor].
    + exists added. split; [done|by constructor].
Qed.

Lemma filter_expiring_facilities_sublist facilities w kept w' :
  filter_expiring_facilities facilities w = (Ok kept, w') ->
  kept `sublist_of` facilities.
Proof.
  unfold filter_expiring_facilities, TransformData.filter_expiring_facilities.
  unfold bind. intros Hrun.
  destruct (six_month_cutoff now w) as [[c|e] w1]; [|done].
  destruct (logger_info _ w1) as [[[]|e] w2]; [|done].
  destruct (filter_facilities facilities [] w2) as [[kept'|e] w3] eqn:Hloop; [|done].
  destruct (six_month_cutoff now w3) as [[c'|e] w4]; [|done].
  unfold logger_info, ret in Hrun. injection Hrun as <- _.
  by apply filter_facilities_sublist in Hloop as (added & -> & Hsub).
Qed.

(** C10. A facility record that has no ["accreditations"] key, or an
    empty list under it, is stepped over by the loop without raising and
    without any effect: the pass behaves as if the record were not in the
    input, the record is never part of a returned list, and a pass over
    the record alone returns the empty list. *)
Theorem facility_without_accreditations_excluded facility :
  lacks_accreditations facility = true ->
  (forall rest kept w,
     filter_facilities (facility :: rest) kept w = filter_facilities rest kept w)
  /\ (forall before after w,
        filter_expiring_facilities (before ++ facility :: after) w =
        filter_expiring_facilities (before ++ after) w)
  /\ (forall facilities w kept w',
        filter_expiring_facilities facilities w = (Ok kept, w') -> ~ In facility kept)
  /\ (forall w today c,
        date_stable (clock_reads w) today ->
        add_months 6 today = Ok c ->
        fst (filter_expiring_facilities [facility] w) = Ok []).
Proof.
  intros Hlacks. split; [|split; [|split]].
  - intros. by apply filter_facilities_skip.
  - intros before after w.
    unfold filter_expiring_facilities, TransformData.filter_expiring_facilities.
    unfold bind.
    destruct (six_month_cutoff now w) as [[c|e] w1]; [|done].
    destruct (logger_info _ w1) as [[[]|e] w2]; [|done].
    rewrite !filter_facilities_app. unfold bind.
    destruct (filter_facilities before [] w2) as [[kept|e] w3]; [|done].
    by rewrite filter_facilities_skip.
  - intros facilities w kept w' Hrun Hin.
    unfold filter_expiring_facilities, TransformData.filter_expiring_facilities in Hrun.
    unfold bind in Hrun.
    destruct (six_month_cutoff now w) as [[c|e] w1]; [|done].
    destruct (logger_info _ w1) as [[[]|e] w2]; [|done].
    destruct (filter_facilities facilities [] w2) as [[kept'|e] w3] eqn:Hloop; [|done].
    destruct (six_month_cutoff now w3) as [[c'|e] w4]; [|done].
    unfold logger_info, ret in Hrun. injection Hrun as <- _.
    destruct (filter_facilities_kept _ _ _ _ _ Hloop facility Hin) as [[]|[_ Hne]].
    congruence.
  - intros w today c Hstable Hc.
    rewrite (filter_expiring_facilities_run [facility] w today c); try done.
    + simpl. unfold has_expiring, TransformData.has_expiring, accreditations_of.
      unfold lacks_accreditations in Hlacks.
      by destruct (py_get facility (u "accreditations") (PList [])) as [[| | | | |[|a l]|]|].
    + simpl. unfold well_formed_facility. unfold lacks_accreditations in Hlacks.
      by destruct (py_get facility (u "accreditations") (PList [])) as [[| | | | |[|a l]|]|].
Qed.

(** C3, as the code has it.  Every evaluation of the expiry predicate on
    a value that parses reads the wall clock anew and computes its own
    cutoff, so a pass reads the clock twice for its two log lines and
    once more per such accreditation looked at.  When the calendar date
    of the clock does not change during the pass, all records are
    evaluated against one cutoff and the pass returns what a filter with
    a single cutoff computed at its start returns. *)
Theorem cutoff_recomputed_per_check facilities w today c :
  forallb well_formed_facility facilities = true ->
  date_stable (clock_reads w) today ->
  add_months 6 today = Ok c ->
  fst (filter_expiring_facilities facilities w) =
    fst (filter_with_single_cutoff now fromisoformat facilities w)
  /\ clock_reads (snd (filter_expiring_facilities facilities w)) =
      clock_reads w + 2 +
      length (List.filter date_parses (flat_map (seen (Ok c)) facilities))
  /\ clock_reads (snd (filter_with_single_cutoff now fromisoformat facilities w)) =
      clock_reads w + 1
  /\ (forall valid_until w0,
        datetime_fromisoformat fromisoformat valid_until <> Raise TypeError ->
        datetime_fromisoformat fromisoformat valid_until <> Raise ValueError ->
        clock_reads (snd (check_if_expiring valid_until w0)) = S (clock_reads w0)
        /\ fst (check_if_expiring valid_until w0) =
            Ok (expiring_by (add_months 6 (dt_date (now (clock_reads w0)))) valid_until)).
Proof.
  intros Hwf Hstable Hc.
  rewrite (filter_expiring_facilities_run facilities w today c) by done.
  unfold filter_with_single_cutoff, six_month_cutoff, bind, datetime_now, lift, ret.
  rewrite (Hstable (clock_reads w)), Hc by lia. simpl.
  split; [done|]. split; [done|]. split; [lia|].
  intros v w0 Hty Hval. rewrite check_if_expiring_run. simpl. split; [|done].
  unfold check_effect, TransformData.check_effect.
  unfold datetime_fromisoformat in *.
  destruct v as [| | | |s| |]; try done.
  destruct (fromisoformat s); [|done].
  by destruct (add_months 6 (dt_date (now (clock_reads w0)))).
Qed.

Abbreviation get_all_facilities := (get_all_facilities json_loads).
Abbreviation main := (main now fromisoformat json_loads).

Lemma get_all_facilities_run s3 w :
  get_all_facilities s3 w =
  match get_object s3 RAW_BUCKET RAW_KEY with
  | Raise e => (Ok [], World (clock_reads w)
                         (log w ++ [(INFO, ReadingInput); read_failure e])
                         (stdout w) (written w))
  | Ok text =>
      let lines := candidate_lines (strip text) in
      let gone := fst (read_lines lines) in
      let printed := stdout w ++ map parse_error_line (List.filter rejected gone) in
      match snd (read_lines lines) with
      | None =>
          let records := omap loaded gone in
          (Ok records,
           World (clock_reads w)
             (log w ++ [(INFO, ReadingInput); (INFO, FoundFacilities (length records))])
             printed (written w))
      | Some e =>
          (Ok [],
           World (clock_reads w) (log w ++ [(INFO, ReadingInput); read_failure e])
             printed (written w))
      end
  end.
Proof.
  unfold get_all_facilities, TransformData.get_all_facilities, try_except.
  unfold bind at 1, logger_info at 1. unfold bind at 1, lift at 1.
  destruct (get_object s3 RAW_BUCKET RAW_KEY) as [text|e].
  - unfold bind at 1, TransformData.parse_json_lines. rewrite parse_lines_run.
    cbv zeta.
    change (List.filter _ (map strip (splitlines (strip text))))
      with (candidate_lines (strip text)).
    destruct (read_lines (candidate_lines (strip text))) as [gone [e|]]; cbn [fst snd].
    + unfold read_failure.
      destruct (is_ClientError e); unfold bind, logger_error, ret, logged;
        cbn [clock_reads log stdout written]; by rewrite <- app_assoc.
    + unfold bind, logger_info, ret, logged. cbn [clock_reads log stdout written].
      by rewrite <- app_assoc.
  - unfold read_failure.
    destruct (is_ClientError e); unfold bind, logger_error, ret, logged; simpl;
      by rewrite <- app_assoc.
Qed.

(** [get_all_facilities] returns in every case and touches neither the
    clock nor the objects written. *)
Lemma get_all_facilities_frame s3 w r w1 :
  get_all_facilities s3 w = (r, w1) ->
  (exists facilities, r = Ok facilities)
  /\ clock_reads w1 = clock_reads w /\ written w1 = written w.
Proof.
  rewrite get_all_facilities_run.
  destruct (get_object s3 RAW_BUCKET RAW_KEY) as [text|e]; cbv zeta.
  - destruct (snd (read_lines (candidate_lines (strip text)))); intros [= <- <-]; eauto.
  - intros [= <- <-]. eauto.
Qed.

Lemma write_to_s3_run s3 data w :
  write_to_s3 s3 data w =
  (Ok tt,
   let body := json_dumps (PList data) in
   match put_object s3 TRANSFORMED_BUCKET TRANSFORMED_KEY body with
   | Ok _ =>
       World (clock_reads w) (log w ++ [(INFO, Writing (length data))]) (stdout w)
         (written w ++ [(TRANSFORMED_BUCKET, TRANSFORMED_KEY, body)])
   | Raise e =>
       World (clock_reads w)
         (log w ++ [(INFO, Writing (length data)); write_failure e])
         (stdout w) (written w)
   end).
Proof.
  unfold write_to_s3, try_except, bind, logger_info, lift, ret, logged. simpl.
  destruct (put_object s3 _ _ _) as [[]|e]; [done|].
  unfold write_failure.
  destruct (is_ClientError e); unfold logger_error, logged; simpl;
    by rewrite <- app_assoc.
Qed.

(** C9. In the Expiry Filter job a failure to fetch the input or to
    write the output is logged and not raised.  [get_all_facilities]
    never raises and returns the empty list when the read fails;
    [write_to_s3] returns [None] in every case, logging the failure of
    the write; and the job, on well-formed records and a clock whose date
    does not change, ends without raising whether or not the read and
    the write succeed, with the failures in its log. *)
Theorem fetch_and_write_failures_absorbed s3 w data :
  (exists facilities w1,
     get_all_facilities s3 w = (Ok facilities, w1)
     /\ forall e, get_object s3 RAW_BUCKET RAW_KEY = Raise e ->
          facilities = [] /\ log w1 = log w ++ [(INFO, ReadingInput); read_failure e])
  /\ (exists w2,
        write_to_s3 s3 data w = (Ok tt, w2)
        /\ forall e,
             put_object s3 TRANSFORMED_BUCKET TRANSFORMED_KEY (json_dumps (PList data)) = Raise e ->
             log w2 = log w ++ [(INFO, Writing (length data)); write_failure e]
             /\ written w2 = written w)
  /\ (forall today c,
        date_stable (clock_reads w) today ->
        add_months 6 today = Ok c ->
        (forall facilities w1,
           get_all_facilities s3 (logged INFO Starting w) = (Ok facilities, w1) ->
           forallb well_formed_facility facilities = true) ->
        exists kept w3,
          main s3 w = (Ok tt, w3)
          /\ (forall e, get_object s3 RAW_BUCKET RAW_KEY = Raise e ->
                kept = [] /\ In (read_failure e) (log w3))
          /\ (forall e,
                put_object s3 TRANSFORMED_BUCKET TRANSFORMED_KEY (json_dumps (PList kept)) = Raise e ->
                In (write_failure e) (log w3) /\ written w3 = written w)).
Proof.
  split; [|split].
  - rewrite get_all_facilities_run.
    destruct (get_object s3 RAW_BUCKET RAW_KEY) as [text|e]; cbv zeta.
    + destruct (snd (read_lines (candidate_lines (strip text))));
        eexists _, _; (split; [done|]); discriminate.
    + eexists _, _. split; [done|]. by intros ? [= <-].
  - rewrite write_to_s3_run. eexists. split; [done|].
    intros e He. cbv zeta. by rewrite He.
  - intros today c Hstable Hc Hwf.
    unfold main, TransformData.main.
    unfold bind at 1, logger_info at 1. unfold bind at 1.
    destruct (get_all_facilities s3 (logged INFO Starting w)) as [r w1] eqn:Hget.
    pose proof (get_all_facilities_frame _ _ _ _ Hget) as ([facilities ->] & Hreads & Hw).
    cbn [clock_reads written logged] in Hreads, Hw.
    unfold bind at 1.
    rewrite (filter_expiring_facilities_run facilities w1 today c);
      [|by eapply Hwf|by rewrite Hreads|done].
    unfold bind at 1. rewrite write_to_s3_run.
    unfold logger_info, logged. cbn [clock_reads log stdout written].
    exists (List.filter (has_expiring (Ok c)) facilities). eexists. split; [done|].
    rewrite get_all_facilities_run in Hget.
    split.
    + intros e He. rewrite He in Hget. injection Hget as <- <-.
      split; [done|]. cbn [List.filter json_dumps log logged].
      destruct (put_object s3 _ _ _); cbn [log];
        rewrite !in_app_iff; simpl; tauto.
    + intros e He. cbv zeta. rewrite He. cbn [log written].
      split; [rewrite !in_app_iff; simpl; tauto|exact Hw].
Qed.

(** ** Dates and the cutoff *)

Lemma date_le_spec a b :
  date_le a b = true <->
  (year a < year b
   \/ (year a = year b /\ (month a < month b \/ (month a = month b /\ day a <= day b))))%Z.
Proof.
  unfold date_le.
  rewrite !orb_true_iff, !andb_true_iff, !orb_true_iff, !andb_true_iff,
    !Z.ltb_lt, !Z.eqb_eq, Z.leb_le.
  tauto.
Qed.

Lemma date_le_trans a b c :
  date_le a b = true -> date_le b c = true -> date_le a c = true.
Proof. rewrite !date_le_spec. lia. Qed.

Lemma valid_date_spec d :
  valid_date d = true <->
  (1 <= year d <= 9999 /\ 1 <= month d <= 12
   /\ 1 <= day d <= days_in_month (year d) (month d))%Z.
Proof.
  unfold valid_date. rewrite !andb_true_iff, !Z.leb_le. tauto.
Qed.

Lemma days_in_month_bounds y m : (28 <= days_in_month y m <= 31)%Z.
Proof.
  unfold days_in_month.
  destruct (m =? 2)%Z; [destruct (isleap y); lia|].
  destruct ((m =? 4) || (m =? 6) || (m =? 9) || (m =? 11))%Z; lia.
Qed.

Lemma add_months_6_inv d c :
  add_months 6 d = Ok c ->
  (1 <= year c <= 9999)%Z
  /\ ((month d <= 6 /\ year c = year d /\ month c = month d + 6)
      \/ (6 < month d /\ year c = year d + 1 /\ month c = month d - 6))%Z
  /\ day c = Z.min (days_in_month (year c) (month c)) (day d).
Proof.
  unfold add_months.
  destruct (Z.gtb_spec (month d + 6) 12) as [Hgt|Hle];
    (destruct (_ && _) eqn:Hrange; [|discriminate]);
    apply andb_prop in Hrange as [H1 H2]; apply Z.leb_le in H1, H2;
    intros [= <-]; cbn [year month day]; (split; [lia|split; [lia|done]]).
Qed.

Lemma add_months_6_later d c :
  valid_date d = true -> add_months 6 d = Ok c -> date_le d c = true.
Proof.
  intros Hd Hc. apply valid_date_spec in Hd.
  apply add_months_6_inv in Hc as (Hy & Hm & Hday).
  apply date_le_spec. lia.
Qed.

(** X9. On a valid calendar date the six-month cutoff, when it exists,
    is again a valid calendar date, strictly later than the date it is
    computed from, with the day of the month kept unless the target
    month is shorter. *)
Theorem cutoff_is_a_later_valid_date d c :
  valid_date d = true ->
  add_months 6 d = Ok c ->
  valid_date c = true
  /\ date_le d c = true
  /\ c <> d
  /\ (day c = day d \/ day c = days_in_month (year c) (month c))
  /\ (day c <= day d)%Z.
Proof.
  intros Hd Hc. apply valid_date_spec in Hd.
  apply add_months_6_inv in Hc as (Hy & Hm & Hday).
  pose proof (days_in_month_bounds (year c) (month c)).
  split; [apply valid_date_spec; lia|].
  split; [apply date_le_spec; lia|].
  split; [intros ->; lia|]. lia.
Qed.

(** The cutoff does not move backwards when the clock moves forwards. *)
Lemma add_months_6_mono a b ca cb :
  valid_date a = true -> valid_date b = true ->
  date_le a b = true ->
  add_months 6 a = Ok ca -> add_months 6 b = Ok cb ->
  date_le ca cb = true.
Proof.
  intros Ha Hb Hab Hca Hcb.
  apply valid_date_spec in Ha, Hb. apply date_le_spec in Hab.
  apply add_months_6_inv in Hca as (Hya & Hma & Hda).
  apply add_months_6_inv in Hcb as (Hyb & Hmb & Hdb).
  apply date_le_spec.
  destruct (Z.eq_dec (year ca) (year cb)) as [Hy|Hy]; [|lia].
  destruct (Z.eq_dec (month ca) (month cb)) as [Hm|Hm]; [|lia].
  right. split; [done|]. right. split; [done|].
  rewrite Hda, Hdb, Hy, Hm. lia.
Qed.

(** ** The expiry predicate over time *)

(** X7. The predicate has no lower bound: a [valid_until] that parses to
    a date on or before the day of the clock reading, an accreditation
    that has already expired, is reported as expiring. *)
Theorem already_expired_is_flagged s parsed w c :
  valid_date (dt_date (now (clock_reads w))) = true ->
  add_months 6 (dt_date (now (clock_reads w))) = Ok c ->
  fromisoformat s = Some parsed ->
  date_le (dt_date parsed) (dt_date (now (clock_reads w))) = true ->
  fst (check_if_expiring (PStr s) w) = Ok true.
Proof.
  intros Hvalid Hc Hparse Hpast.
  rewrite check_if_expiring_run. cbn [fst]. f_equal.
  unfold expiring_by, TransformData.expiring_by, datetime_fromisoformat.
  rewrite Hparse, Hc.
  eapply date_le_trans; [exact Hpast|].
  by apply add_months_6_later.
Qed.

(** X8. A value reported as expiring at one clock reading is reported as
    expiring at every reading of the same or a later day for which the
    cutoff exists: the flag does not go away as time passes. *)
Theorem flagged_stays_flagged valid_until w1 w2 c2 :
  valid_date (dt_date (now (clock_reads w1))) = true ->
  valid_date (dt_date (now (clock_reads w2))) = true ->
  date_le (dt_date (now (clock_reads w1))) (dt_date (now (clock_reads w2))) = true ->
  add_months 6 (dt_date (now (clock_reads w2))) = Ok c2 ->
  fst (check_if_expiring valid_until w1) = Ok true ->
  fst (check_if_expiring valid_until w2) = Ok true.
Proof.
  intros Hv1 Hv2 Hle Hc2. rewrite !check_if_expiring_run. cbn [fst].
  unfold expiring_by, TransformData.expiring_by. rewrite Hc2.
  destruct (datetime_fromisoformat fromisoformat valid_until) as [parsed|e]; [|done].
  destruct (add_months 6 (dt_date (now (clock_reads w1)))) as [c1|e] eqn:Hc1; [|done].
  intros [= H]. f_equal. eapply date_le_trans; [exact H|].
  by apply (add_months_6_mono _ _ _ _ Hv1 Hv2 Hle Hc1 Hc2).
Qed.

(** X10. From July of the year 9999 on the cutoff cannot be built:
    [check_if_expiring] then answers [False] for every value, logging an
    error, while [filter_expiring_facilities] raises [ValueError] on its
    first log line, before it looks at any record. *)
Theorem cutoff_out_of_range valid_until facilities w :
  (year (dt_date (now (clock_reads w))) = 9999)%Z ->
  (6 < month (dt_date (now (clock_reads w))))%Z ->
  fst (check_if_expiring valid_until w) = Ok false
  /\ (exists e, log (snd (check_if_expiring valid_until w))
               = log w ++ [(ERROR, CheckError e valid_until)])
  /\ filter_expiring_facilities facilities w = (Raise ValueError, ticked w).
Proof.
  intros Hy Hm.
  assert (Hc : add_months 6 (dt_date (now (clock_reads w))) = Raise ValueError).
  { unfold add_months. rewrite Hy.
    destruct (Z.gtb_spec (month (dt_date (now (clock_reads w))) + 6) 12); [done|lia]. }
  rewrite check_if_expiring_run. cbn [fst snd].
  unfold expiring_by, TransformData.expiring_by, check_effect, TransformData.check_effect.
  rewrite Hc. split; [|split].
  - by destruct (datetime_fromisoformat fromisoformat valid_until).
  - destruct (datetime_fromisoformat fromisoformat valid_until); by eexists.
  - unfold filter_expiring_facilities, TransformData.filter_expiring_facilities,
      six_month_cutoff, bind, datetime_now, lift.
    by rewrite Hc.
Qed.

(** ** The pass over records that are well formed as far as they are read *)

(** One turn of the inner loop on a mapping. *)
Lemma scan_accreditations_step facility acc rest w today c :
  is_dict facility = true ->
  is_dict acc = true ->
  date_stable (clock_reads w) today ->
  add_months 6 today = Ok c ->
  scan_accreditations facility (acc :: rest) w =
  let w1 := World (clock_reads w + (if date_parses acc then 1 else 0))
              (log w ++ visit_log c facility acc) (stdout w) (written w) in
  if acc_expiring (Ok c) acc then (Ok true, w1)
  else scan_accreditations facility rest w1.
Proof.
  intros Hf Hacc Hstable Hc.
  cbn [TransformData.scan_accreditations].
  unfold bind at 1, lift at 1. rewrite (py_get_field acc) by done.
  unfold bind at 1. rewrite check_if_expiring_run.
  rewrite (Hstable (clock_reads w)) by lia. rewrite Hc.
  fold (acc_expiring (Ok c) acc).
  unfold check_effect, TransformData.check_effect.
  rewrite (Hstable (clock_reads w)), Hc by lia.
  unfold acc_expiring, TransformData.acc_expiring, TransformData.expiring_by,
    date_parses, TransformData.date_parses, visit_log, TransformData.visit_log.
  cbv zeta.
  destruct (datetime_fromisoformat fromisoformat (field acc (u "valid_until")))
    as [parsed|e].
  - destruct (date_le (dt_date parsed) c).
    + unfold bind, lift. rewrite !py_get_field by done.
      unfold logger_info, ret, logged, ticked. cbn [clock_reads log stdout written].
      do 2 f_equal. lia.
    + unfold ticked. by rewrite app_nil_r, Nat.add_1_r.
  - unfold logged. by rewrite Nat.add_0_r.
Qed.

Lemma scan_accreditations_run_seen facility accreditations w today c :
  is_dict facility = true ->
  forallb is_dict (visited (acc_expiring (Ok c)) accreditations) = true ->
  date_stable (clock_reads w) today ->
  add_months 6 today = Ok c ->
  let p := acc_expiring (Ok c) in
  scan_accreditations facility accreditations w =
  (Ok (existsb p accreditations),
   World (clock_reads w + length (List.filter date_parses (visited p accreditations)))
     (log w ++ flat_map (visit_log c facility) (visited p accreditations))
     (stdout w) (written w)).
Proof.
  intros Hf Haccs Hstable Hc p. revert w Hstable Haccs.
  induction accreditations as [|acc rest IH]; intros w Hstable Haccs.
  - simpl. unfold ret. rewrite Nat.add_0_r, app_nil_r. by destruct w.
  - assert (Hacc : is_dict acc = true).
    { cbn [visited] in Haccs. destruct (acc_expiring (Ok c) acc);
        cbn [forallb] in Haccs; by apply andb_prop in Haccs as [? _]. }
    rewrite (scan_accreditations_step facility acc rest w today c) by done.
    cbv zeta. cbn [existsb visited]. fold p. cbn [visited] in Haccs. fold p in Haccs.
    destruct (p acc) eqn:Hp.
    + cbn [orb List.filter flat_map length]. rewrite app_nil_r.
      do 2 f_equal. destruct (date_parses acc); cbn [length]; lia.
    + cbn [forallb] in Haccs. apply andb_prop in Haccs as [_ Hrest].
      rewrite IH; [|intros n Hn; apply Hstable; cbn [clock_reads] in Hn; lia|done].
      cbn [orb clock_reads log stdout written List.filter flat_map].
      do 2 f_equal.
      * destruct (date_parses acc); cbn [length]; lia.
      * by rewrite <- !app_assoc.
Qed.

Lemma scannable_inv c facility :
  scannable fromisoformat (Ok c) facility = true ->
  is_dict facility = true
  /\ py_get facility (u "accreditations") (PList []) = Ok (PList (accreditations_of facility))
  /\ forallb is_dict (seen (Ok c) facility) = true.
Proof.
  unfold scannable, seen, TransformData.seen, accreditations_of.
  destruct facility as [| | | | | |items]; try discriminate. cbn [py_get is_dict].
  by destruct (from_option id (PList []) (dict_lookup (u "accreditations") items)).
Qed.

Lemma filter_facilities_run_seen facilities kept w today c :
  forallb (scannable fromisoformat (Ok c)) facilities = true ->
  date_stable (clock_reads w) today ->
  add_months 6 today = Ok c ->
  filter_facilities facilities kept w =
  (Ok (kept ++ List.filter (has_expiring (Ok c)) facilities),
   World
     (clock_reads w + length (List.filter date_parses (flat_map (seen (Ok c)) facilities)))
     (log w ++ pass_log fromisoformat c facilities)
     (stdout w) (written w)).
Proof.
  intros Hok Hstable Hc. revert kept w Hstable Hok.
  induction facilities as [|facility rest IH]; intros kept w Hstable Hok.
  - simpl. unfold ret. rewrite Nat.add_0_r, !app_nil_r. by destruct w.
  - cbn [forallb] in Hok. apply andb_prop in Hok as [Hfac Hrest].
    apply scannable_inv in Hfac as (Hdict & Hget & Haccs).
    cbn [TransformData.filter_facilities].
    unfold bind at 1, lift at 1. rewrite Hget.
    unfold bind at 1, lift at 1. cbn [py_iter].
    unfold bind at 1.
    rewrite (scan_accreditations_run_seen facility _ w today c) by done.
    rewrite IH; [|intros n Hn; apply Hstable; cbn [clock_reads] in Hn; lia|done].
    unfold pass_log.
    cbn [List.filter flat_map clock_reads log stdout written].
    fold (has_expiring (Ok c) facility). fold (seen (Ok c) facility).
    rewrite filter_app, length_app, !app_assoc, Nat.add_assoc.
    f_equal. f_equal.
    destruct (has_expiring (Ok c) facility); simpl; by rewrite <- ?app_assoc.
Qed.

Lemma filter_expiring_facilities_run_seen facilities w today c :
  forallb (scannable fromisoformat (Ok c)) facilities = true ->
  date_stable (clock_reads w) today ->
  add_months 6 today = Ok c ->
  let kept := List.filter (has_expiring (Ok c)) facilities in
  filter_expiring_facilities facilities w =
  (Ok kept,
   World
     (clock_reads w + 2 + length (List.filter date_parses (flat_map (seen (Ok c)) facilities)))
     (log w ++ [(INFO, Filtering c)] ++ pass_log fromisoformat c facilities
        ++ [(INFO, FoundExpiring (length kept) c)])
     (stdout w) (written w)).
Proof.
  intros Hok Hstable Hc kept.
  unfold filter_expiring_facilities, TransformData.filter_expiring_facilities.
  unfold bind at 1. unfold six_month_cutoff at 1, bind at 1, datetime_now at 1, lift at 1.
  rewrite (Hstable (clock_reads w)), Hc by lia.
  unfold bind at 1, logger_info at 1. unfold bind at 1.
  rewrite (filter_facilities_run_seen facilities [] _ today c);
    [|done|intros n Hn; apply Hstable; simpl in Hn; lia|done].
  cbn [app clock_reads log stdout written logged ticked].
  unfold bind at 1. unfold six_month_cutoff at 1, bind at 1, datetime_now at 1, lift at 1.
  cbn [clock_reads]. rewrite (Hstable _), Hc by lia.
  unfold bind, logger_info, ret, logged, ticked. cbn [clock_reads log stdout written].
  fold kept. f_equal. f_equal; [lia|]. by rewrite <- !app_assoc.
Qed.

Lemma accreditations_of_cons facility first rest :
  accreditations_of facility = first :: rest ->
  is_dict facility = true
  /\ py_get facility (u "accreditations") (PList []) = Ok (PList (first :: rest)).
Proof.
  unfold accreditations_of.
  destruct facility as [| | | | | |items]; try discriminate. cbn [py_get is_dict].
  destruct (from_option id (PList []) (dict_lookup (u "accreditations") items));
    try discriminate.
  by intros ->.
Qed.

(** X4. The pass needs the records to be well formed only as far as it
    reads them.  If every facility is a mapping whose accreditations are
    a list in which the entries up to and including the first match are
    mappings, the pass returns the facilities with a match, whatever
    comes after the first match of a facility: entries there are never
    examined, not even for being mappings. *)
Theorem filter_reads_only_to_first_match facilities w today c :
  forallb (scannable fromisoformat (Ok c)) facilities = true ->
  date_stable (clock_reads w) today ->
  add_months 6 today = Ok c ->
  fst (filter_expiring_facilities facilities w)
    = Ok (List.filter (has_expiring (Ok c)) facilities)
  /\ (forall f pre hit post,
        accreditations_of f = pre ++ hit :: post ->
        forallb is_dict (pre ++ [hit]) = true ->
        forallb (fun a => negb (acc_expiring (Ok c) a)) pre = true ->
        acc_expiring (Ok c) hit = true ->
        scannable fromisoformat (Ok c) f = true /\ has_expiring (Ok c) f = true).
Proof.
  intros Hok Hstable Hc.
  rewrite (filter_expiring_facilities_run_seen facilities w today c) by done.
  split; [done|].
  intros f pre hit post Haccs Hdicts Hpre Hhit.
  assert (Hget : py_get f (u "accreditations") (PList []) = Ok (PList (pre ++ hit :: post))).
  { destruct pre; apply accreditations_of_cons in Haccs as [_ ?]; done. }
  unfold scannable, has_expiring, TransformData.has_expiring.
  rewrite Hget, Haccs. fold acc_expiring.
  rewrite (visited_stops_at_first pre post hit) by done.
  split; [done|].
  rewrite existsb_app. cbn [existsb]. rewrite Hhit. by rewrite orb_true_r.
Qed.

Lemma filter_filter {A} (p : A -> bool) (l : list A) :
  List.filter p (List.filter p l) = List.filter p l.
Proof.
  induction l as [|x l IH]; [done|]. cbn [List.filter].
  destruct (p x) eqn:Hp; [|done]. cbn [List.filter]. by rewrite Hp, IH.
Qed.

Lemma forallb_filter {A} (q p : A -> bool) (l : list A) :
  forallb q l = true -> forallb q (List.filter p l) = true.
Proof.
  induction l as [|x l IH]; [done|]. cbn [forallb List.filter].
  intros [Hx Hl]%andb_prop. destruct (p x); [|by apply IH].
  cbn [forallb]. by rewrite Hx, IH.
Qed.

(** X5. The filter is idempotent: run again on its own output, on the
    same day, it returns that output unchanged. *)
Theorem filter_idempotent facilities w today c :
  forallb (scannable fromisoformat (Ok c)) facilities = true ->
  date_stable (clock_reads w) today ->
  add_months 6 today = Ok c ->
  exists kept w1,
    filter_expiring_facilities facilities w = (Ok kept, w1)
    /\ fst (filter_expiring_facilities kept w1) = Ok kept.
Proof.
  intros Hok Hstable Hc.
  eexists _, _. split; [by apply (filter_expiring_facilities_run_seen _ _ today c)|].
  rewrite (filter_expiring_facilities_run_seen _ _ today c).
  - cbn [fst]. by rewrite filter_filter.
  - by apply forallb_filter.
  - intros n Hn. apply Hstable. cbn [clock_reads] in Hn. lia.
  - done.
Qed.

(** X6. The filter works record by record: the result for a batch made
    of two parts is the result for the first part followed by the result
    for the second, each computed by a pass of its own on the same day. *)
Theorem filter_of_concatenation part1 part2 w w1 w2 today c :
  forallb (scannable fromisoformat (Ok c)) part1 = true ->
  forallb (scannable fromisoformat (Ok c)) part2 = true ->
  date_stable 0 today ->
  add_months 6 today = Ok c ->
  exists kept1 kept2,
    fst (filter_expiring_facilities part1 w1) = Ok kept1
    /\ fst (filter_expiring_facilities part2 w2) = Ok kept2
    /\ fst (filter_expiring_facilities (part1 ++ part2) w) = Ok (kept1 ++ kept2).
Proof.
  intros Hok1 Hok2 Hstable Hc.
  assert (Hany : forall w0, date_stable (clock_reads w0) today).
  { intros w0 n _. apply Hstable. lia. }
  rewrite (filter_expiring_facilities_run_seen part1 w1 today c) by done.
  rewrite (filter_expiring_facilities_run_seen part2 w2 today c) by done.
  rewrite (filter_expiring_facilities_run_seen (part1 ++ part2) w today c);
    [|by rewrite forallb_app, Hok1, Hok2|done|done].
  eexists _, _. split; [done|]. split; [done|]. cbn [fst]. by rewrite filter_app.
Qed.

(** ** Records the pass cannot get through *)

Lemma filter_expiring_facilities_abort before bad after w today c e n extra :
  forallb (scannable fromisoformat (Ok c)) before = true ->
  date_stable (clock_reads w) today ->
  add_months 6 today = Ok c ->
  (forall kept w1,
     date_stable (clock_reads w1) today ->
     filter_facilities (bad :: after) kept w1 =
     (Raise e, World (clock_reads w1 + n) (log w1 ++ extra) (stdout w1) (written w1))) ->
  filter_expiring_facilities (before ++ bad :: after) w =
  (Raise e,
   World
     (clock_reads w + 1
      + length (List.filter date_parses (flat_map (seen (Ok c)) before)) + n)
     (log w ++ [(INFO, Filtering c)] ++ pass_log fromisoformat c before ++ extra)
     (stdout w) (written w)).
Proof.
  intros Hok Hstable Hc Hbad.
  unfold filter_expiring_facilities, TransformData.filter_expiring_facilities.
  unfold bind at 1. unfold six_month_cutoff at 1, bind at 1, datetime_now at 1, lift at 1.
  rewrite (Hstable (clock_reads w)), Hc by lia.
  unfold bind at 1, logger_info at 1. unfold bind at 1.
  rewrite filter_facilities_app. unfold bind at 1.
  rewrite (filter_facilities_run_seen before [] _ today c);
    [|done|intros k Hk; apply Hstable; simpl in Hk; lia|done].
  rewrite Hbad; [|intros k Hk; apply Hstable; simpl in Hk; lia].
  cbn [app clock_reads log stdout written logged ticked].
  f_equal. f_equal; [lia|]. by rewrite <- !app_assoc.
Qed.

(** X1. A record that is not a mapping, a JSON array, string, number or
    null on a line of its own, aborts the pass: it raises
    [AttributeError] when it reaches the record, after the records
    before it have been examined, returns nothing for them, and logs no
    summary line. *)
Theorem record_not_a_mapping_aborts before bad after w today c :
  is_dict bad = false ->
  forallb (scannable fromisoformat (Ok c)) before = true ->
  date_stable (clock_reads w) today ->
  add_months 6 today = Ok c ->
  exists w',
    filter_expiring_facilities (before ++ bad :: after) w = (Raise AttributeError, w')
    /\ log w' = log w ++ [(INFO, Filtering c)] ++ pass_log fromisoformat c before
    /\ stdout w' = stdout w /\ written w' = written w.
Proof.
  intros Hbad Hok Hstable Hc.
  rewrite (filter_expiring_facilities_abort before bad after w today c AttributeError 0 [])
    by (try done; intros kept w1 _; cbn [TransformData.filter_facilities];
        unfold bind, lift; destruct bad; try discriminate;
        cbn [py_get]; rewrite Nat.add_0_r, app_nil_r; by destruct w1).
  eexists. split; [done|]. cbn [log stdout written]. by rewrite app_nil_r.
Qed.

(** X2. The default of [get("accreditations", [])] covers a missing key
    only.  A facility that has the key with a value that cannot be
    iterated, [null], a number or a boolean, aborts the pass with
    [TypeError]. *)
Theorem accreditations_not_iterable_aborts before bad value after w today c :
  py_get bad (u "accreditations") (PList []) = Ok value ->
  py_iter value = Raise TypeError ->
  forallb (scannable fromisoformat (Ok c)) before = true ->
  date_stable (clock_reads w) today ->
  add_months 6 today = Ok c ->
  exists w',
    filter_expiring_facilities (before ++ bad :: after) w = (Raise TypeError, w')
    /\ log w' = log w ++ [(INFO, Filtering c)] ++ pass_log fromisoformat c before
    /\ stdout w' = stdout w /\ written w' = written w.
Proof.
  intros Hget Hiter Hok Hstable Hc.
  rewrite (filter_expiring_facilities_abort before bad after w today c TypeError 0 [])
    by (try done; intros kept w1 _; cbn [TransformData.filter_facilities];
        unfold bind, lift; rewrite Hget, Hiter, Nat.add_0_r, app_nil_r; by destruct w1).
  eexists. split; [done|]. cbn [log stdout written]. by rewrite app_nil_r.
Qed.

Lemma scan_accreditations_past facility pre rest w today c :
  is_dict facility = true ->
  forallb is_dict pre = true ->
  forallb (fun a => negb (acc_expiring (Ok c) a)) pre = true ->
  date_stable (clock_reads w) today ->
  add_months 6 today = Ok c ->
  scan_accreditations facility (pre ++ rest) w =
  scan_accreditations facility rest
    (World (clock_reads w + length (List.filter date_parses pre))
       (log w ++ flat_map (visit_log c facility) pre) (stdout w) (written w)).
Proof.
  intros Hf Hdicts Hnone Hstable Hc. revert w Hstable.
  induction pre as [|acc pre IH]; intros w Hstable.
  - cbn [app List.filter flat_map length]. rewrite Nat.add_0_r, app_nil_r. by destruct w.
  - cbn [forallb] in Hdicts, Hnone.
    apply andb_prop in Hdicts as [Hacc Hdicts]. apply andb_prop in Hnone as [Hno Hnone].
    apply negb_true_iff in Hno.
    cbn [app]. rewrite (scan_accreditations_step facility acc _ w today c) by done.
    cbv zeta. rewrite Hno.
    rewrite IH; [|done|done|intros n Hn; apply Hstable; cbn [clock_reads] in Hn; lia].
    cbn [clock_reads log stdout written List.filter flat_map].
    do 2 f_equal.
    + destruct (date_parses acc); cbn [length]; lia.
    + by rewrite <- !app_assoc.
Qed.

(** X3. An accreditation entry that is not a mapping aborts the pass
    with [AttributeError] when the inner loop reaches it, that is when no
    entry before it in its facility matched. *)
Theorem accreditation_not_a_mapping_aborts before bad pre entry post after w today c :
  accreditations_of bad = pre ++ entry :: post ->
  is_dict entry = false ->
  forallb is_dict pre = true ->
  forallb (fun a => negb (acc_expiring (Ok c) a)) pre = true ->
  forallb (scannable fromisoformat (Ok c)) before = true ->
  date_stable (clock_reads w) today ->
  add_months 6 today = Ok c ->
  exists w',
    filter_expiring_facilities (before ++ bad :: after) w = (Raise AttributeError, w')
    /\ log w' = log w ++ [(INFO, Filtering c)] ++ pass_log fromisoformat c before
                 ++ flat_map (visit_log c bad) pre
    /\ stdout w' = stdout w /\ written w' = written w.
Proof.
  intros Haccs Hentry Hdicts Hnone Hok Hstable Hc.
  assert (Hget : is_dict bad = true /\
                 py_get bad (u "accreditations") (PList []) = Ok (PList (pre ++ entry :: post))).
  { destruct pre; apply accreditations_of_cons in Haccs; done. }
  destruct Hget as [Hdict Hget].
  rewrite (filter_expiring_facilities_abort before bad after w today c AttributeError
             (length (List.filter date_parses pre)) (flat_map (visit_log c bad) pre)).
  - eexists. split; [done|]. by cbn [log stdout written].
  - done.
  - done.
  - done.
  - intros kept w1 Hstable1. cbn [TransformData.filter_facilities].
    unfold bind at 1, lift at 1. rewrite Hget.
    unfold bind at 1, lift at 1. cbn [py_iter]. unfold bind at 1.
    rewrite (scan_accreditations_past bad pre _ w1 today c) by done.
    cbn [TransformData.scan_accreditations]. unfold bind at 1, lift at 1.
    by destruct entry.
Qed.

(** ** The job from end to end *)

(** X11. When the read and the write succeed, [json.loads] either loads
    each line or refuses it with [JSONDecodeError], and the loaded
    records can be scanned, the job writes exactly one object, to the
    fixed output key: the JSON text of the list of the loaded records
    that have a match, in input order.  It prints the parse errors, logs
    its steps in order and ends normally. *)
Theorem main_writes_filtered_records s3 w text today c :
  get_object s3 RAW_BUCKET RAW_KEY = Ok text ->
  let lines := candidate_lines (strip text) in
  let records := omap loaded lines in
  let kept := List.filter (has_expiring (Ok c)) records in
  forallb decided lines = true ->
  forallb (scannable fromisoformat (Ok c)) records = true ->
  date_stable (clock_reads w) today ->
  add_months 6 today = Ok c ->
  put_object s3 TRANSFORMED_BUCKET TRANSFORMED_KEY (json_dumps (PList kept)) = Ok tt ->
  exists w',
    main s3 w = (Ok tt, w')
    /\ written w' =
        written w ++ [(TRANSFORMED_BUCKET, TRANSFORMED_KEY, json_dumps (PList kept))]
    /\ stdout w' = stdout w ++ map parse_error_line (List.filter rejected lines)
    /\ log w' =
        log w ++ [(INFO, Starting); (INFO, ReadingInput);
                  (INFO, FoundFacilities (length records)); (INFO, Filtering c)]
          ++ pass_log fromisoformat c records
          ++ [(INFO, FoundExpiring (length kept) c); (INFO, Writing (length kept));
              (INFO, Completed)].
Proof.
  intros Hget lines records kept Hdecided Hok Hstable Hc Hput.
  unfold main, TransformData.main.
  unfold bind at 1, logger_info at 1. unfold bind at 1.
  rewrite get_all_facilities_run, Hget. cbv zeta. fold lines.
  rewrite (read_lines_decided lines) by done. cbn [fst snd]. fold records.
  unfold bind at 1.
  rewrite (filter_expiring_facilities_run_seen records _ today c) by done.
  cbv zeta. fold kept. unfold bind at 1. rewrite write_to_s3_run. cbv zeta.
  rewrite Hput. unfold logger_info, logged. cbn [clock_reads log stdout written].
  eexists. split; [done|]. cbn [log stdout written].
  split; [done|]. split; [done|].
  rewrite <- !app_assoc. reflexivity.
Qed.

(** X12. A failed read does not stop the job: it goes on with no
    records and, when the write succeeds, replaces the output object by
    the empty JSON array. *)
Theorem fetch_failure_overwrites_output s3 w e today c :
  get_object s3 RAW_BUCKET RAW_KEY = Raise e ->
  put_object s3 TRANSFORMED_BUCKET TRANSFORMED_KEY (u "[]") = Ok tt ->
  date_stable (clock_reads w) today ->
  add_months 6 today = Ok c ->
  exists w',
    main s3 w = (Ok tt, w')
    /\ written w' = written w ++ [(TRANSFORMED_BUCKET, TRANSFORMED_KEY, u "[]")]
    /\ log w' =
        log w ++ [(INFO, Starting); (INFO, ReadingInput); read_failure e;
                  (INFO, Filtering c); (INFO, FoundExpiring 0 c);
                  (INFO, Writing 0); (INFO, Completed)].
Proof.
  intros Hget Hput Hstable Hc.
  unfold main, TransformData.main.
  unfold bind at 1, logger_info at 1. unfold bind at 1.
  rewrite get_all_facilities_run, Hget.
  unfold bind at 1.
  rewrite (filter_expiring_facilities_run_seen [] _ today c) by done.
  cbv zeta. cbn [List.filter]. unfold bind at 1. rewrite write_to_s3_run. cbv zeta.
  change (json_dumps (PList [])) with (u "[]"). rewrite Hput.
  unfold logger_info, logged, pass_log. cbn [clock_reads log stdout written flat_map].
  eexists. split; [done|]. cbn [log stdout written length].
  split; [done|]. rewrite <- !app_assoc. reflexivity.
Qed.

(** X13. When the parse returns, that is when [json.loads] either loads
    each line or refuses it with [JSONDecodeError], a line that loads as
    something other than a mapping is accepted by the parser and then
    aborts the job in the filter: [main] raises [AttributeError], writes
    nothing, and logs neither a summary nor its completion. *)
Theorem main_aborts_on_record_not_a_mapping s3 w text before bad after today c :
  get_object s3 RAW_BUCKET RAW_KEY = Ok text ->
  forallb decided (candidate_lines (strip text)) = true ->
  omap loaded (candidate_lines (strip text)) = before ++ bad :: after ->
  is_dict bad = false ->
  forallb (scannable fromisoformat (Ok c)) before = true ->
  date_stable (clock_reads w) today ->
  add_months 6 today = Ok c ->
  exists w',
    main s3 w = (Raise AttributeError, w')
    /\ written w' = written w
    /\ log w' =
        log w ++ [(INFO, Starting); (INFO, ReadingInput);
                  (INFO, FoundFacilities (length (before ++ bad :: after)));
                  (INFO, Filtering c)]
          ++ pass_log fromisoformat c before.
Proof.
  intros Hget Hdecided Hrecords Hbad Hok Hstable Hc.
  unfold main, TransformData.main.
  unfold bind at 1, logger_info at 1. unfold bind at 1.
  rewrite get_all_facilities_run, Hget. cbv zeta.
  rewrite (read_lines_decided _ Hdecided). cbn [fst snd]. rewrite Hrecords.
  unfold bind at 1.
  rewrite (filter_expiring_facilities_abort before bad after _ today c AttributeError 0 [])
    by (try done; intros kept w1 _; cbn [TransformData.filter_facilities];
        unfold bind, lift; destruct bad; try discriminate;
        cbn [py_get]; rewrite Nat.add_0_r, app_nil_r; by destruct w1).
  eexists. split; [done|]. cbn [log stdout written logged].
  split; [done|]. rewrite app_nil_r, <- !app_assoc. reflexivity.
Qed.

(** X26. An exception of [json.loads] other than [JSONDecodeError], such
    as the [ValueError] for an integer literal that is too long, ends
    the parsing of the input and is absorbed by [get_all_facilities]:
    the records loaded from the lines before are dropped, the job goes on
    with no records and, when the write succeeds, replaces the output
    object by the empty JSON array. *)
Theorem parse_failure_overwrites_output s3 w text before line after e today c :
  get_object s3 RAW_BUCKET RAW_KEY = Ok text ->
  candidate_lines (strip text) = before ++ line :: after ->
  forallb decided before = true ->
  uncaught line = Some e ->
  put_object s3 TRANSFORMED_BUCKET TRANSFORMED_KEY (u "[]") = Ok tt ->
  date_stable (clock_reads w) today ->
  add_months 6 today = Ok c ->
  get_all_facilities s3 w =
    (Ok [],
     World (clock_reads w) (log w ++ [(INFO, ReadingInput); read_failure e])
       (stdout w ++ map parse_error_line (List.filter rejected before)) (written w))
  /\ exists w',
       main s3 w = (Ok tt, w')
       /\ written w' = written w ++ [(TRANSFORMED_BUCKET, TRANSFORMED_KEY, u "[]")]
       /\ stdout w' = stdout w ++ map parse_error_line (List.filter rejected before)
       /\ log w' =
           log w ++ [(INFO, Starting); (INFO, ReadingInput); read_failure e;
                     (INFO, Filtering c); (INFO, FoundExpiring 0 c);
                     (INFO, Writing 0); (INFO, Completed)].
Proof.
  intros Hget Hlines Hbefore Hline Hput Hstable Hc.
  split.
  { rewrite get_all_facilities_run, Hget. cbv zeta.
    by rewrite Hlines, (read_lines_stop before after line e). }
  unfold main, TransformData.main.
  unfold bind at 1, logger_info at 1. unfold bind at 1.
  rewrite get_all_facilities_run, Hget. cbv zeta.
  rewrite Hlines, (read_lines_stop before after line e) by done. cbn [fst snd].
  unfold bind at 1.
  rewrite (filter_expiring_facilities_run_seen [] _ today c) by done.
  cbv zeta. cbn [List.filter]. unfold bind at 1. rewrite write_to_s3_run. cbv zeta.
  change (json_dumps (PList [])) with (u "[]"). rewrite Hput.
  unfold logger_info, logged, pass_log. cbn [clock_reads log stdout written flat_map].
  eexists. split; [done|]. cbn [log stdout written length].
  split; [done|]. split; [done|]. rewrite <- !app_assoc. reflexivity.
Qed.

(** ** White space in the body *)

Lemma lstrip_all_space (s : str) :
  forallb is_space s = true -> lstrip_set is_space s = [].
Proof.
  induction s as [|ch s IH]; [done|]. cbn [forallb lstrip_set].
  intros [Hch Hs]%andb_prop. rewrite Hch. by apply IH.
Qed.

Lemma strip_all_space (s : str) : forallb is_space s = true -> strip s = [].
Proof. intros H. unfold strip. rewrite (lstrip_all_space s H). reflexivity. Qed.

Lemma splitlines_from_all_space cur s :
  forallb is_space cur = true -> forallb is_space s = true ->
  forallb (fun line => bool_decide (strip line = [])) (splitlines_from cur s) = true.
Proof.
  assert (Hrev : forall l : str, forallb is_space l = true ->
                                 bool_decide (strip (rev l) = []) = true).
  { intros l Hl. apply bool_decide_eq_true. apply strip_all_space.
    apply forallb_forall. intros x Hx%in_rev. by eapply forallb_forall in Hl. }
  remember (length s) as n eqn:Hn. revert cur s Hn.
  induction n as [n IH] using lt_wf_ind. intros cur s Hn Hcur Hs.
  destruct s as [|ch rest]; cbn [splitlines_from].
  - destruct cur as [|c0 cur']; [done|]. cbn [forallb]. by rewrite (Hrev _ Hcur).
  - cbn [forallb] in Hs. apply andb_prop in Hs as [Hch Hrest].
    destruct (is_linebreak ch).
    + cbn [forallb]. rewrite (Hrev _ Hcur). cbn [andb].
      destruct rest as [|c2 r].
      * done.
      * cbn [forallb] in Hrest. apply andb_prop in Hrest as [Hc2 Hr].
        destruct ((ch =? 13)%N && (c2 =? 10)%N).
        -- eapply (IH (length r)); [cbn [length] in Hn; subst n; cbn [length]; lia|done|done|done].
        -- eapply (IH (length (c2 :: r))); [subst n; cbn [length]; lia|done|done|].
           cbn [forallb]. by rewrite Hc2, Hr.
    + eapply (IH (length rest)); [subst n; cbn [length]; lia|done| |done].
      cbn [forallb]. by rewrite Hch, Hcur.
Qed.

(** X14. A body that holds white space only, the empty body included,
    gives no record and prints nothing: blank lines are passed over
    without being handed to [json.loads] and without an error line. *)
Theorem parse_json_lines_blank_body (body : str) (w : world) :
  forallb is_space body = true ->
  parse_json_lines body w = (Ok [], w).
Proof.
  intros Hbody.
  unfold parse_json_lines, TransformData.parse_json_lines. rewrite parse_lines_run.
  cbv zeta.
  assert (Hnone : candidate_lines body = []).
  { pose proof (splitlines_from_all_space [] body eq_refl Hbody) as Hall.
    unfold candidate_lines, splitlines. induction (splitlines_from [] body) as [|line ls IHl]; [done|].
    cbn [forallb] in Hall. apply andb_prop in Hall as [Hline Hls].
    apply bool_decide_eq_true in Hline.
    cbn [map List.filter]. rewrite Hline. by apply IHl. }
  change (List.filter _ (map strip (splitlines body))) with (candidate_lines body).
  rewrite Hnone. cbn [TransformData.read_lines fst snd omap List.filter map].
  rewrite !app_nil_r. by destruct w.
Qed.

End Proofs.

Import Samples.

(** Section 8, example 7: today 2023-08-01, cutoff 2024-02-01,
    facility A (valid until 2024-01-01) is included. *)
Example facility_A_included :
  fst (filter_expiring_facilities on_2023_08_01 fromisoformat_date_only [facility_A] stage2_start)
  = Ok [facility_A].
Proof. reflexivity. Qed.

(** Section 8, example 8: today 2023-01-01, cutoff 2023-07-01,
    facility A is excluded. *)
Example facility_A_excluded :
  fst (filter_expiring_facilities on_2023_01_01 fromisoformat_date_only [facility_A] stage2_start)
  = Ok [].
Proof. reflexivity. Qed.

Example check_if_expiring_samples :
  fst (check_if_expiring on_2023_08_01 fromisoformat_date_only (PStr (u "2024-02-01")) stage2_start) = Ok true
  /\ fst (check_if_expiring on_2023_08_01 fromisoformat_date_only (PStr (u "2024-02-02")) stage2_start) = Ok false
  /\ fst (check_if_expiring on_2023_08_01 fromisoformat_date_only (PStr (u "01/02/2024")) stage2_start) = Ok false
  /\ fst (check_if_expiring on_2023_08_01 fromisoformat_date_only PNone stage2_start) = Ok false.
Proof. repeat split. Qed.

(** The inner loop stops at the first match: the entry after it, which
    is not a mapping, is never looked at; put first, it raises. *)
Example ragged_tail_not_scanned :
  fst (filter_expiring_facilities on_2023_08_01 fromisoformat_date_only [facility_ragged] stage2_start)
  = Ok [facility_ragged]
  /\ fst (filter_expiring_facilities on_2023_08_01 fromisoformat_date_only
            [PDict [(u "accreditations",
                     PList [PInt 42; PDict [(u "valid_until", PStr (u "2024-01-01"))]])]]
            stage2_start)
     = Raise AttributeError.
Proof. split; reflexivity. Qed.

Example parse_json_lines_sample :
  let table := [(u "{}", PDict []); (u "[1]", PList [PInt 1])] in
  let body := u "{}" ++ [10%N] ++ u "  " ++ [10%N] ++ u "{oops" ++ [13; 10]%N ++ u " [1] " in
  parse_json_lines (json_loads_of table) body stage2_start =
  (Ok [PDict []; PList [PInt 1]],
   TransformData.World 0 [] [u "Error parsing JSON line: {oops"] []).
Proof. reflexivity. Qed.

Lemma parse_json_lines_skips_decode_errors_witness :
  parse_json_lines json_loads_lines body_two_facilities stage2_start
  = (Ok [facility "A" "2024-01-01"; facility "B" "2025-01-01"],
     TransformData.World 0 [] [u "Error parsing JSON line: {oops"] [])
  /\ parse_json_lines json_loads_integers body_long_integer stage2_start
     = (Raise ValueError, stage2_start).
Proof.
  split.
  - pose proof (parse_json_lines_skips_decode_errors json_loads_lines
                  body_two_facilities stage2_start) as H.
    cbv zeta in H. destruct H as [Hskip _].
    destruct Hskip as (records & printed & Hrun & -> & _ & -> & _); [reflexivity|].
    rewrite Hrun. vm_compute. reflexivity.
  - pose proof (parse_json_lines_skips_decode_errors json_loads_integers
                  body_long_integer stage2_start) as H.
    cbv zeta in H. destruct H as [_ Habort].
    rewrite (Habort [u "7"] (repeat 49%N 4301) [u "8"] ValueError).
    + reflexivity.
    + vm_compute. reflexivity.
    + reflexivity.
    + vm_compute. reflexivity.
Defined.

(** C4, refuted as stated.  The body has the lines [7] and [8], which
    load, and between them a line of 4301 digits, on which [json.loads]
    raises [ValueError]: the line is not skipped, [parse_json_lines]
    raises at it and returns no record at all. *)
Lemma long_integer_aborts_batch :
  parse_json_lines json_loads_integers body_long_integer stage2_start
  = (Raise ValueError, stage2_start)
  /\ ~ exists records w',
        parse_json_lines json_loads_integers body_long_integer stage2_start
        = (Ok records, w').
Proof.
  assert (Hrun : parse_json_lines json_loads_integers body_long_integer stage2_start
                 = (Raise ValueError, stage2_start)) by (vm_compute; reflexivity).
  split; [exact Hrun|]. intros (records & w' & H). rewrite Hrun in H. discriminate.
Qed.

Lemma filter_expiring_facilities_correct_witness :
  fst (filter_expiring_facilities on_2023_08_01 fromisoformat_date_only
         [facility_A; facility_bare; facility "B" "2025-01-01"; facility_P] stage2_start)
  = Ok [facility_A; facility_P].
Proof.
  destruct (filter_expiring_facilities_correct on_2023_08_01 fromisoformat_date_only
              [facility_A; facility_bare; facility "B" "2025-01-01"; facility_P]
              stage2_start (Date 2023 8 1) (Date 2024 2 1))
    as (kept & w' & Hrun & Hkept & _).
  - reflexivity.
  - intros n _. reflexivity.
  - reflexivity.
  - rewrite Hrun, Hkept. reflexivity.
Defined.

Lemma facility_without_accreditations_excluded_witness :
  fst (filter_expiring_facilities on_2023_08_01 fromisoformat_date_only [facility_bare] stage2_start) = Ok []
  /\ filter_expiring_facilities on_2023_08_01 fromisoformat_date_only [facility_A; facility_bare] stage2_start
     = filter_expiring_facilities on_2023_08_01 fromisoformat_date_only [facility_A] stage2_start.
Proof.
  destruct (facility_without_accreditations_excluded on_2023_08_01 fromisoformat_date_only facility_bare)
    as (_ & Hskip & _ & Halone).
  - reflexivity.
  - split.
    + apply (Halone stage2_start (Date 2023 8 1) (Date 2024 2 1)).
      * intros n _. reflexivity.
      * reflexivity.
    + apply (Hskip [facility_A] [] stage2_start).
Defined.

(** C3, refuted as stated.  When midnight passes between the checks of
    two facilities with the same expiry date, the first is judged
    against the cutoff of the old day and the second against that of the
    new day: only the second is returned, which no single cutoff for the
    batch, and in particular not the one computed at the start of the
    pass, can produce. *)
Lemma single_cutoff_refuted :
  fst (filter_expiring_facilities midnight_clock fromisoformat_date_only [facility_P; facility_Q] stage2_start)
  = Ok [facility_Q]
  /\ fst (filter_expiring_facilities midnight_clock fromisoformat_date_only [facility_P; facility_Q] stage2_start)
     <> fst (filter_with_single_cutoff midnight_clock fromisoformat_date_only [facility_P; facility_Q] stage2_start)
  /\ ~ exists cutoff : result date,
        fst (filter_expiring_facilities midnight_clock fromisoformat_date_only [facility_P; facility_Q] stage2_start)
        = Ok (List.filter (has_expiring fromisoformat_date_only cutoff) [facility_P; facility_Q]).
Proof.
  split; [reflexivity|]. split; [discriminate|].
  intros [cutoff H].
  change (fst _) with (@Ok (list pyval) [facility_Q]) in H.
  cbn [List.filter] in H.
  change (has_expiring fromisoformat_date_only cutoff facility_Q)
    with (has_expiring fromisoformat_date_only cutoff facility_P) in H.
  destruct (has_expiring fromisoformat_date_only cutoff facility_P); discriminate.
Qed.

Lemma cutoff_recomputed_per_check_witness :
  fst (filter_expiring_facilities on_2023_08_01 fromisoformat_date_only [facility_P; facility_Q] stage2_start)
  = fst (filter_with_single_cutoff on_2023_08_01 fromisoformat_date_only [facility_P; facility_Q] stage2_start)
  /\ clock_reads
       (snd (filter_expiring_facilities on_2023_08_01 fromisoformat_date_only [facility_P; facility_Q] stage2_start))
     = 4.
Proof.
  destruct (cutoff_recomputed_per_check on_2023_08_01 fromisoformat_date_only [facility_P; facility_Q]
              stage2_start (Date 2023 8 1) (Date 2024 2 1))
    as (Hsame & Hreads & _).
  - reflexivity.
  - intros n _. reflexivity.
  - reflexivity.
  - split; [exact Hsame|]. rewrite Hreads. reflexivity.
Defined.

Lemma fetch_and_write_failures_absorbed_witness :
  exists w', main on_2023_08_01 fromisoformat_date_only (json_loads_of []) failing_s3 stage2_start = (Ok tt, w')
             /\ In (read_failure (ClientError (u "AccessDenied"))) (log w')
             /\ In (write_failure (ClientError (u "AccessDenied"))) (log w')
             /\ written w' = [].
Proof.
  destruct (fetch_and_write_failures_absorbed on_2023_08_01 fromisoformat_date_only (json_loads_of [])
              failing_s3 stage2_start [])
    as (_ & _ & Hmain).
  destruct (Hmain (Date 2023 8 1) (Date 2024 2 1))
    as (kept & w' & Hrun & Hread & Hwrite).
  - intros n _. reflexivity.
  - reflexivity.
  - intros facilities w1 H. vm_compute in H. injection H as <- _. reflexivity.
  - exists w'. split; [exact Hrun|].
    destruct (Hread (ClientError (u "AccessDenied"))) as [_ Hr]; [reflexivity|].
    destruct (Hwrite (ClientError (u "AccessDenied"))) as [Hw Hn]; [reflexivity|].
    auto.
Defined.

(** ** The further properties on concrete inputs *)

Lemma record_not_a_mapping_aborts_witness :
  fst (filter_expiring_facilities on_2023_08_01 fromisoformat_date_only
         [facility_A; PList [PInt 1]; facility_P] stage2_start)
  = Raise AttributeError.
Proof.
  destruct (record_not_a_mapping_aborts on_2023_08_01 fromisoformat_date_only
              [facility_A] (PList [PInt 1]) [facility_P] stage2_start
              (Date 2023 8 1) (Date 2024 2 1))
    as (w' & Hrun & _).
  - reflexivity.
  - reflexivity.
  - intros n _. reflexivity.
  - reflexivity.
  - exact (f_equal fst Hrun).
Defined.

Lemma accreditations_not_iterable_aborts_witness :
  fst (filter_expiring_facilities on_2023_08_01 fromisoformat_date_only
         [facility_A; facility_null] stage2_start)
  = Raise TypeError.
Proof.
  destruct (accreditations_not_iterable_aborts on_2023_08_01 fromisoformat_date_only
              [facility_A] facility_null PNone [] stage2_start
              (Date 2023 8 1) (Date 2024 2 1))
    as (w' & Hrun & _).
  - reflexivity.
  - reflexivity.
  - reflexivity.
  - intros n _. reflexivity.
  - reflexivity.
  - exact (f_equal fst Hrun).
Defined.

Lemma accreditation_not_a_mapping_aborts_witness :
  fst (filter_expiring_facilities on_2023_08_01 fromisoformat_date_only
         [facility_A; facility_broken] stage2_start)
  = Raise AttributeError.
Proof.
  destruct (accreditation_not_a_mapping_aborts on_2023_08_01 fromisoformat_date_only
              [facility_A] facility_broken
              [PDict [(u "valid_until", PStr (u "2030-01-01"))]] (PInt 42) [] []
              stage2_start (Date 2023 8 1) (Date 2024 2 1))
    as (w' & Hrun & _).
  - reflexivity.
  - reflexivity.
  - reflexivity.
  - reflexivity.
  - reflexivity.
  - intros n _. reflexivity.
  - reflexivity.
  - exact (f_equal fst Hrun).
Defined.

Lemma filter_reads_only_to_first_match_witness :
  fst (filter_expiring_facilities on_2023_08_01 fromisoformat_date_only
         [facility_ragged; facility_bare] stage2_start)
  = Ok [facility_ragged].
Proof.
  destruct (filter_reads_only_to_first_match on_2023_08_01 fromisoformat_date_only
              [facility_ragged; facility_bare] stage2_start
              (Date 2023 8 1) (Date 2024 2 1))
    as (Hrun & _).
  - reflexivity.
  - intros n _. reflexivity.
  - reflexivity.
  - rewrite Hrun. reflexivity.
Defined.

Lemma filter_idempotent_witness :
  exists w1,
    filter_expiring_facilities on_2023_08_01 fromisoformat_date_only
      [facility_A; facility "B" "2025-01-01"] stage2_start = (Ok [facility_A], w1)
    /\ fst (filter_expiring_facilities on_2023_08_01 fromisoformat_date_only
              [facility_A] w1) = Ok [facility_A].
Proof.
  destruct (filter_idempotent on_2023_08_01 fromisoformat_date_only
              [facility_A; facility "B" "2025-01-01"] stage2_start
              (Date 2023 8 1) (Date 2024 2 1))
    as (kept & w1 & Hrun & Hagain).
  - reflexivity.
  - intros n _. reflexivity.
  - reflexivity.
  - assert (Hkept : kept = [facility_A]).
    { pose proof (f_equal fst Hrun) as H. vm_compute in H. by injection H as <-. }
    subst kept. exists w1. split; [exact Hrun|exact Hagain].
Defined.

Lemma filter_of_concatenation_witness :
  fst (filter_expiring_facilities on_2023_08_01 fromisoformat_date_only
         ([facility_A] ++ [facility "B" "2025-01-01"; facility_P]) stage2_start)
  = Ok ([facility_A] ++ [facility_P]).
Proof.
  destruct (filter_of_concatenation on_2023_08_01 fromisoformat_date_only
              [facility_A] [facility "B" "2025-01-01"; facility_P]
              stage2_start stage2_start stage2_start (Date 2023 8 1) (Date 2024 2 1))
    as (kept1 & kept2 & H1 & H2 & Hboth).
  - reflexivity.
  - reflexivity.
  - intros n _. reflexivity.
  - reflexivity.
  - vm_compute in H1, H2. injection H1 as <-. injection H2 as <-. exact Hboth.
Defined.

Lemma already_expired_is_flagged_witness :
  fst (check_if_expiring on_2023_08_01 fromisoformat_date_only
         (PStr (u "2020-01-01")) stage2_start) = Ok true.
Proof.
  apply (already_expired_is_flagged on_2023_08_01 fromisoformat_date_only
           (u "2020-01-01") (DateTime (Date 2020 1 1) 0 0 0 0) stage2_start (Date 2024 2 1));
    reflexivity.
Defined.

Lemma flagged_stays_flagged_witness :
  fst (check_if_expiring midnight_clock fromisoformat_date_only
         (PStr (u "2024-01-15")) (TransformData.World 2 [] [] [])) = Ok true.
Proof.
  apply (flagged_stays_flagged midnight_clock fromisoformat_date_only
           (PStr (u "2024-01-15")) stage2_start (TransformData.World 2 [] [] [])
           (Date 2024 2 1));
    reflexivity.
Defined.

Lemma cutoff_is_a_later_valid_date_witness :
  valid_date (Date 2024 2 29) = true
  /\ date_le (Date 2023 8 31) (Date 2024 2 29) = true
  /\ Date 2024 2 29 <> Date 2023 8 31.
Proof.
  destruct (cutoff_is_a_later_valid_date (Date 2023 8 31) (Date 2024 2 29))
    as (Hvalid & Hle & Hne & _).
  - reflexivity.
  - reflexivity.
  - split; [exact Hvalid|]. split; [exact Hle|exact Hne].
Defined.

Lemma cutoff_out_of_range_witness :
  fst (check_if_expiring last_year_clock fromisoformat_date_only
         (PStr (u "2024-01-01")) stage2_start) = Ok false
  /\ fst (filter_expiring_facilities last_year_clock fromisoformat_date_only
            [facility_A] stage2_start) = Raise ValueError.
Proof.
  destruct (cutoff_out_of_range last_year_clock fromisoformat_date_only
              (PStr (u "2024-01-01")) [facility_A] stage2_start)
    as (Hcheck & _ & Hpass).
  - reflexivity.
  - vm_compute. reflexivity.
  - split; [exact Hcheck|exact (f_equal fst Hpass)].
Defined.

Lemma main_writes_filtered_records_witness :
  exists w',
    main on_2023_08_01 fromisoformat_date_only json_loads_lines
      (serving_s3 body_two_facilities) stage2_start = (Ok tt, w')
    /\ written w' =
       [(TRANSFORMED_BUCKET, TRANSFORMED_KEY, json_dumps (PList [facility "A" "2024-01-01"]))]
    /\ stdout w' = [u "Error parsing JSON line: {oops"].
Proof.
  pose proof (main_writes_filtered_records on_2023_08_01 fromisoformat_date_only
                json_loads_lines (serving_s3 body_two_facilities) stage2_start
                body_two_facilities (Date 2023 8 1) (Date 2024 2 1) eq_refl) as H.
  cbv zeta in H. destruct H as (w' & Hrun & Hwritten & Hstdout & _).
  - reflexivity.
  - reflexivity.
  - intros n _. reflexivity.
  - reflexivity.
  - reflexivity.
  - exists w'. split; [exact Hrun|]. split; [exact Hwritten|exact Hstdout].
Defined.

Lemma fetch_failure_overwrites_output_witness :
  exists w',
    main on_2023_08_01 fromisoformat_date_only json_loads_lines unreadable_s3 stage2_start
      = (Ok tt, w')
    /\ written w' = [(TRANSFORMED_BUCKET, TRANSFORMED_KEY, u "[]")].
Proof.
  destruct (fetch_failure_overwrites_output on_2023_08_01 fromisoformat_date_only
              json_loads_lines unreadable_s3 stage2_start
              (ClientError (u "NoSuchKey")) (Date 2023 8 1) (Date 2024 2 1))
    as (w' & Hrun & Hwritten & _).
  - reflexivity.
  - reflexivity.
  - intros n _. reflexivity.
  - reflexivity.
  - exists w'. split; [exact Hrun|exact Hwritten].
Defined.

Lemma main_aborts_on_record_not_a_mapping_witness :
  exists w',
    main on_2023_08_01 fromisoformat_date_only json_loads_lines
      (serving_s3 body_with_array) stage2_start = (Raise AttributeError, w')
    /\ written w' = [].
Proof.
  destruct (main_aborts_on_record_not_a_mapping on_2023_08_01 fromisoformat_date_only
              json_loads_lines (serving_s3 body_with_array) stage2_start
              body_with_array [facility "A" "2024-01-01"] (PList [PInt 1]) []
              (Date 2023 8 1) (Date 2024 2 1))
    as (w' & Hrun & Hwritten & _).
  - reflexivity.
  - reflexivity.
  - reflexivity.
  - reflexivity.
  - reflexivity.
  - intros n _. reflexivity.
  - reflexivity.
  - exists w'. split; [exact Hrun|exact Hwritten].
Defined.

Lemma parse_failure_overwrites_output_witness :
  get_all_facilities json_loads_integers (serving_s3 body_long_integer) stage2_start
  = (Ok [], TransformData.World 0
              [(INFO, ReadingInput); (ERROR, GetAllError ValueError)] [] [])
  /\ exists w',
       main on_2023_08_01 fromisoformat_date_only json_loads_integers
         (serving_s3 body_long_integer) stage2_start = (Ok tt, w')
       /\ written w' = [(TRANSFORMED_BUCKET, TRANSFORMED_KEY, u "[]")].
Proof.
  destruct (parse_failure_overwrites_output on_2023_08_01 fromisoformat_date_only
              json_loads_integers (serving_s3 body_long_integer) stage2_start
              body_long_integer [u "7"] (repeat 49%N 4301) [u "8"] ValueError
              (Date 2023 8 1) (Date 2024 2 1))
    as (Hget & w' & Hrun & Hwritten & _).
  - reflexivity.
  - vm_compute. reflexivity.
  - reflexivity.
  - vm_compute. reflexivity.
  - reflexivity.
  - intros n _. reflexivity.
  - reflexivity.
  - split; [exact Hget|]. exists w'. split; [exact Hrun|exact Hwritten].
Defined.

Lemma parse_json_lines_blank_body_witness :
  parse_json_lines json_loads_lines (u "  " ++ [10; 9; 13; 10; 160]%N) stage2_start
  = (Ok [], stage2_start).
Proof.
  apply (parse_json_lines_blank_body json_loads_lines). reflexivity.
Defined.

End TransformDataFacts.

(** * Properties of the aggregation job *)

Module Stage3LambdaFacts.
Import Stage3Lambda.

Section Proofs.
Variable start_query_execution : str -> str -> str -> result str.
Variable get_query_execution : nat -> str -> result query_execution.
Variable copy_object : copy_request -> result unit.
Variable utcnow : nat -> datetime.
Variable urlparse : str -> result parse_result.

Abbreviation poll := (poll get_query_execution).
Abbreviation wait_for_query := (wait_for_query get_query_execution).
Abbreviation fetch_answers := (fetch_answers get_query_execution).
Abbreviation lambda_handler :=
  (lambda_handler start_query_execution get_query_execution copy_object utcnow urlparse).

Lemma fetch_answers_shift id w w' i p :
  fetches w' = S (fetches w) ->
  fetch_answers id w (S i) p -> fetch_answers id w' i p.
Proof.
  unfold fetch_answers, Stage3Lambda.fetch_answers. intros -> (r & Hr & Hp).
  exists r. split; [|done]. by rewrite <- Hr, Nat.add_succ_r.
Qed.

Lemma poll_first_terminal id delay k : forall remaining attempt w final,
  (0 <= delay)%Z ->
  k < remaining ->
  (forall i, i < k -> fetch_answers id w i pending) ->
  get_query_execution (fetches w + k) id = Ok final ->
  is_terminal (State final) = true ->
  exists w',
    poll id delay remaining attempt w = (Ok (State final), w')
    /\ fetches w' = fetches w + S k
    /\ slept w' = slept w ++ repeat delay k
    /\ started w' = started w /\ utc_reads w' = utc_reads w /\ copies w' = copies w.
Proof.
  induction k as [|k IH]; intros remaining attempt w final Hdelay Hk Hpending Hfinal Hterm;
    (destruct remaining as [|remaining]; [lia|]);
    cbn [Stage3Lambda.poll]; unfold bind at 1, athena_get_query_execution at 1.
  - rewrite Nat.add_0_r in Hfinal. rewrite Hfinal.
    unfold bind, logger_info, logged, ret. rewrite Hterm. simpl.
    eexists. split; [done|]. simpl. rewrite app_nil_r. repeat split; lia.
  - destruct (Hpending 0) as (r & Hr & Hp); [lia|].
    rewrite Nat.add_0_r in Hr. rewrite Hr.
    unfold pending in Hp. apply negb_true_iff in Hp.
    unfold bind at 1, logger_info at 1. rewrite Hp.
    unfold bind at 1, time_sleep at 1.
    destruct (Z.ltb_spec delay 0) as [?|_]; [lia|].
    match goal with
    | |- context [Stage3Lambda.poll _ _ _ _ _ ?w1] =>
        destruct (IH remaining (attempt + 1)%Z w1 final)
          as (w' & Hrun & Hf & Hs & Hst & Hu & Hc);
          [exact Hdelay|lia| |rewrite <- Hfinal; simpl; f_equal; lia|exact Hterm|]
    end.
    { intros i Hi. eapply fetch_answers_shift; [|apply (Hpending (S i)); lia]. done. }
    exists w'. split; [exact Hrun|]. rewrite Hf, Hs, Hst, Hu, Hc. simpl.
    rewrite <- app_assoc. repeat split; lia.
Qed.

Lemma poll_exhausts id delay remaining : forall attempt w,
  (0 <= delay)%Z ->
  (forall i, i < remaining -> fetch_answers id w i pending) ->
  exists w',
    poll id delay remaining attempt w = (Raise (TimeoutError (u "Athena query timed out")), w')
    /\ fetches w' = fetches w + remaining
    /\ slept w' = slept w ++ repeat delay remaining
    /\ started w' = started w /\ utc_reads w' = utc_reads w /\ copies w' = copies w.
Proof.
  induction remaining as [|remaining IH]; intros attempt w Hdelay Hpending;
    cbn [Stage3Lambda.poll].
  - eexists. split; [done|]. rewrite app_nil_r. repeat split; lia.
  - unfold bind at 1, athena_get_query_execution at 1.
    destruct (Hpending 0) as (r & Hr & Hp); [lia|].
    rewrite Nat.add_0_r in Hr. rewrite Hr.
    unfold pending in Hp. apply negb_true_iff in Hp.
    unfold bind at 1, logger_info at 1. rewrite Hp.
    unfold bind at 1, time_sleep at 1.
    destruct (Z.ltb_spec delay 0) as [?|_]; [lia|].
    match goal with
    | |- context [Stage3Lambda.poll _ _ _ _ _ ?w1] =>
        destruct (IH (attempt + 1)%Z w1) as (w' & Hrun & Hf & Hs & Hst & Hu & Hc);
          [exact Hdelay| |]
    end.
    { intros i Hi. eapply fetch_answers_shift; [|apply (Hpending (S i)); lia]. done. }
    exists w'. split; [exact Hrun|]. rewrite Hf, Hs, Hst, Hu, Hc. simpl.
    rewrite <- app_assoc. repeat split; lia.
Qed.

Lemma poll_returns_terminal id delay remaining : forall attempt w state w',
  poll id delay remaining attempt w = (Ok state, w') ->
  is_terminal state = true
  /\ started w' = started w /\ utc_reads w' = utc_reads w /\ copies w' = copies w.
Proof.
  induction remaining as [|remaining IH]; intros attempt w state w';
    cbn [Stage3Lambda.poll]; [discriminate|].
  unfold bind at 1, athena_get_query_execution at 1.
  destruct (get_query_execution (fetches w) id) as [r|e]; [|discriminate].
  unfold bind at 1, logger_info at 1.
  destruct (is_terminal (State r)) eqn:Hterm.
  - unfold ret. intros [= <- <-]. by rewrite Hterm.
  - unfold bind at 1, time_sleep at 1. destruct (delay <? 0)%Z; [discriminate|].
    intros Hrun. by apply IH in Hrun.
Qed.

Lemma is_terminal_cases state :
  is_terminal state = true ->
  state = u "SUCCEEDED" \/ state = u "FAILED" \/ state = u "CANCELLED".
Proof.
  unfold is_terminal, str_eqb. intros H.
  apply orb_prop in H as [H|H]; [apply orb_prop in H as [H|H]|];
    apply bool_decide_eq_true in H; auto.
Qed.

Lemma running_pending state : running state = true -> pending state = true.
Proof.
  unfold running, str_eqb. intros H. apply bool_decide_eq_true in H. by subst.
Qed.

(** C5. [wait_for_query] returns at the first terminal state it
    observes: when the first [k] fetches answer with non-terminal states
    and fetch [k+1], within the budget, answers with SUCCEEDED, FAILED or
    CANCELLED, it returns that state after exactly [k+1] fetches and [k]
    sleeps.  For the sequence RUNNING, RUNNING, SUCCEEDED that is 3
    fetches and the result SUCCEEDED. *)
Theorem wait_for_query_returns_at_first_terminal id max_tries delay w k final :
  (0 <= delay)%Z ->
  k < Z.to_nat max_tries ->
  (forall i, i < k -> fetch_answers id w i pending) ->
  get_query_execution (fetches w + k) id = Ok final ->
  is_terminal (State final) = true ->
  exists w',
    wait_for_query id max_tries delay w = (Ok (State final), w')
    /\ fetches w' = fetches w + k + 1
    /\ slept w' = slept w ++ repeat delay k.
Proof.
  intros Hdelay Hk Hpending Hfinal Hterm.
  destruct (poll_first_terminal id delay k (Z.to_nat max_tries) 0%Z w final)
    as (w' & Hrun & Hf & Hs & _); try done.
  exists w'. split; [exact Hrun|]. split; [lia|done].
Qed.

Lemma lambda_handler_start event context w id :
  start_query_execution STATE_COUNTS_QUERY ATHENA_DB ATHENA_OUTPUT_LOCATION = Ok id ->
  lambda_handler event context w =
  match wait_for_query id 20 3 (after_start event id w) with
  | (Ok state, w1) =>
      if negb (str_eqb state (u "SUCCEEDED")) then
        (Raise (RuntimeError (u "Athena query failed with state: " ++ state)),
         logged ERROR (QueryDidNotSucceed state) w1)
      else
        bind (copy_results_to_final_location get_query_execution copy_object utcnow urlparse id)
          (fun final_s3_path =>
             bind (logger_info (StateCountsWritten final_s3_path))
               (fun _ => ret (success_payload final_s3_path))) w1
  | (Raise e, w1) => (Raise e, w1)
  end.
Proof.
  intros Hstart.
  unfold lambda_handler, Stage3Lambda.lambda_handler.
  unfold bind at 1, logger_info at 1. unfold bind at 1.
  unfold start_athena_query, bind at 1, logger_info at 1.
  unfold bind at 1, athena_start_query_execution at 1. rewrite Hstart.
  unfold bind at 1, logger_info at 1. unfold bind at 1, ret at 1.
  unfold logged, after_start. cbn [started fetches slept utc_reads copies log].
  rewrite <- !app_assoc. cbn [app]. unfold bind at 1.
  destruct (wait_for_query id 20 3 _) as [[state|e] w1]; [|done].
  destruct (negb (str_eqb state (u "SUCCEEDED"))); [|done].
  by unfold bind, logger_error, raise.
Qed.

(** C6. With a budget of [max_tries] attempts and every fetch answering
    RUNNING, [wait_for_query] raises [TimeoutError] after exactly
    [max_tries] fetches, having slept after each of them.  The error is
    of another class than the [RuntimeError] the handler raises for a
    query that failed, and the handler lets it through unchanged. *)
Theorem wait_for_query_times_out_after_budget id max_tries delay w :
  (0 <= delay)%Z ->
  (0 <= max_tries)%Z ->
  (forall i, i < Z.to_nat max_tries -> fetch_answers id w i running) ->
  exists w',
    wait_for_query id max_tries delay w =
      (Raise (TimeoutError (u "Athena query timed out")), w')
    /\ Z.of_nat (fetches w') = (Z.of_nat (fetches w) + max_tries)%Z
    /\ slept w' = slept w ++ repeat delay (Z.to_nat max_tries)
    /\ (forall state,
          exn_class (TimeoutError (u "Athena query timed out")) <>
          exn_class (RuntimeError (u "Athena query failed with state: " ++ state)))
    /\ (forall event context w0,
          start_query_execution STATE_COUNTS_QUERY ATHENA_DB ATHENA_OUTPUT_LOCATION = Ok id ->
          (forall i, i < 20 -> fetch_answers id (after_start event id w0) i running) ->
          exists w1,
            lambda_handler event context w0 =
              (Raise (TimeoutError (u "Athena query timed out")), w1)
            /\ fetches w1 = fetches w0 + 20
            /\ copies w1 = copies w0).
Proof.
  intros Hdelay Htries Hrunning.
  destruct (poll_exhausts id delay (Z.to_nat max_tries) 0%Z w)
    as (w' & Hrun & Hf & Hs & _); [done|..].
  { intros i Hi. destruct (Hrunning i Hi) as (r & Hr & Hp).
    exists r. split; [done|]. by apply running_pending. }
  exists w'. split; [exact Hrun|]. split; [lia|]. split; [done|]. split; [done|].
  intros event context w0 Hstart Hrunning0.
  rewrite (lambda_handler_start _ _ _ id) by done.
  destruct (poll_exhausts id 3 20 0%Z (after_start event id w0))
    as (w1 & Hrun1 & Hf1 & _ & _ & _ & Hc1); [done|..].
  { intros i Hi. destruct (Hrunning0 i Hi) as (r & Hr & Hp).
    exists r. split; [done|]. by apply running_pending. }
  exists w1. unfold wait_for_query, Stage3Lambda.wait_for_query.
  change (Z.to_nat 20) with 20. rewrite Hrun1. by rewrite Hf1, Hc1.
Qed.

(** C7. When polling ends in a terminal state other than SUCCEEDED,
    which is then FAILED or CANCELLED, [lambda_handler] raises a
    [RuntimeError] whose message ends in that state; it reads no
    timestamp, copies nothing and returns no payload. *)
Theorem lambda_handler_raises_on_failed_query event context w id state w1 :
  start_query_execution STATE_COUNTS_QUERY ATHENA_DB ATHENA_OUTPUT_LOCATION = Ok id ->
  wait_for_query id 20 3 (after_start event id w) = (Ok state, w1) ->
  state <> u "SUCCEEDED" ->
  exists w',
    lambda_handler event context w =
      (Raise (RuntimeError (u "Athena query failed with state: " ++ state)), w')
    /\ (state = u "FAILED" \/ state = u "CANCELLED")
    /\ copies w' = copies w
    /\ utc_reads w' = utc_reads w
    /\ log w' = log w1 ++ [(ERROR, QueryDidNotSucceed state)].
Proof.
  intros Hstart Hwait Hstate.
  rewrite (lambda_handler_start _ _ _ id), Hwait by done.
  apply poll_returns_terminal in Hwait as (Hterm & _ & Hu & Hc).
  unfold str_eqb. rewrite bool_decide_eq_false_2 by done. simpl.
  eexists. split; [done|]. simpl.
  split; [|by rewrite Hu, Hc].
  apply is_terminal_cases in Hterm as [?|?]; done.
Qed.

Lemma digit_inj a b : digit a = digit b -> (a mod 10 = b mod 10)%Z.
Proof.
  unfold digit. intros H. apply Z2N.inj in H; [lia| |];
    pose proof (Z.mod_pos_bound a 10); pose proof (Z.mod_pos_bound b 10); lia.
Qed.

Lemma pad2_inj a b :
  (0 <= a < 100)%Z -> (0 <= b < 100)%Z -> pad2 a = pad2 b -> a = b.
Proof.
  unfold pad2. intros Ha Hb [= H1 H0].
  apply digit_inj in H1, H0. Z.div_mod_to_equations. lia.
Qed.

Lemma pad4_inj a b :
  (0 <= a < 10000)%Z -> (0 <= b < 10000)%Z -> pad4 a = pad4 b -> a = b.
Proof.
  unfold pad4. intros Ha Hb [= H3 H2 H1 H0].
  apply digit_inj in H3, H2, H1, H0. Z.div_mod_to_equations. lia.
Qed.

Lemma strftime_compact_inj a b :
  stamp_in_range a -> stamp_in_range b ->
  strftime_compact a = strftime_compact b ->
  dt_date a = dt_date b /\ hour a = hour b /\ minute a = minute b /\ second a = second b.
Proof.
  destruct a as [[ya ma da] ha mia sa ua], b as [[yb mb db] hb mib sb ub].
  unfold stamp_in_range, strftime_compact. cbn [dt_date year month day hour minute second].
  intros Ha Hb H.
  change (u "T") with [84%N] in H. cbn [app pad2 pad4] in H.
  injection H as Hy3 Hy2 Hy1 Hy0 Hm1 Hm0 Hd1 Hd0 Hh1 Hh0 Hi1 Hi0 Hs1 Hs0.
  assert (ya = yb) as -> by (apply pad4_inj; [lia|lia|unfold pad4; congruence]).
  assert (ma = mb) as -> by (apply pad2_inj; [lia|lia|unfold pad2; congruence]).
  assert (da = db) as -> by (apply pad2_inj; [lia|lia|unfold pad2; congruence]).
  assert (ha = hb) as -> by (apply pad2_inj; [lia|lia|unfold pad2; congruence]).
  assert (mia = mib) as -> by (apply pad2_inj; [lia|lia|unfold pad2; congruence]).
  assert (sa = sb) as -> by (apply pad2_inj; [lia|lia|unfold pad2; congruence]).
  done.
Qed.

(** C8. When the query SUCCEEDED, the source location resolves and S3
    accepts the copy, [lambda_handler] makes one copy, to the key
    [transformed/state_counts_<stamp>.csv] in the results bucket, where
    the stamp is the UTC clock reading printed as [%Y%m%dT%H%M%SZ]: 16
    characters that do not depend on the microseconds and differ for
    readings differing in any field down to the second.  It returns the
    dict with [statusCode] 200 and as [body] the JSON text of the object
    with [message] and [result_path], the latter being
    [s3://healthcare-facility/] followed by that key. *)
Theorem lambda_handler_archives_on_success
    event context w id w1 execution location parsed :
  start_query_execution STATE_COUNTS_QUERY ATHENA_DB ATHENA_OUTPUT_LOCATION = Ok id ->
  wait_for_query id 20 3 (after_start event id w) = (Ok (u "SUCCEEDED"), w1) ->
  get_query_execution (fetches w1) id = Ok execution ->
  OutputLocation execution = Some location ->
  urlparse location = Ok parsed ->
  let stamp := utcnow (utc_reads w1) in
  let request :=
    CopyRequest FINAL_RESULTS_BUCKET (archive_key stamp)
      (netloc parsed, lstrip_slash (path parsed)) in
  copy_object request = Ok tt ->
  let result_path := u "s3://healthcare-facility/" ++ archive_key stamp in
  exists w',
    lambda_handler event context w = (Ok (success_payload result_path), w')
    /\ copies w' = copies w ++ [request]
    /\ archive_key stamp =
        u "transformed/state_counts_" ++ strftime_compact stamp ++ u ".csv"
    /\ length (strftime_compact stamp) = 16
    /\ (forall us,
          strftime_compact
            (DateTime (dt_date stamp) (hour stamp) (minute stamp) (second stamp) us) =
          strftime_compact stamp)
    /\ (forall other,
          stamp_in_range stamp -> stamp_in_range other ->
          strftime_compact other = strftime_compact stamp ->
          dt_date other = dt_date stamp /\ hour other = hour stamp
          /\ minute other = minute stamp /\ second other = second stamp)
    /\ py_get (success_payload result_path) (u "statusCode") PNone = Ok (PInt 200)
    /\ py_get (success_payload result_path) (u "body") PNone =
        Ok (PStr (json_dumps
                    (PDict [(u "message", PStr (u "Athena state counts query completed"));
                            (u "result_path", PStr result_path)]))).
Proof.
  intros Hstart Hwait Hget Hloc Hurl stamp request Hcopy result_path.
  rewrite (lambda_handler_start _ _ _ id), Hwait by done.
  apply poll_returns_terminal in Hwait as (_ & _ & _ & Hc).
  change (negb (str_eqb (u "SUCCEEDED") (u "SUCCEEDED"))) with false. cbv iota.
  unfold copy_results_to_final_location.
  unfold bind at 1. unfold bind at 1, athena_get_query_execution at 1. rewrite Hget.
  unfold bind at 1, lift at 1. rewrite Hloc.
  unfold bind at 1, lift at 1. rewrite Hurl.
  unfold bind at 1, datetime_utcnow at 1. cbn [utc_reads]. fold stamp.
  unfold bind at 1, logger_info at 1.
  unfold bind at 1, s3_copy_object at 1. fold (archive_key stamp). fold request.
  rewrite Hcopy. unfold ret at 1. unfold bind, logger_info, ret, logged.
  cbn [started fetches slept utc_reads copies log].
  eexists. split; [reflexivity|]. cbn [copies]. rewrite Hc.
  split; [done|]. split; [done|]. split; [done|]. split; [done|].
  split; [intros other Hs Ho Heq; by apply strftime_compact_inj|].
  split; reflexivity.
Qed.

(** ** The polling loop under any behaviour of the service *)

Lemma poll_bounded id delay remaining : forall attempt w r w',
  poll id delay remaining attempt w = (r, w') ->
  exists n m,
    m <= n /\ n <= remaining
    /\ fetches w' = fetches w + n
    /\ slept w' = slept w ++ repeat delay m
    /\ started w' = started w /\ utc_reads w' = utc_reads w /\ copies w' = copies w.
Proof.
  induction remaining as [|remaining IH]; intros attempt w r w';
    cbn [Stage3Lambda.poll].
  - intros [= <- <-]. exists 0, 0. cbn [repeat]. rewrite app_nil_r. repeat split; lia.
  - unfold bind at 1, athena_get_query_execution at 1.
    destruct (get_query_execution (fetches w) id) as [response|e].
    2:{ intros [= <- <-]. exists 1, 0.
        cbn [fetches slept started utc_reads copies repeat].
        rewrite app_nil_r. repeat split; lia. }
    unfold bind at 1, logger_info at 1, logged.
    destruct (is_terminal (State response)).
    { intros [= <- <-]. exists 1, 0.
      cbn [fetches slept started utc_reads copies repeat].
      rewrite app_nil_r. repeat split; lia. }
    unfold bind at 1, time_sleep at 1.
    cbn [started fetches slept utc_reads copies log].
    destruct (delay <? 0)%Z.
    { intros [= <- <-]. exists 1, 0.
      cbn [fetches slept started utc_reads copies repeat].
      rewrite app_nil_r. repeat split; lia. }
    intros Hrun. apply IH in Hrun as (n & m & Hmn & Hn & Hf & Hs & Hst & Hu & Hc).
    exists (S n), (S m). rewrite Hf, Hs, Hst, Hu, Hc.
    cbn [fetches slept started utc_reads copies repeat].
    rewrite <- app_assoc. repeat split; lia.
Qed.

(** X15. Whatever the service answers, [wait_for_query] makes at most
    [max_tries] state fetches and sleeps at most once per fetch, each
    time for [delay]; it starts no query, reads no clock and copies
    nothing. *)
Theorem wait_for_query_stays_within_budget id max_tries delay w :
  exists n m,
    m <= n /\ n <= Z.to_nat max_tries
    /\ fetches (snd (wait_for_query id max_tries delay w)) = fetches w + n
    /\ slept (snd (wait_for_query id max_tries delay w)) = slept w ++ repeat delay m
    /\ started (snd (wait_for_query id max_tries delay w)) = started w
    /\ utc_reads (snd (wait_for_query id max_tries delay w)) = utc_reads w
    /\ copies (snd (wait_for_query id max_tries delay w)) = copies w.
Proof.
  unfold wait_for_query, Stage3Lambda.wait_for_query.
  destruct (poll id delay (Z.to_nat max_tries) 0%Z w) as [r w'] eqn:Hrun.
  by apply poll_bounded in Hrun.
Qed.

(** X16. With a budget of zero or less the loop body never runs:
    [wait_for_query] raises [TimeoutError] at once, without a single
    state fetch. *)
Theorem wait_for_query_without_budget id max_tries delay w :
  (max_tries <= 0)%Z ->
  wait_for_query id max_tries delay w =
  (Raise (TimeoutError (u "Athena query timed out")), w).
Proof.
  intros H. unfold wait_for_query, Stage3Lambda.wait_for_query.
  by replace (Z.to_nat max_tries) with 0 by lia.
Qed.

Lemma poll_fetch_fails id delay k : forall remaining attempt w e,
  (0 <= delay)%Z ->
  k < remaining ->
  (forall i, i < k -> fetch_answers id w i pending) ->
  get_query_execution (fetches w + k) id = Raise e ->
  exists w',
    poll id delay remaining attempt w = (Raise e, w')
    /\ fetches w' = fetches w + S k
    /\ slept w' = slept w ++ repeat delay k
    /\ started w' = started w /\ utc_reads w' = utc_reads w /\ copies w' = copies w.
Proof.
  induction k as [|k IH]; intros remaining attempt w e Hdelay Hk Hpending Hfail;
    (destruct remaining as [|remaining]; [lia|]);
    cbn [Stage3Lambda.poll]; unfold bind at 1, athena_get_query_execution at 1.
  - rewrite Nat.add_0_r in Hfail. rewrite Hfail.
    eexists. split; [done|]. simpl. rewrite app_nil_r. repeat split; lia.
  - destruct (Hpending 0) as (r & Hr & Hp); [lia|].
    rewrite Nat.add_0_r in Hr. rewrite Hr.
    unfold pending in Hp. apply negb_true_iff in Hp.
    unfold bind at 1, logger_info at 1. rewrite Hp.
    unfold bind at 1, time_sleep at 1.
    destruct (Z.ltb_spec delay 0) as [?|_]; [lia|].
    match goal with
    | |- context [Stage3Lambda.poll _ _ _ _ _ ?w1] =>
        destruct (IH remaining (attempt + 1)%Z w1 e)
          as (w' & Hrun & Hf & Hs & Hst & Hu & Hc);
          [exact Hdelay|lia| |rewrite <- Hfail; simpl; f_equal; lia|]
    end.
    { intros i Hi. eapply fetch_answers_shift; [|apply (Hpending (S i)); lia]. done. }
    exists w'. split; [exact Hrun|]. rewrite Hf, Hs, Hst, Hu, Hc. simpl.
    rewrite <- app_assoc. repeat split; lia.
Qed.

(** X17. An error of [get_query_execution] during polling is not
    retried: after [k] non-terminal answers, the error of fetch [k+1]
    leaves [wait_for_query] as it is, and [lambda_handler] passes it on
    without copying anything. *)
Theorem fetch_error_ends_polling id max_tries delay w k e :
  (0 <= delay)%Z ->
  k < Z.to_nat max_tries ->
  (forall i, i < k -> fetch_answers id w i pending) ->
  get_query_execution (fetches w + k) id = Raise e ->
  (exists w',
     wait_for_query id max_tries delay w = (Raise e, w')
     /\ fetches w' = fetches w + k + 1)
  /\ (forall event context w0,
        start_query_execution STATE_COUNTS_QUERY ATHENA_DB ATHENA_OUTPUT_LOCATION = Ok id ->
        after_start event id w0 = w ->
        max_tries = 20%Z -> delay = 3%Z ->
        exists w1,
          lambda_handler event context w0 = (Raise e, w1) /\ copies w1 = copies w0).
Proof.
  intros Hdelay Hk Hpending Hfail.
  destruct (poll_fetch_fails id delay k (Z.to_nat max_tries) 0%Z w e)
    as (w' & Hrun & Hf & _ & _ & _ & Hc); try done.
  split.
  - exists w'. split; [exact Hrun|lia].
  - intros event context w0 Hstart <- -> ->.
    rewrite (lambda_handler_start _ _ _ id) by done.
    unfold wait_for_query, Stage3Lambda.wait_for_query. rewrite Hrun.
    exists w'. split; [done|]. by rewrite Hc.
Qed.

(** X18. A negative [delay] is found out only when the loop first has to
    wait: with a terminal first answer [wait_for_query] returns it, with
    a non-terminal first answer it raises the [ValueError] of
    [time.sleep] after that one fetch. *)
Theorem negative_delay id max_tries delay w response :
  (delay < 0)%Z ->
  (0 < max_tries)%Z ->
  get_query_execution (fetches w) id = Ok response ->
  exists w',
    wait_for_query id max_tries delay w =
      (if is_terminal (State response) then Ok (State response) else Raise ValueError, w')
    /\ fetches w' = fetches w + 1
    /\ slept w' = slept w.
Proof.
  intros Hdelay Htries Hget.
  unfold wait_for_query, Stage3Lambda.wait_for_query.
  destruct (Z.to_nat max_tries) as [|remaining] eqn:Hn; [lia|].
  cbn [Stage3Lambda.poll]. unfold bind at 1, athena_get_query_execution at 1.
  rewrite Hget. unfold bind at 1, logger_info at 1.
  destruct (is_terminal (State response)).
  - eexists. split; [done|]. cbn [fetches slept logged]. split; [lia|done].
  - unfold bind at 1, time_sleep at 1.
    destruct (Z.ltb_spec delay 0) as [_|?]; [|lia].
    eexists. split; [done|]. cbn [fetches slept logged]. split; [lia|done].
Qed.

(** ** The handler under any behaviour of the services *)

Abbreviation copy_results_to_final_location :=
  (copy_results_to_final_location get_query_execution copy_object utcnow urlparse).

(** The archiving step and the return, case by case. *)
Lemma archive_run id w1 :
  bind (copy_results_to_final_location id)
    (fun final_s3_path =>
       bind (logger_info (StateCountsWritten final_s3_path))
         (fun _ => ret (success_payload final_s3_path))) w1 =
  let fetched :=
    World (started w1) (S (fetches w1)) (slept w1) (utc_reads w1) (copies w1) (log w1) in
  match get_query_execution (fetches w1) id with
  | Raise e => (Raise e, fetched)
  | Ok execution =>
      match OutputLocation execution with
      | None => (Raise KeyError, fetched)
      | Some location =>
          match urlparse location with
          | Raise e => (Raise e, fetched)
          | Ok parsed =>
              let stamp := utcnow (utc_reads w1) in
              let copying :=
                (INFO, Copying (netloc parsed) (lstrip_slash (path parsed))
                         FINAL_RESULTS_BUCKET (archive_key stamp)) in
              match copy_object (archive_request parsed stamp) with
              | Raise e =>
                  (Raise e,
                   World (started w1) (S (fetches w1)) (slept w1) (S (utc_reads w1))
                     (copies w1) (log w1 ++ [copying]))
              | Ok _ =>
                  (Ok (success_payload (archive_path stamp)),
                   World (started w1) (S (fetches w1)) (slept w1) (S (utc_reads w1))
                     (copies w1 ++ [archive_request parsed stamp])
                     (log w1 ++ [copying; (INFO, StateCountsWritten (archive_path stamp))]))
              end
          end
      end
  end.
Proof.
  unfold copy_results_to_final_location, Stage3Lambda.copy_results_to_final_location.
  unfold bind at 1. unfold bind at 1, athena_get_query_execution at 1. cbv zeta.
  destruct (get_query_execution (fetches w1) id) as [execution|e]; [|done].
  unfold bind at 1, lift at 1.
  destruct (OutputLocation execution) as [location|]; [|done].
  unfold bind at 1, lift at 1.
  destruct (urlparse location) as [parsed|e]; [|done].
  unfold bind at 1, datetime_utcnow at 1. cbn [utc_reads].
  unfold bind at 1, logger_info at 1.
  unfold bind at 1, s3_copy_object at 1.
  fold (archive_key (utcnow (utc_reads w1))).
  fold (archive_request parsed (utcnow (utc_reads w1))).
  destruct (copy_object _) as [[]|e]; [|done].
  unfold ret at 1, bind, logger_info, ret, logged.
  cbn [started fetches slept utc_reads copies log].
  fold (archive_path (utcnow (utc_reads w1))). by rewrite <- app_assoc.
Qed.

Lemma lambda_handler_start_fails event context w e :
  start_query_execution STATE_COUNTS_QUERY ATHENA_DB ATHENA_OUTPUT_LOCATION = Raise e ->
  lambda_handler event context w =
  (Raise e,
   World (started w) (fetches w) (slept w) (utc_reads w) (copies w)
     (log w ++ [(INFO, ReceivedEvent (json_dumps event));
                (INFO, UsingOutputLocation ATHENA_OUTPUT_LOCATION)])).
Proof.
  intros Hstart.
  unfold lambda_handler, Stage3Lambda.lambda_handler.
  unfold bind at 1, logger_info at 1. unfold bind at 1.
  unfold start_athena_query, bind at 1, logger_info at 1.
  unfold bind at 1, athena_start_query_execution at 1. rewrite Hstart.
  unfold logged. cbn [started fetches slept utc_reads copies log].
  by rewrite <- app_assoc.
Qed.

(** X19. When Athena refuses the query, [lambda_handler] passes the
    error on after its two opening log lines: no state is fetched,
    nothing is slept, no clock is read and nothing is copied. *)
Theorem start_failure_propagates event context w e :
  start_query_execution STATE_COUNTS_QUERY ATHENA_DB ATHENA_OUTPUT_LOCATION = Raise e ->
  exists w',
    lambda_handler event context w = (Raise e, w')
    /\ observable w' = observable w
    /\ log w' = log w ++ [(INFO, ReceivedEvent (json_dumps event));
                          (INFO, UsingOutputLocation ATHENA_OUTPUT_LOCATION)].
Proof.
  intros Hstart. rewrite (lambda_handler_start_fails _ _ _ e) by done.
  eexists. split; [done|]. split; [done|done].
Qed.

Lemma lambda_handler_succeeded event context w id w1 :
  start_query_execution STATE_COUNTS_QUERY ATHENA_DB ATHENA_OUTPUT_LOCATION = Ok id ->
  wait_for_query id 20 3 (after_start event id w) = (Ok (u "SUCCEEDED"), w1) ->
  lambda_handler event context w =
  bind (copy_results_to_final_location id)
    (fun final_s3_path =>
       bind (logger_info (StateCountsWritten final_s3_path))
         (fun _ => ret (success_payload final_s3_path))) w1.
Proof.
  intros Hstart Hwait. by rewrite (lambda_handler_start _ _ _ id), Hwait by done.
Qed.

(** X20. When the query SUCCEEDED and S3 rejects the copy,
    [lambda_handler] raises the error of S3: it has read the clock and
    logged the copy it attempted, but no copy is made, the success line
    is not logged and no payload is returned. *)
Theorem copy_failure_propagates event context w id w1 execution location parsed e :
  start_query_execution STATE_COUNTS_QUERY ATHENA_DB ATHENA_OUTPUT_LOCATION = Ok id ->
  wait_for_query id 20 3 (after_start event id w) = (Ok (u "SUCCEEDED"), w1) ->
  get_query_execution (fetches w1) id = Ok execution ->
  OutputLocation execution = Some location ->
  urlparse location = Ok parsed ->
  copy_object (archive_request parsed (utcnow (utc_reads w1))) = Raise e ->
  exists w',
    lambda_handler event context w = (Raise e, w')
    /\ copies w' = copies w
    /\ utc_reads w' = S (utc_reads w)
    /\ log w' =
        log w1 ++ [(INFO, Copying (netloc parsed) (lstrip_slash (path parsed))
                            FINAL_RESULTS_BUCKET (archive_key (utcnow (utc_reads w1))))].
Proof.
  intros Hstart Hwait Hget Hloc Hurl Hcopy.
  rewrite (lambda_handler_succeeded _ _ _ id w1) by done.
  rewrite archive_run, Hget, Hloc, Hurl. cbv zeta. rewrite Hcopy.
  apply poll_returns_terminal in Hwait as (_ & _ & Hu & Hc).
  eexists. split; [done|]. cbn [copies utc_reads log].
  by rewrite Hu, Hc.
Qed.

(** X21. When the query SUCCEEDED but the location of its output cannot
    be resolved, because the second [get_query_execution] fails, because
    it reports no output location ([KeyError]), or because the location
    does not parse, [lambda_handler] raises that error before it reads
    the clock or attempts a copy. *)
Theorem unresolved_source_propagates event context w id w1 e :
  start_query_execution STATE_COUNTS_QUERY ATHENA_DB ATHENA_OUTPUT_LOCATION = Ok id ->
  wait_for_query id 20 3 (after_start event id w) = (Ok (u "SUCCEEDED"), w1) ->
  (get_query_execution (fetches w1) id = Raise e
   \/ (exists execution,
         get_query_execution (fetches w1) id = Ok execution
         /\ ((OutputLocation execution = None /\ e = KeyError)
             \/ exists location,
                  OutputLocation execution = Some location
                  /\ urlparse location = Raise e))) ->
  exists w',
    lambda_handler event context w = (Raise e, w')
    /\ copies w' = copies w
    /\ utc_reads w' = utc_reads w
    /\ log w' = log w1.
Proof.
  intros Hstart Hwait Hcase.
  rewrite (lambda_handler_succeeded _ _ _ id w1) by done.
  rewrite archive_run. cbv zeta.
  apply poll_returns_terminal in Hwait as (_ & _ & Hu & Hc).
  destruct Hcase as [Hget|(execution & Hget & [[Hloc ->]|(location & Hloc & Hurl)])];
    rewrite Hget, ?Hloc, ?Hurl;
    (eexists; split; [done|]; cbn [copies utc_reads log]; by rewrite Hu, Hc).
Qed.

Lemma poll_returns_last id delay remaining : forall attempt w state w',
  poll id delay remaining attempt w = (Ok state, w') ->
  exists n response,
    fetches w <= n < fetches w'
    /\ get_query_execution n id = Ok response
    /\ State response = state.
Proof.
  induction remaining as [|remaining IH]; intros attempt w state w';
    cbn [Stage3Lambda.poll]; [discriminate|].
  unfold bind at 1, athena_get_query_execution at 1.
  destruct (get_query_execution (fetches w) id) as [r|e] eqn:Hget; [|discriminate].
  unfold bind at 1, logger_info at 1.
  destruct (is_terminal (State r)) eqn:Hterm.
  - unfold ret. intros [= <- <-]. exists (fetches w), r.
    cbn [fetches logged]. split; [lia|done].
  - unfold bind at 1, time_sleep at 1. destruct (delay <? 0)%Z; [discriminate|].
    intros Hrun. apply IH in Hrun as (n & response & Hn & Hr & Hs).
    cbn [fetches logged] in Hn. exists n, response. split; [lia|done].
Qed.

(** X22. [lambda_handler] returns a payload only after a success: if it
    returns, the query was started, some state fetch of this invocation
    answered SUCCEEDED, S3 accepted one copy into the results bucket, and
    the payload is the one for the path of that copy. *)
Theorem payload_only_after_success event context w payload w' :
  lambda_handler event context w = (Ok payload, w') ->
  exists id n response parsed stamp,
    start_query_execution STATE_COUNTS_QUERY ATHENA_DB ATHENA_OUTPUT_LOCATION = Ok id
    /\ fetches w <= n < fetches w'
    /\ get_query_execution n id = Ok response
    /\ State response = u "SUCCEEDED"
    /\ copy_object (archive_request parsed stamp) = Ok tt
    /\ copies w' = copies w ++ [archive_request parsed stamp]
    /\ payload = success_payload (archive_path stamp).
Proof.
  destruct (start_query_execution STATE_COUNTS_QUERY ATHENA_DB ATHENA_OUTPUT_LOCATION)
    as [id|e] eqn:Hstart.
  2:{ by rewrite (lambda_handler_start_fails _ _ _ e). }
  rewrite (lambda_handler_start _ _ _ id) by done.
  destruct (wait_for_query id 20 3 (after_start event id w)) as [[state|e] w1] eqn:Hwait;
    [|discriminate].
  unfold str_eqb. destruct (decide (state = u "SUCCEEDED")) as [->|Hne].
  2:{ by rewrite bool_decide_eq_false_2. }
  rewrite bool_decide_eq_true_2 by done. cbn [negb].
  rewrite archive_run. cbv zeta.
  pose proof (poll_returns_last _ _ _ _ _ _ _ Hwait) as (n & response & Hn & Hr & Hs).
  apply poll_returns_terminal in Hwait as (_ & _ & _ & Hc).
  cbn [fetches after_start] in Hn.
  destruct (get_query_execution (fetches w1) id) as [execution|e]; [|discriminate].
  destruct (OutputLocation execution) as [location|]; [|discriminate].
  destruct (urlparse location) as [parsed|e]; [|discriminate].
  destruct (copy_object (archive_request parsed (utcnow (utc_reads w1)))) as [[]|e] eqn:Hcopy;
    [|discriminate].
  intros [= <- <-].
  exists id, n, response, parsed, (utcnow (utc_reads w1)).
  cbn [fetches copies]. rewrite Hc. cbn [copies after_start].
  repeat split; try done; lia.
Qed.

(** X23. Whatever the services do, one invocation starts at most one
    query, makes at most 21 calls of [get_query_execution], sleeps at
    most 20 times and each time for 3 seconds, reads the UTC clock at
    most once, and makes at most one copy, which goes to the results
    bucket under the key built from the clock reading, from a source key
    without a leading slash. *)
Theorem lambda_handler_footprint event context w :
  let w' := snd (lambda_handler event context w) in
  (started w' = started w
   \/ started w' = started w ++ [(STATE_COUNTS_QUERY, ATHENA_DB, ATHENA_OUTPUT_LOCATION)])
  /\ fetches w <= fetches w' <= fetches w + 21
  /\ (exists m, m <= 20 /\ slept w' = slept w ++ repeat 3%Z m)
  /\ utc_reads w <= utc_reads w' <= utc_reads w + 1
  /\ (copies w' = copies w
      \/ exists parsed stamp,
           copies w' = copies w ++ [archive_request parsed stamp]
           /\ Bucket (archive_request parsed stamp) = FINAL_RESULTS_BUCKET
           /\ Key (archive_request parsed stamp) = archive_key stamp
           /\ forall rest, snd (CopySource (archive_request parsed stamp)) <> 47%N :: rest).
Proof.
  cbv zeta.
  destruct (start_query_execution STATE_COUNTS_QUERY ATHENA_DB ATHENA_OUTPUT_LOCATION)
    as [id|e] eqn:Hstart.
  2:{ rewrite (lambda_handler_start_fails _ _ _ e) by done.
      cbn [snd started fetches slept utc_reads copies].
      split; [by left|]. split; [lia|]. split; [exists 0; split; [lia|cbn [repeat]; by rewrite app_nil_r]|].
      split; [lia|by left]. }
  rewrite (lambda_handler_start _ _ _ id) by done.
  destruct (wait_for_query id 20 3 (after_start event id w)) as [r w1] eqn:Hwait.
  apply poll_bounded in Hwait as (n & m & Hmn & Hn & Hf & Hs & Hst & Hu & Hc).
  change (Z.to_nat 20) with 20 in Hn.
  cbn [after_start started fetches slept utc_reads copies] in Hf, Hs, Hst, Hu, Hc.
  assert (Hbase :
    (started w1 = started w
     \/ started w1 = started w ++ [(STATE_COUNTS_QUERY, ATHENA_DB, ATHENA_OUTPUT_LOCATION)])
    /\ fetches w <= fetches w1 <= fetches w + 21
    /\ (exists m, m <= 20 /\ slept w1 = slept w ++ repeat 3%Z m)
    /\ utc_reads w <= utc_reads w1 <= utc_reads w + 1).
  { split; [by right|]. split; [lia|]. split; [exists m; split; [lia|done]|lia]. }
  destruct r as [state|e];
    [|destruct Hbase as (? & ? & ? & ?); cbn [snd];
      repeat (split; [done|]); by left].
  destruct (negb (str_eqb state (u "SUCCEEDED"))).
  { destruct Hbase as (? & ? & ? & ?).
    cbn [snd logged started fetches slept utc_reads copies].
    repeat (split; [done|]). by left. }
  rewrite archive_run. cbv zeta.
  assert (Hslash : forall s rest, lstrip_slash s <> 47%N :: rest).
  { intros s0 rest. unfold lstrip_slash. induction s0 as [|ch s0 IH]; [done|].
    cbn [lstrip_set]. destruct (N.eqb_spec 47 ch) as [Heq|Hne]; [exact IH|].
    intros [= Hch _]. by apply Hne. }
  destruct (get_query_execution (fetches w1) id) as [execution|e];
    [|cbn [snd started fetches slept utc_reads copies]; rewrite Hst, Hs, Hu, Hc;
      split; [by right|]; split; [lia|]; split; [exists m; split; [lia|done]|];
      split; [lia|by left]].
  destruct (OutputLocation execution) as [location|];
    [|cbn [snd started fetches slept utc_reads copies]; rewrite Hst, Hs, Hu, Hc;
      split; [by right|]; split; [lia|]; split; [exists m; split; [lia|done]|];
      split; [lia|by left]].
  destruct (urlparse location) as [parsed|e];
    [|cbn [snd started fetches slept utc_reads copies]; rewrite Hst, Hs, Hu, Hc;
      split; [by right|]; split; [lia|]; split; [exists m; split; [lia|done]|];
      split; [lia|by left]].
  destruct (copy_object _) as [[]|e];
    cbn [snd started fetches slept utc_reads copies]; rewrite Hst, Hs, Hu, Hc;
    (split; [by right|]; split; [lia|]; split; [exists m; split; [lia|done]|];
     split; [lia|]).
  - right. exists parsed, (utcnow (utc_reads w)).
    split; [done|]. split; [done|]. split; [done|]. apply Hslash.
  - by left.
Qed.

(** ** What the handler does not look at *)

Lemma log_blind_bind {A B} (m1 m2 : M world A) (k1 k2 : A -> M world B) :
  log_blind m1 m2 -> (forall a, log_blind (k1 a) (k2 a)) ->
  log_blind (bind m1 k1) (bind m2 k2).
Proof.
  intros Hm Hk w1 w2 Hobs. destruct (Hm w1 w2 Hobs) as [Hr Ho]. unfold bind.
  destruct (m1 w1) as [[a|e] w1'], (m2 w2) as [[b|e'] w2']; cbn [fst snd] in *;
    try discriminate.
  - injection Hr as <-. by apply Hk.
  - injection Hr as <-. split; [done|exact Ho].
Qed.

Lemma log_blind_logger l1 m1 l2 m2 :
  log_blind (fun w => (Ok tt, logged l1 m1 w)) (fun w => (Ok tt, logged l2 m2 w)).
Proof. intros w1 w2 Hobs. done. Qed.

Lemma log_blind_ret {A} (a : A) : log_blind (ret a) (ret a).
Proof. intros w1 w2 Hobs. done. Qed.

Lemma log_blind_raise {A} e : log_blind (@raise world A e) (raise e).
Proof. intros w1 w2 Hobs. done. Qed.

Lemma log_blind_lift {A} (r : result A) : log_blind (lift r) (lift r).
Proof. intros w1 w2 Hobs. done. Qed.

Lemma log_blind_start q d o :
  log_blind (athena_start_query_execution start_query_execution q d o)
            (athena_start_query_execution start_query_execution q d o).
Proof.
  intros w1 w2 [= H1 H2 H3 H4 H5]. unfold athena_start_query_execution, observable.
  destruct (start_query_execution q d o); cbn [fst snd started fetches slept utc_reads copies];
    by rewrite H1, H2, H3, H4, H5.
Qed.

Lemma log_blind_get id :
  log_blind (athena_get_query_execution get_query_execution id)
            (athena_get_query_execution get_query_execution id).
Proof.
  intros w1 w2 [= H1 H2 H3 H4 H5]. unfold athena_get_query_execution, observable.
  cbn [fst snd started fetches slept utc_reads copies]. by rewrite H1, H2, H3, H4, H5.
Qed.

Lemma log_blind_sleep delay : log_blind (time_sleep delay) (time_sleep delay).
Proof.
  intros w1 w2 [= H1 H2 H3 H4 H5]. unfold time_sleep, observable.
  destruct (delay <? 0)%Z; cbn [fst snd started fetches slept utc_reads copies];
    by rewrite H1, H2, H3, H4, H5.
Qed.

Lemma log_blind_utcnow : log_blind (datetime_utcnow utcnow) (datetime_utcnow utcnow).
Proof.
  intros w1 w2 [= H1 H2 H3 H4 H5]. unfold datetime_utcnow, observable.
  cbn [fst snd started fetches slept utc_reads copies]. by rewrite H1, H2, H3, H4, H5.
Qed.

Lemma log_blind_copy request :
  log_blind (s3_copy_object copy_object request) (s3_copy_object copy_object request).
Proof.
  intros w1 w2 [= H1 H2 H3 H4 H5]. unfold s3_copy_object, observable.
  destruct (copy_object request); cbn [fst snd started fetches slept utc_reads copies];
    by rewrite H1, H2, H3, H4, H5.
Qed.

Lemma log_blind_poll id delay remaining attempt :
  log_blind (poll id delay remaining attempt) (poll id delay remaining attempt).
Proof.
  revert attempt. induction remaining as [|remaining IH]; intros attempt;
    cbn [Stage3Lambda.poll].
  - apply log_blind_raise.
  - apply log_blind_bind; [apply log_blind_get|]. intros response.
    apply log_blind_bind; [apply log_blind_logger|]. intros _.
    destruct (is_terminal (State response)); [apply log_blind_ret|].
    apply log_blind_bind; [apply log_blind_sleep|]. intros _. apply IH.
Qed.

(** X24. The event and the context are logged and otherwise not looked
    at: for any two events and contexts, and worlds that differ in the
    log at most, the handler returns the same result or raises the same
    error and has the same effects on Athena, S3, the clock and the time
    slept. *)
Theorem event_is_only_logged event1 context1 event2 context2 w1 w2 :
  observable w1 = observable w2 ->
  fst (lambda_handler event1 context1 w1) = fst (lambda_handler event2 context2 w2)
  /\ observable (snd (lambda_handler event1 context1 w1))
     = observable (snd (lambda_handler event2 context2 w2)).
Proof.
  revert w1 w2. change (log_blind (lambda_handler event1 context1)
                                  (lambda_handler event2 context2)).
  unfold lambda_handler, Stage3Lambda.lambda_handler.
  apply log_blind_bind; [apply log_blind_logger|]. intros _.
  apply log_blind_bind.
  { unfold start_athena_query.
    apply log_blind_bind; [apply log_blind_logger|]. intros _.
    apply log_blind_bind; [apply log_blind_start|]. intros id.
    apply log_blind_bind; [apply log_blind_logger|]. intros _. apply log_blind_ret. }
  intros id. apply log_blind_bind; [apply log_blind_poll|]. intros state.
  destruct (negb (str_eqb state (u "SUCCEEDED"))).
  { apply log_blind_bind; [apply log_blind_logger|]. intros _. apply log_blind_raise. }
  apply log_blind_bind.
  { unfold copy_results_to_final_location, Stage3Lambda.copy_results_to_final_location.
    apply log_blind_bind; [apply log_blind_get|]. intros execution.
    apply log_blind_bind; [apply log_blind_lift|]. intros location.
    apply log_blind_bind; [apply log_blind_lift|]. intros parsed.
    apply log_blind_bind; [apply log_blind_utcnow|]. intros stamp.
    apply log_blind_bind; [apply log_blind_logger|]. intros _.
    apply log_blind_bind; [apply log_blind_copy|]. intros _. apply log_blind_ret. }
  intros final_s3_path.
  apply log_blind_bind; [apply log_blind_logger|]. intros _. apply log_blind_ret.
Qed.

(** X25. The service calls of a successful invocation, counted from the
    answers of Athena: after [k] non-terminal states and SUCCEEDED at
    fetch [k+1], the handler asks Athena once more, for the output
    location, and so makes [k+2] fetches in all; it has started one
    query, slept [k] times 3 seconds, read the clock once and made one
    copy, and returns the payload for the key built from that reading. *)
Theorem successful_invocation_accounting
    event context w id k final execution location parsed :
  start_query_execution STATE_COUNTS_QUERY ATHENA_DB ATHENA_OUTPUT_LOCATION = Ok id ->
  k < 20 ->
  (forall i, i < k -> fetch_answers id w i pending) ->
  get_query_execution (fetches w + k) id = Ok final ->
  State final = u "SUCCEEDED" ->
  get_query_execution (fetches w + k + 1) id = Ok execution ->
  OutputLocation execution = Some location ->
  urlparse location = Ok parsed ->
  copy_object (archive_request parsed (utcnow (utc_reads w))) = Ok tt ->
  exists w',
    lambda_handler event context w
      = (Ok (success_payload (archive_path (utcnow (utc_reads w)))), w')
    /\ started w' = started w ++ [(STATE_COUNTS_QUERY, ATHENA_DB, ATHENA_OUTPUT_LOCATION)]
    /\ fetches w' = fetches w + k + 2
    /\ slept w' = slept w ++ repeat 3%Z k
    /\ utc_reads w' = S (utc_reads w)
    /\ copies w' = copies w ++ [archive_request parsed (utcnow (utc_reads w))].
Proof.
  intros Hstart Hk Hpending Hfinal Hstate Hget Hloc Hurl Hcopy.
  destruct (poll_first_terminal id 3 k 20 0%Z (after_start event id w) final)
    as (w1 & Hrun & Hf & Hs & Hst & Hu & Hc); try done.
  { by rewrite Hstate. }
  rewrite Hstate in Hrun.
  cbn [after_start started fetches slept utc_reads copies] in Hf, Hs, Hst, Hu, Hc.
  rewrite (lambda_handler_succeeded _ _ _ id w1) by done.
  rewrite archive_run. cbv zeta.
  replace (fetches w1) with (fetches w + k + 1) by lia.
  rewrite Hget, Hloc, Hurl, Hu, Hcopy.
  eexists. split; [done|]. cbn [started fetches slept utc_reads copies].
  rewrite Hst, Hs, Hc. repeat split; lia.
Qed.

End Proofs.

Import Samples.

Lemma wait_for_query_returns_at_first_terminal_witness :
  exists w',
    wait_for_query (athena_script [RUNNING; RUNNING; SUCCEEDED] SUCCEEDED)
      (u "q-1") 20 3 stage3_start = (Ok SUCCEEDED, w')
    /\ fetches w' = 3
    /\ slept w' = [3; 3]%Z.
Proof.
  destruct (wait_for_query_returns_at_first_terminal
              (athena_script [RUNNING; RUNNING; SUCCEEDED] SUCCEEDED)
              (u "q-1") 20 3 stage3_start 2
              (QueryExecution SUCCEEDED
                 (Some (u "s3://healthcare-facility/athena_results/q-1.csv"))))
    as (w' & Hrun & Hfetches & Hslept).
  - lia.
  - vm_compute. lia.
  - intros i Hi. destruct i as [|[|i]]; [eexists; split; reflexivity..|lia].
  - reflexivity.
  - reflexivity.
  - exists w'. split; [exact Hrun|]. split; [exact Hfetches|exact Hslept].
Defined.

Lemma wait_for_query_times_out_after_budget_witness :
  exists w',
    wait_for_query (athena_script [] RUNNING) (u "q-1") 20 3 stage3_start
      = (Raise (TimeoutError (u "Athena query timed out")), w')
    /\ Z.of_nat (fetches w') = 20%Z.
Proof.
  destruct (wait_for_query_times_out_after_budget accept_query
              (athena_script [] RUNNING) accept_copy utc_sample urlparse_s3
              (u "q-1") 20 3 stage3_start)
    as (w' & Hrun & Hfetches & _).
  - lia.
  - lia.
  - intros i _. eexists. split; [reflexivity|]. by destruct i.
  - exists w'. split; [exact Hrun|exact Hfetches].
Defined.

Lemma lambda_handler_raises_on_failed_query_witness :
  exists w',
    lambda_handler accept_query (athena_script [RUNNING; FAILED] FAILED)
      accept_copy utc_sample urlparse_s3 (PDict []) PNone stage3_start
    = (Raise (RuntimeError (u "Athena query failed with state: FAILED")), w')
    /\ copies w' = [].
Proof.
  destruct (lambda_handler_raises_on_failed_query accept_query
              (athena_script [RUNNING; FAILED] FAILED) accept_copy utc_sample urlparse_s3
              (PDict []) PNone stage3_start (u "q-1") FAILED
              (snd (wait_for_query (athena_script [RUNNING; FAILED] FAILED) (u "q-1") 20 3
                      (after_start (PDict []) (u "q-1") stage3_start))))
    as (w' & Hrun & _ & Hcopies & _).
  - reflexivity.
  - reflexivity.
  - discriminate.
  - exists w'. split; [exact Hrun|exact Hcopies].
Defined.

Lemma lambda_handler_archives_on_success_witness :
  exists w',
    lambda_handler accept_query (athena_script [RUNNING; SUCCEEDED] SUCCEEDED)
      accept_copy utc_sample urlparse_s3 (PDict []) PNone stage3_start
    = (Ok (success_payload
             (u "s3://healthcare-facility/transformed/state_counts_20240102T030405Z.csv")),
       w')
    /\ copies w' =
       [CopyRequest (u "healthcare-facility")
          (u "transformed/state_counts_20240102T030405Z.csv")
          (u "healthcare-facility", u "athena_results/q-1.csv")].
Proof.
  destruct (lambda_handler_archives_on_success accept_query
              (athena_script [RUNNING; SUCCEEDED] SUCCEEDED) accept_copy utc_sample
              urlparse_s3 (PDict []) PNone stage3_start (u "q-1")
              (snd (wait_for_query (athena_script [RUNNING; SUCCEEDED] SUCCEEDED)
                      (u "q-1") 20 3 (after_start (PDict []) (u "q-1") stage3_start)))
              (QueryExecution SUCCEEDED
                 (Some (u "s3://healthcare-facility/athena_results/q-1.csv")))
              (u "s3://healthcare-facility/athena_results/q-1.csv")
              (ParseResult (u "healthcare-facility") (u "/athena_results/q-1.csv")))
    as (w' & Hrun & Hcopies & _).
  - reflexivity.
  - reflexivity.
  - reflexivity.
  - reflexivity.
  - reflexivity.
  - reflexivity.
  - exists w'. split; [exact Hrun|exact Hcopies].
Defined.

(** The body the handler returns is this JSON text. *)
Example success_body_text :
  py_get
    (success_payload
       (u "s3://healthcare-facility/transformed/state_counts_20240102T030405Z.csv"))
    (u "body") PNone
  = Ok (PStr
          ([123; 34]%N ++ u "message" ++ [34]%N ++ u ": " ++ [34]%N
           ++ u "Athena state counts query completed" ++ [34; 44; 32; 34]%N
           ++ u "result_path" ++ [34]%N ++ u ": " ++ [34]%N
           ++ u "s3://healthcare-facility/transformed/state_counts_20240102T030405Z.csv"
           ++ [34; 125]%N)).
Proof. reflexivity. Qed.
(** ** The further properties on concrete inputs *)

Lemma wait_for_query_without_budget_witness :
  wait_for_query (athena_script [SUCCEEDED] SUCCEEDED) (u "q-1") 0 3 stage3_start
  = (Raise (TimeoutError (u "Athena query timed out")), stage3_start).
Proof.
  apply (wait_for_query_without_budget (athena_script [SUCCEEDED] SUCCEEDED)). lia.
Defined.

Lemma fetch_error_ends_polling_witness :
  exists w',
    wait_for_query athena_throttled (u "q-1") 20 3 stage3_start
      = (Raise (ClientError (u "ThrottlingException")), w')
    /\ fetches w' = 3.
Proof.
  destruct (fetch_error_ends_polling accept_query athena_throttled accept_copy utc_sample
              urlparse_s3 (u "q-1") 20 3 stage3_start 2
              (ClientError (u "ThrottlingException")))
    as [(w' & Hrun & Hfetches) _].
  - lia.
  - vm_compute. lia.
  - intros i Hi. destruct i as [|[|i]]; [eexists; split; reflexivity..|lia].
  - reflexivity.
  - exists w'. split; [exact Hrun|exact Hfetches].
Defined.

Lemma negative_delay_witness :
  exists w',
    wait_for_query (athena_script [] RUNNING) (u "q-1") 20 (-1) stage3_start
      = (Raise ValueError, w')
    /\ fetches w' = 1 /\ slept w' = [].
Proof.
  destruct (negative_delay (athena_script [] RUNNING) (u "q-1") 20 (-1) stage3_start
              (QueryExecution RUNNING
                 (Some (u "s3://healthcare-facility/athena_results/q-1.csv"))))
    as (w' & Hrun & Hfetches & Hslept).
  - lia.
  - lia.
  - reflexivity.
  - exists w'. split; [exact Hrun|]. split; [exact Hfetches|exact Hslept].
Defined.

Lemma start_failure_propagates_witness :
  exists w',
    lambda_handler refuse_query (athena_script [SUCCEEDED] SUCCEEDED) accept_copy
      utc_sample urlparse_s3 (PDict []) PNone stage3_start
    = (Raise (ClientError (u "InvalidRequestException")), w')
    /\ observable w' = observable stage3_start.
Proof.
  destruct (start_failure_propagates refuse_query (athena_script [SUCCEEDED] SUCCEEDED)
              accept_copy utc_sample urlparse_s3 (PDict []) PNone stage3_start
              (ClientError (u "InvalidRequestException")))
    as (w' & Hrun & Hobs & _).
  - reflexivity.
  - exists w'. split; [exact Hrun|exact Hobs].
Defined.

Lemma copy_failure_propagates_witness :
  exists w',
    lambda_handler accept_query (athena_script [SUCCEEDED] SUCCEEDED) reject_copy
      utc_sample urlparse_s3 (PDict []) PNone stage3_start
    = (Raise (ClientError (u "AccessDenied")), w')
    /\ copies w' = [].
Proof.
  destruct (copy_failure_propagates accept_query (athena_script [SUCCEEDED] SUCCEEDED)
              reject_copy utc_sample urlparse_s3 (PDict []) PNone stage3_start (u "q-1")
              (snd (wait_for_query (athena_script [SUCCEEDED] SUCCEEDED) (u "q-1") 20 3
                      (after_start (PDict []) (u "q-1") stage3_start)))
              (QueryExecution SUCCEEDED
                 (Some (u "s3://healthcare-facility/athena_results/q-1.csv")))
              (u "s3://healthcare-facility/athena_results/q-1.csv")
              (ParseResult (u "healthcare-facility") (u "/athena_results/q-1.csv"))
              (ClientError (u "AccessDenied")))
    as (w' & Hrun & Hcopies & _).
  - reflexivity.
  - reflexivity.
  - reflexivity.
  - reflexivity.
  - reflexivity.
  - reflexivity.
  - exists w'. split; [exact Hrun|exact Hcopies].
Defined.

Lemma unresolved_source_propagates_witness :
  exists w',
    lambda_handler accept_query athena_without_location accept_copy
      utc_sample urlparse_s3 (PDict []) PNone stage3_start
    = (Raise KeyError, w')
    /\ copies w' = [] /\ utc_reads w' = 0.
Proof.
  destruct (unresolved_source_propagates accept_query athena_without_location accept_copy
              utc_sample urlparse_s3 (PDict []) PNone stage3_start (u "q-1")
              (snd (wait_for_query athena_without_location (u "q-1") 20 3
                      (after_start (PDict []) (u "q-1") stage3_start)))
              KeyError)
    as (w' & Hrun & Hcopies & Hutc & _).
  - reflexivity.
  - reflexivity.
  - right. exists (QueryExecution SUCCEEDED None). split; [reflexivity|].
    left. split; reflexivity.
  - exists w'. split; [exact Hrun|]. split; [exact Hcopies|exact Hutc].
Defined.

Lemma payload_only_after_success_witness :
  exists id n response,
    accept_query STATE_COUNTS_QUERY ATHENA_DB ATHENA_OUTPUT_LOCATION = Ok id
    /\ athena_script [RUNNING; SUCCEEDED] SUCCEEDED n id = Ok response
    /\ State response = u "SUCCEEDED".
Proof.
  destruct (payload_only_after_success accept_query
              (athena_script [RUNNING; SUCCEEDED] SUCCEEDED) accept_copy utc_sample
              urlparse_s3 (PDict []) PNone stage3_start
              (success_payload
                 (u "s3://healthcare-facility/transformed/state_counts_20240102T030405Z.csv"))
              (snd (lambda_handler accept_query
                      (athena_script [RUNNING; SUCCEEDED] SUCCEEDED) accept_copy
                      utc_sample urlparse_s3 (PDict []) PNone stage3_start)))
    as (id & n & response & parsed & stamp & Hstart & _ & Hget & Hstate & _).
  - vm_compute. reflexivity.
  - exists id, n, response. split; [exact Hstart|]. split; [exact Hget|exact Hstate].
Defined.

Lemma event_is_only_logged_witness :
  fst (lambda_handler accept_query (athena_script [RUNNING; SUCCEEDED] SUCCEEDED)
         accept_copy utc_sample urlparse_s3 (PDict []) PNone stage3_start)
  = fst (lambda_handler accept_query (athena_script [RUNNING; SUCCEEDED] SUCCEEDED)
           accept_copy utc_sample urlparse_s3
           (PDict [(u "Records", PList [PInt 1])]) (PStr (u "ctx")) stage3_start).
Proof.
  destruct (event_is_only_logged accept_query
              (athena_script [RUNNING; SUCCEEDED] SUCCEEDED) accept_copy utc_sample
              urlparse_s3 (PDict []) PNone (PDict [(u "Records", PList [PInt 1])])
              (PStr (u "ctx")) stage3_start stage3_start)
    as [Hresult _].
  - reflexivity.
  - exact Hresult.
Defined.

Lemma successful_invocation_accounting_witness :
  exists w',
    lambda_handler accept_query (athena_script [RUNNING; RUNNING; SUCCEEDED] SUCCEEDED)
      accept_copy utc_sample urlparse_s3 (PDict []) PNone stage3_start
    = (Ok (success_payload
             (u "s3://healthcare-facility/transformed/state_counts_20240102T030405Z.csv")),
       w')
    /\ fetches w' = 4
    /\ slept w' = [3; 3]%Z.
Proof.
  destruct (successful_invocation_accounting accept_query
              (athena_script [RUNNING; RUNNING; SUCCEEDED] SUCCEEDED) accept_copy
              utc_sample urlparse_s3 (PDict []) PNone stage3_start (u "q-1") 2
              (QueryExecution SUCCEEDED
                 (Some (u "s3://healthcare-facility/athena_results/q-1.csv")))
              (QueryExecution SUCCEEDED
                 (Some (u "s3://healthcare-facility/athena_results/q-1.csv")))
              (u "s3://healthcare-facility/athena_results/q-1.csv")
              (ParseResult (u "healthcare-facility") (u "/athena_results/q-1.csv")))
    as (w' & Hrun & _ & Hfetches & Hslept & _).
  - reflexivity.
  - lia.
  - intros i Hi. destruct i as [|[|i]]; [eexists; split; reflexivity..|lia].
  - reflexivity.
  - reflexivity.
  - reflexivity.
  - reflexivity.
  - reflexivity.
  - reflexivity.
  - exists w'. split; [exact Hrun|]. split; [exact Hfetches|exact Hslept].
Defined.

End Stage3LambdaFacts.
